(** * WildfireAnalysisGentineLab: the two visualisation scripts

    A shallow embedding of
      - [data_visualizations/map_fires_vs_precip.py]  (module [Synthetic])
      - [data_visualizations/ca_fires_2000-2015.py]   (module [Wildfire])
    and the properties the specification states about them.  The models
    come first, then the vocabulary of the statements ([SyntheticSpec],
    [WildfireSpec]), then the lemmas, and the properties themselves in the
    modules whose names end in [Claims].

    Libraries.  numpy's generator is a parameter (class [RandomState]):
    the script is modelled for every generator.  pandas and sqlite3 are
    modelled as far as the scripts use them: [pd.cut] with a number of
    bins, [groupby] with [size], [sum], [mean] and [count],
    [value_counts], [nlargest], [read_sql_query] for the one query.

    Numbers.  Python floats are modelled by exact rationals ([Q]); the
    places where numpy or pandas produce a value that is not a finite
    number (a division by zero, the minimum of an empty column, a missing
    cell) are written out as [None].  Equality of rationals is [==].
    The one computation whose rounding decides what the program does, the
    bin edges of [pd.cut], is carried out in binary64 ([SpecFloat]).

    Effects.  Statements that read or write module-level state, draw from
    the global random generator, print, or raise are written in a small
    state-and-exception monad [Py]. *)

From Stdlib Require Import ZArith QArith Qminmax Qabs Lia Lqa List String Bool SpecFloat.
From Stdlib Require Import Sorting.Sorted Sorting.Permutation Sorting.Mergesort.
From stdpp Require Import base option list gmap strings sorting pretty.
Import ListNotations.

Local Open Scope string_scope.
Local Open Scope Z_scope.
Local Open Scope Q_scope.

(** ** Python runtime: exceptions, state, loops *)

Inductive exn : Type :=
| KeyError (key : string)
| ValueError (msg : string)
| TypeError (msg : string)
| DatabaseError (msg : string).

Inductive result (A : Type) : Type :=
| Ok (a : A)
| Raise (e : exn).
Arguments Ok {A} a.
Arguments Raise {A} e.

Definition Py (S A : Type) : Type := S -> result A * S.

Definition ret {S A} (a : A) : Py S A := fun s => (Ok a, s).

Definition bind {S A B} (c : Py S A) (k : A -> Py S B) : Py S B :=
  fun s => match c s with
           | (Ok a, s') => k a s'
           | (Raise e, s') => (Raise e, s')
           end.

Definition raise {S A} (e : exn) : Py S A := fun s => (Raise e, s).

Definition get {S} : Py S S := fun s => (Ok s, s).
Definition modify {S} (f : S -> S) : Py S unit := fun s => (Ok tt, f s).

(** [try: c  except Exception as e: h e] *)
Definition try_except {S A} (c : Py S A) (h : exn -> Py S A) : Py S A :=
  fun s => match c s with
           | (Ok a, s') => (Ok a, s')
           | (Raise e, s') => h e s'
           end.

Declare Scope py_scope.
Delimit Scope py_scope with py.
Notation "x <- c ;; k" := (bind c (fun x => k))
  (at level 100, c at next level, right associativity) : py_scope.
Notation "c ;;; k" := (bind c (fun _ => k))
  (at level 100, right associativity) : py_scope.
Local Open Scope py_scope.

(** [for x in xs: body x] *)
Fixpoint for_ {S A} (xs : list A) (body : A -> Py S unit) : Py S unit :=
  match xs with
  | [] => ret tt
  | x :: xs' => body x ;;; for_ xs' body
  end.

(** Total correctness triples: from a state satisfying [P] the command
    returns normally in a state satisfying [R]. *)
Definition returns {S A} (P : S -> Prop) (c : Py S A) (R : A -> S -> Prop) : Prop :=
  forall s, P s -> exists a s', c s = (Ok a, s') /\ R a s'.

(** Python's [max(0, x)]: the second argument wins only when it compares
    greater than the first. *)
Definition Qlt_bool (x y : Q) : bool := negb (Qle_bool y x).

Definition py_max0 (x : Q) : Q := if Qlt_bool 0 x then x else 0.

(** The same comparison and choice on IEEE 754 values, with their nan,
    signed zeros and infinities. *)
Definition py_max0_binary64 (x : spec_float) : spec_float :=
  if SFltb (S754_zero false) x then x else S754_zero false.

(** Element-wise float division of numpy: a zero divisor gives [nan] or
    [inf], never a finite number and never an exception. *)
Definition np_div (a b : Q) : option Q :=
  if Qeq_bool b 0 then None else Some (a / b).

(** [Series.min()] and [Series.max()] of a column without missing cells:
    [nan] for the empty column. *)
Fixpoint col_min (xs : list Q) : option Q :=
  match xs with
  | [] => None
  | x :: xs' => match col_min xs' with
                | None => Some x
                | Some m => Some (Qmin x m)
                end
  end.

Fixpoint col_max (xs : list Q) : option Q :=
  match xs with
  | [] => None
  | x :: xs' => match col_max xs' with
                | None => Some x
                | Some m => Some (Qmax x m)
                end
  end.

(** ** map_fires_vs_precip.py *)

Module Synthetic.

(** The global numpy generator.  [np_seed n] is [np.random.seed(n)]; the
    three draws return the value and the advanced generator state. *)
Class RandomState (G : Type) : Type := {
  np_seed : Z -> G -> G;
  np_normal : Q -> Q -> G -> Q * G;
  np_uniform : Q -> Q -> G -> Q * G;
  np_rand : G -> Q * G
}.

Definition states : list string :=
  ["AL";"AK";"AZ";"AR";"CA";"CO";"CT";"DE";"FL";"GA";"HI";"ID";"IL";"IN";"IA";"KS";
   "KY";"LA";"ME";"MD";"MA";"MI";"MN";"MS";"MO";"MT";"NE";"NV";"NH";"NJ";"NM";
   "NY";"NC";"ND";"OH";"OK";"OR";"PA";"RI";"SC";"SD";"TN";"TX";"UT";"VT";"VA";
   "WA";"WV";"WI";"WY";"DC"].

(** [list(range(2000, 2026))] *)
Definition years : list Z :=
  List.map (fun i => (2000 + Z.of_nat i)%Z) (seq 0 26).

Definition west : gset string :=
  list_to_set ["CA";"OR";"WA";"NV";"AZ";"NM";"CO";"UT";"ID";"MT";"WY"].
Definition southeast : gset string :=
  list_to_set ["FL";"GA";"AL";"MS";"LA";"SC";"NC";"TN";"KY"].
Definition northeast : gset string :=
  list_to_set ["ME";"NH";"VT";"MA";"RI";"CT";"NY";"NJ";"PA";"MD";"DE"].
Definition midwest : gset string :=
  list_to_set ["OH";"MI";"IN";"IL";"WI";"MN";"IA";"MO";"ND";"SD";"NE";"KS"].
Definition islands : gset string :=
  list_to_set ["HI";"AK"].

Record row : Type := mkRow {
  state : string;
  year : Z;
  precip_mm : Q;
  wildfire_index : Q
}.

Section Generator.
Context {G : Type} `{RandomState G}.

(** Module-level variables of the script. *)
Record globals : Type := mkGlobals {
  rng : G;
  base_precip : gmap string Q;
  base_wild : gmap string Q;
  rows : list row
}.

Definition seed (n : Z) : Py globals unit :=
  modify (fun g => mkGlobals (np_seed n (rng g)) (base_precip g) (base_wild g) (rows g)).

Definition draw (f : G -> Q * G) : Py globals Q :=
  fun g => let (x, r) := f (rng g) in
           (Ok x, mkGlobals r (base_precip g) (base_wild g) (rows g)).

Definition normal (loc scale : Q) : Py globals Q := draw (np_normal loc scale).
Definition uniform (low high : Q) : Py globals Q := draw (np_uniform low high).
Definition rand : Py globals Q := draw np_rand.

(** [base_precip[st] = v] and [base_wild[st] = v] *)
Definition set_base_precip (st : string) (v : Q) : Py globals unit :=
  modify (fun g => mkGlobals (rng g) (<[st := v]> (base_precip g)) (base_wild g) (rows g)).
Definition set_base_wild (st : string) (v : Q) : Py globals unit :=
  modify (fun g => mkGlobals (rng g) (base_precip g) (<[st := v]> (base_wild g)) (rows g)).

(** [base_precip[st]] and [base_wild[st]]: a missing key raises. *)
Definition get_base_precip (st : string) : Py globals Q :=
  fun g => match base_precip g !! st with
           | Some v => (Ok v, g)
           | None => (Raise (KeyError st), g)
           end.
Definition get_base_wild (st : string) : Py globals Q :=
  fun g => match base_wild g !! st with
           | Some v => (Ok v, g)
           | None => (Raise (KeyError st), g)
           end.

(** [rows.append(r)] *)
Definition rows_append (r : row) : Py globals unit :=
  modify (fun g => mkGlobals (rng g) (base_precip g) (base_wild g) (rows g ++ [r])).

Definition baseline (st : string) (mu sigma low high : Q) : Py globals unit :=
  p <- normal mu sigma ;;
  set_base_precip st p ;;;
  w <- uniform low high ;;
  set_base_wild st w.

(** Lines 31-51: per-state baselines, by region. *)
Definition draw_baselines : Py globals unit :=
  modify (fun g => mkGlobals (rng g) ∅ ∅ (rows g)) ;;;
  for_ states (fun st =>
    if bool_decide (st ∈ west) then baseline st 600 120 30 80
    else if bool_decide (st ∈ southeast) then baseline st 1300 200 5 25
    else if bool_decide (st ∈ northeast) then baseline st 1100 200 2 15
    else if bool_decide (st ∈ midwest) then baseline st 900 180 3 20
    else if bool_decide (st ∈ islands) then baseline st 1500 300 1 10
    else baseline st 800 200 2 30).

(** Lines 59-71: one (state, year) row. *)
Definition build_row (yr : Z) (year_frac : Q) (st : string) : Py globals unit :=
  bp <- get_base_precip st ;;
  n1 <- normal 0 (8 # 100) ;;
  n2 <- normal 0 (3 # 100) ;;
  let precip := bp * (1 + n1) * (1 + n2 * year_frac) in
  bw <- get_base_wild st ;;
  n3 <- normal 0 (25 # 100) ;;
  let wild := bw * (1 + (9 # 10) * year_frac) * (1 + n3) in
  wild' <- (if bool_decide (st ∈ west) then
              r <- rand ;;
              if Qlt_bool r ((8 # 100) + (12 # 100) * year_frac) then
                u <- uniform (15 # 10) 4 ;;
                ret (wild * u)
              else ret wild
            else ret wild) ;;
  rows_append (mkRow st yr (py_max0 precip) (py_max0 wild')).

(** Lines 54-71. *)
Definition build_rows : Py globals unit :=
  modify (fun g => mkGlobals (rng g) (base_precip g) (base_wild g) []) ;;;
  for_ years (fun yr =>
    let year_frac := inject_Z (yr - 2000) / 25 in
    for_ states (build_row yr year_frac)).

(** Lines 13-73: the table handed to [pd.DataFrame]. *)
Definition generate : Py globals (list row) :=
  seed 42 ;;;
  draw_baselines ;;;
  build_rows ;;;
  g <- get ;;
  ret (rows g).

(** A fresh interpreter: the generator is in whatever state the process
    start left it in, nothing else is defined yet. *)
Definition fresh_process (g0 : G) : globals := mkGlobals g0 ∅ ∅ [].

Definition run (g0 : G) : result (list row) := fst (generate (fresh_process g0)).

End Generator.

(** Lines 76-77: min-max scaling of one column against the whole column. *)
Definition scale (lo hi : option Q) (x : Q) : option Q :=
  match lo, hi with
  | Some l, Some h => np_div (x - l) (h - l)
  | _, _ => None
  end.

Record irow : Type := mkIRow {
  raw : row;
  precip_intensity : option Q;
  wildfire_intensity : option Q
}.

Definition add_intensities (df : list row) : list irow :=
  let pmin := col_min (List.map precip_mm df) in
  let pmax := col_max (List.map precip_mm df) in
  let wmin := col_min (List.map wildfire_index df) in
  let wmax := col_max (List.map wildfire_index df) in
  List.map (fun r => mkIRow r (scale pmin pmax (precip_mm r))
                            (scale wmin wmax (wildfire_index r))) df.

(** Line 87 and 139: [df[df["year"] == y]], the rows of one animation
    frame. *)
Definition frame_rows (y : Z) (df : list irow) : list irow :=
  List.filter (fun r => Z.eqb (year (raw r)) y) df.

(** A small linear congruential generator, used to run the script. *)
Module Lcg.
Definition modulus : Z := 256.
Definition next (s : Z) : Z := ((5 * s + 3) mod modulus)%Z.
Definition unit_of (s : Z) : Q := Qmake s 256.
#[export] Instance lcg : RandomState Z := {|
  np_seed := fun n _ => (n mod modulus)%Z;
  np_normal := fun loc scale s =>
    let s1 := next s in let s2 := next s1 in
    (loc + scale * (2 * (unit_of s1 + unit_of s2 - 1)), s2);
  np_uniform := fun low high s =>
    let s1 := next s in (low + (high - low) * unit_of s1, s1);
  np_rand := fun s => let s1 := next s in (unit_of s1, s1)
|}.
End Lcg.

(** A generator whose draws give every state the same precipitation in
    every year: each baseline draw of the normal distribution is 900, each
    noise draw is its mean 0, a uniform draw is the lower end of its
    range, and [rand()] is 1/2. *)
Module Level.
End Level.

End Synthetic.

(** ** ca_fires_2000-2015.py *)

Module Wildfire.

(** *** Tables *)

(** One row of the nine selected columns.  [None] is a missing cell
    (SQL NULL, pandas NaN/None). *)
Record fire : Type := mkFire {
  FIRE_NAME : option string;
  STATE : string;
  FIRE_YEAR : Z;
  LATITUDE : option Q;
  LONGITUDE : option Q;
  FIRE_SIZE : Q;
  FIRE_SIZE_CLASS : string;
  STAT_CAUSE_CODE : Q;
  STAT_CAUSE_DESCR : string
}.

Definition columns : list string :=
  ["FIRE_NAME"; "STATE"; "FIRE_YEAR"; "LATITUDE"; "LONGITUDE"; "FIRE_SIZE";
   "FIRE_SIZE_CLASS"; "STAT_CAUSE_CODE"; "STAT_CAUSE_DESCR"].

(** A row of the [Fires] table: the nine columns the query selects and
    the columns it does not. *)
Record db_row : Type := mkDbRow {
  selected : fire;
  unselected : list (string * string)
}.

(** A cell of a column added after loading.  [Mid i] is the centre of
    the [i]-th interval of a binning: the column keeps which interval it
    is, its numeric value (computed by pandas from end points rounded for
    display) is not modelled. *)
Inductive cell : Type :=
| NA
| Int (n : Z)
| Float (q : Q)
| Mid (i : nat).

(** dtype of the [FIRE_SIZE] column.  pandas infers [float64] from the
    values that were read; a result set without rows leaves every column
    at [object]. *)
Inductive dtype : Type := float64 | object.

(** A column added after loading.  A categorical column also carries its
    categories, observed in the data or not. *)
Record column : Type := mkCol {
  categories : option (list cell);
  cells : list cell
}.

Record DataFrame : Type := mkDF {
  size_dtype : dtype;
  records : list fire;
  extra : list (string * column)
}.

(** *** Interpreter state *)

(** What [sqlite3.connect] finds at a path: it cannot open the file (the
    directory is missing, no permission), or it opens a database (creating
    an empty one if the file does not exist) in which the query either
    fails ([None]: no [Fires] table, not a database, a column is missing)
    or runs over the rows of [Fires]. *)
Inductive db_file : Type :=
| Unopenable
| Opens (fires : option (list db_row)).

Record connection : Type := mkConn {
  target : option (list db_row);
  is_open : bool
}.

Inductive call : Type :=
| Connect (path : string)
| Query (conn : nat)
| Close (conn : nat).

(** Pieces of a printed line: literal text and formatted values. The
    rendering of a format specification is not modelled. *)
Inductive piece : Type :=
| Txt (s : string)
| Num (n : Z)                (* {n:,} *)
| Val (v : option Z)         (* {v}, nan when absent *)
| Fix0 (x : Q)               (* {x:,.0f} *)
| Fix1 (x : option Q)        (* {x:.1f}, nan when absent *)
| Exc (e : exn)              (* {e} *)
| Names (l : list string)    (* {list(df.columns)} *)
| Table (d : DataFrame).     (* d.to_string() *)

Definition line : Type := list piece.

Definition loc : Type := nat.

Record pystate : Type := mkState {
  files : string -> db_file;
  conns : list connection;
  calls : list call;
  heap : list DataFrame;
  stdout : list line
}.

Definition print (l : line) : Py pystate unit :=
  modify (fun s => mkState (files s) (conns s) (calls s) (heap s) (stdout s ++ [l])).

Definition log (c : call) : Py pystate unit :=
  modify (fun s => mkState (files s) (conns s) (calls s ++ [c]) (heap s) (stdout s)).

(** Allocation of a new frame object. *)
Definition new_frame (df : DataFrame) : Py pystate loc :=
  fun s => (Ok (length (heap s)),
            mkState (files s) (conns s) (calls s) (heap s ++ [df]) (stdout s)).

Definition read_frame (l : loc) : Py pystate DataFrame :=
  fun s => match heap s !! l with
           | Some df => (Ok df, s)
           | None => (Raise (KeyError "dangling reference"), s)
           end.

Definition write_frame (l : loc) (df : DataFrame) : Py pystate unit :=
  modify (fun s => mkState (files s) (conns s) (calls s) (<[l := df]> (heap s)) (stdout s)).

(** *** sqlite3 and the query *)

Definition sqlite3_connect (path : string) : Py pystate nat :=
  log (Connect path) ;;;
  fun s => match files s path with
           | Unopenable => (Raise (DatabaseError "unable to open database file"), s)
           | Opens t =>
               (Ok (length (conns s)),
                mkState (files s) (conns s ++ [mkConn t true]) (calls s) (heap s) (stdout s))
           end.

Definition conn_close (c : nat) : Py pystate unit :=
  log (Close c) ;;;
  modify (fun s =>
    mkState (files s)
            (match conns s !! c with
             | Some k => <[c := mkConn (target k) false]> (conns s)
             | None => conns s
             end)
            (calls s) (heap s) (stdout s)).

(** [WHERE STATE = 'CA' AND FIRE_YEAR >= 2000 AND FIRE_YEAR <= 2015] *)
Definition where_clause (r : fire) : bool :=
  String.eqb (STATE r) "CA" && (2000 <=? FIRE_YEAR r)%Z && (FIRE_YEAR r <=? 2015)%Z.

(** [ORDER BY FIRE_YEAR, FIRE_SIZE DESC]: [a] may come before [b]. *)
Definition order_by (a b : fire) : bool :=
  (FIRE_YEAR a <? FIRE_YEAR b)%Z
  || ((FIRE_YEAR a =? FIRE_YEAR b)%Z && Qle_bool (FIRE_SIZE b) (FIRE_SIZE a)).

Definition precedes (a b : fire) : Prop := order_by a b = true.

#[export] Instance precedes_dec (a b : fire) : Decision (precedes a b).
Proof. unfold precedes. apply bool_eq_dec. Defined.

(** Lines 26-33: the rows the statement returns. *)
Definition query (fires : list db_row) : list fire :=
  merge_sort precedes (List.filter where_clause (List.map selected fires)).

(** [pd.read_sql_query(query, conn)] *)
Definition read_sql_query (c : nat) : Py pystate loc :=
  log (Query c) ;;;
  k <- (fun s => match conns s !! c with
                 | Some k => (Ok k, s)
                 | None => (Raise (DatabaseError "no such connection"), s)
                 end) ;;
  if is_open k then
    match target k with
    | Some fires =>
        let rows := query fires in
        new_frame (mkDF (match rows with [] => object | _ => float64 end) rows [])
    | None => raise (DatabaseError "no such table: Fires")
    end
  else raise (DatabaseError "Cannot operate on a closed database.").

(** [Series.min()] and [Series.max()] of an integer column. *)
Definition year_min (rows : list fire) : option Z :=
  match rows with
  | [] => None
  | r :: rs => Some (fold_left Z.min (List.map FIRE_YEAR rs) (FIRE_YEAR r))
  end.
Definition year_max (rows : list fire) : option Z :=
  match rows with
  | [] => None
  | r :: rs => Some (fold_left Z.max (List.map FIRE_YEAR rs) (FIRE_YEAR r))
  end.

Definition column_names (df : DataFrame) : list string :=
  (columns ++ List.map fst (extra df))%list.

Definition default_db_path : string := "../data/wild_fires.sqlite".

(** Lines 7-51. *)
Definition load_california_wildfires (db_path : string) : Py pystate (option loc) :=
  try_except
    (print [Txt "Loading California wildfire data (2000-2015)..."] ;;;
     conn <- sqlite3_connect db_path ;;
     df <- read_sql_query conn ;;
     conn_close conn ;;;
     d <- read_frame df ;;
     print [Txt "✓ Successfully loaded "; Num (Z.of_nat (length (records d)));
            Txt " California fires"] ;;;
     print [Txt "✓ Years: "; Val (year_min (records d)); Txt "-"; Val (year_max (records d))] ;;;
     print [Txt "✓ Columns: "; Names (column_names d)] ;;;
     ret (Some df))
    (fun e =>
     print [Txt "Error loading data: "; Exc e] ;;;
     ret None).

(** *** Frames: columns, copies, selections *)

Definition Qsum (l : list Q) : Q := fold_left Qplus l 0.

Definition lift {S A} (r : result A) : Py S A := fun s => (r, s).

(** [df[name] = col] for a column that is not one of the nine. *)
Fixpoint set_extra (name : string) (col : column) (ex : list (string * column))
  : list (string * column) :=
  match ex with
  | [] => [(name, col)]
  | (n, c) :: t =>
      if String.eqb n name then (n, col) :: t else (n, c) :: set_extra name col t
  end.

Fixpoint get_extra (name : string) (ex : list (string * column)) : option column :=
  match ex with
  | [] => None
  | (n, c) :: t => if String.eqb n name then Some c else get_extra name t
  end.

Definition set_column (l : loc) (name : string) (col : column) : Py pystate unit :=
  d <- read_frame l ;;
  write_frame l (mkDF (size_dtype d) (records d) (set_extra name col (extra d))).

Definition get_column (l : loc) (name : string) : Py pystate column :=
  d <- read_frame l ;;
  match get_extra name (extra d) with
  | Some c => ret c
  | None => raise (KeyError name)
  end.

(** [df.copy()] *)
Definition df_copy (l : loc) : Py pystate loc :=
  d <- read_frame l ;;
  new_frame d.

Fixpoint select {A} (mask : list bool) (xs : list A) : list A :=
  match mask, xs with
  | true :: m, x :: t => x :: select m t
  | false :: m, _ :: t => select m t
  | _, _ => []
  end.

(** [df[df['FIRE_YEAR'] == year]]: a new frame with the matching rows. *)
Definition df_where_year (l : loc) (y : Z) : Py pystate loc :=
  d <- read_frame l ;;
  let mask := List.map (fun r => (FIRE_YEAR r =? y)%Z) (records d) in
  new_frame (mkDF (size_dtype d) (select mask (records d))
                  (List.map (fun '(n, c) => (n, mkCol (categories c) (select mask (cells c))))
                            (extra d))).

(** *** pd.cut with an integer number of bins *)

Fixpoint present {A} (xs : list (option A)) : list A :=
  match xs with
  | [] => []
  | Some x :: t => x :: present t
  | None :: t => present t
  end.

(** Coordinates are finite binary64 values, written as the rationals
    they are.  The bin edges are computed by numpy and pandas in binary64,
    every operation rounded to nearest-even; [SpecFloat] specifies these
    operations.  A rational that is no binary64 value is rounded when it
    enters the computation, and one beyond the binary64 range reads as an
    infinite cell. *)
Definition prec : Z := 53.
Definition emax : Z := 1024.
Definition b64_add : spec_float -> spec_float -> spec_float := SFadd prec emax.
Definition b64_sub : spec_float -> spec_float -> spec_float := SFsub prec emax.
Definition b64_mul : spec_float -> spec_float -> spec_float := SFmul prec emax.
Definition b64_div : spec_float -> spec_float -> spec_float := SFdiv prec emax.
Definition b64_zero : spec_float := S754_zero false.

(** [float(n)] *)
Definition b64_of_Z (n : Z) : spec_float := binary_normalize prec emax n 0 false.

(** The binary64 value nearest to a rational: the quotient of numerator
    and denominator, rounded once. *)
Definition b64_of_Q (q : Q) : spec_float :=
  match Qnum q with
  | Z0 => S754_zero false
  | Zpos n =>
      let '(m, e, l) := SFdiv_core_binary prec emax (Zpos n) 0 (Zpos (Qden q)) 0 in
      binary_round_aux prec emax false m e l
  | Zneg n =>
      let '(m, e, l) := SFdiv_core_binary prec emax (Zpos n) 0 (Zpos (Qden q)) 0 in
      binary_round_aux prec emax true m e l
  end.

Definition is_inf (f : spec_float) : bool :=
  match f with S754_infinity _ => true | _ => false end.
Definition is_nan (f : spec_float) : bool :=
  match f with S754_nan => true | _ => false end.

(** [np.linspace(start, stop, n + 1)] for [n >= 1]:
    [step = (stop - start) / n], sample [i] is [i * step + start] (or
    [(i / n) * (stop - start) + start] when the step underflows to zero),
    and the last sample is [stop] itself. *)
Definition np_linspace (start stop : spec_float) (n : nat) : list spec_float :=
  let delta := b64_sub stop start in
  let div := b64_of_Z (Z.of_nat n) in
  let step := b64_div delta div in
  let y (i : nat) :=
    let fi := b64_of_Z (Z.of_nat i) in
    if SFeqb step b64_zero then b64_mul (b64_div fi div) delta else b64_mul fi step in
  (List.map (fun i => b64_add (y i) start) (seq 0 n) ++ [stop])%list.

(** The literal [0.001]. *)
Definition c001 : spec_float := b64_of_Q (1 # 1000).

(** Bin edges for values with minimum [mn] and maximum [mx]: equal-width
    over the range, then the lowest edge moved down by 0.1% of the range;
    a single-valued column gets a range widened by 0.1% of the value on
    both sides before the edges are taken. *)
Definition bin_edges (mn mx : spec_float) (bins : nat) : list spec_float :=
  if SFeqb mn mx then
    let lo := b64_sub mn (if negb (SFeqb mn b64_zero) then b64_mul c001 (SFabs mn)
                          else c001) in
    let hi := b64_add mx (if negb (SFeqb mx b64_zero) then b64_mul c001 (SFabs mx)
                          else c001) in
    np_linspace lo hi bins
  else
    match np_linspace mn mx bins with
    | e0 :: es => b64_sub e0 (b64_mul (b64_sub mx mn) c001) :: es
    | [] => []
    end.

(** Equality of [algos.unique] on floats: nan equals nan, the two zeros
    are equal. *)
Definition same_value (a b : spec_float) : bool :=
  SFeqb a b || (is_nan a && is_nan b).

Fixpoint distinct (l : list spec_float) : bool :=
  match l with
  | [] => true
  | x :: t => negb (existsb (same_value x) t) && distinct t
  end.

(** [edges.searchsorted(x, side='left')]: on the non-decreasing edges
    numpy computes, the number of leading edges below [x]. *)
Fixpoint searchsorted_left (edges : list spec_float) (x : spec_float) : nat :=
  match edges with
  | [] => 0
  | e :: es => if SFltb e x then S (searchsorted_left es x) else 0
  end.

(** The bin of a value in right-closed intervals; no bin for a missing
    value, one at or below the lowest edge, or one above the highest. *)
Definition bin_of (edges : list spec_float) (x : option Q) : option nat :=
  match x with
  | None => None
  | Some v =>
      let i := searchsorted_left edges (b64_of_Q v) in
      if Nat.eqb i 0 || Nat.eqb i (length edges) then None else Some (i - 1)%nat
  end.

(** The edges [pd.cut(col, bins=n)] computes, or the error it raises:
    on a number of bins below one, on an empty column, on an infinite
    minimum or maximum, and when the edges are not distinct (which is also
    what a column without any value gives: all its edges are nan), unless
    there are just two of them. *)
Definition cut_edges (col : list (option Q)) (bins : nat) : result (list spec_float) :=
  if (bins <? 1)%nat then Raise (ValueError "`bins` should be a positive integer.")
  else
    match col with
    | [] => Raise (ValueError "Cannot cut empty array")
    | _ =>
        let '(mn, mx) :=
          match col_min (present col), col_max (present col) with
          | Some mn, Some mx => (b64_of_Q mn, b64_of_Q mx)
          | _, _ => (S754_nan, S754_nan)
          end in
        if is_inf mn || is_inf mx then
          Raise (ValueError "cannot specify integer `bins` when input data contains infinity")
        else
          let es := bin_edges mn mx bins in
          if negb (distinct es) && negb (Nat.eqb (length es) 2) then
            Raise (ValueError "Bin edges must be unique")
          else Ok es
    end.

Definition opt_cell {A} (f : A -> cell) (o : option A) : cell :=
  match o with Some a => f a | None => NA end.

(** [pd.cut(col, bins=n, labels=False)] *)
Definition cut_labels (col : list (option Q)) (bins : nat) : result column :=
  match cut_edges col bins with
  | Ok edges =>
      Ok (mkCol None
            (List.map (fun x => opt_cell (fun i => Int (Z.of_nat i)) (bin_of edges x)) col))
  | Raise e => Raise e
  end.

(** [pd.cut(col, bins=n).apply(lambda x: x.mid)]: a categorical column
    whose categories are the centres of all [n] intervals, in the order of
    the intervals.  (The centres of different intervals are taken to be
    different; were two of them equal, pandas would give a column that is
    not categorical, which groups as a categorical one does under
    [observed=True].) *)
Definition cut_centers (col : list (option Q)) (bins : nat) : result column :=
  match cut_edges col bins with
  | Ok edges =>
      Ok (mkCol (Some (List.map Mid (seq 0 bins)))
            (List.map (fun x => opt_cell Mid (bin_of edges x)) col))
  | Raise e => Raise e
  end.

(** *** groupby *)

Definition key : Type := list cell.

Definition cell_compare (a b : cell) : comparison :=
  match a, b with
  | Int x, Int y => (x ?= y)%Z
  | Int x, Float y => inject_Z x ?= y
  | Float x, Int y => x ?= inject_Z y
  | Float x, Float y => x ?= y
  | Mid i, Mid j => (i ?= j)%nat
  | NA, NA => Eq
  | NA, _ => Gt
  | _, NA => Lt
  | Mid _, _ => Gt
  | _, Mid _ => Lt
  end.

Fixpoint key_compare (a b : key) : comparison :=
  match a, b with
  | [], [] => Eq
  | [], _ :: _ => Lt
  | _ :: _, [] => Gt
  | x :: a', y :: b' =>
      match cell_compare x y with
      | Eq => key_compare a' b'
      | c => c
      end
  end.

Definition is_na (c : cell) : bool :=
  match c with NA => true | _ => false end.

(** Groups are kept in key order; each holds the values of its rows in
    row order. *)
Fixpoint add_to_group (k : key) (v : Q) (gs : list (key * list Q)) : list (key * list Q) :=
  match gs with
  | [] => [(k, [v])]
  | (k', vs) :: t =>
      match key_compare k k' with
      | Lt => (k, [v]) :: (k', vs) :: t
      | Eq => (k', (vs ++ [v])%list) :: t
      | Gt => (k', vs) :: add_to_group k v t
      end
  end.

(** A group for a key combination that no row has. *)
Fixpoint ensure_group (k : key) (gs : list (key * list Q)) : list (key * list Q) :=
  match gs with
  | [] => [(k, [])]
  | (k', vs) :: t =>
      match key_compare k k' with
      | Lt => (k, []) :: (k', vs) :: t
      | Eq => (k', vs) :: t
      | Gt => (k', vs) :: ensure_group k t
      end
  end.

(** Row [i] of the key columns. *)
Definition key_rows (n : nat) (cols : list column) : list key :=
  List.map (fun i => List.map (fun c => nth i (cells c) NA) cols) (seq 0 n).

(** Rows with a missing key are in no group ([dropna=True]). *)
Definition observed_groups (keys : list key) (vals : list Q) : list (key * list Q) :=
  fold_left (fun gs '(k, v) => if existsb is_na k then gs else add_to_group k v gs)
            (combine keys vals) [].

Fixpoint insert_cell (c : cell) (l : list cell) : list cell :=
  match l with
  | [] => [c]
  | h :: t =>
      match cell_compare c h with
      | Lt => c :: h :: t
      | Eq => h :: t
      | Gt => h :: insert_cell c t
      end
  end.

(** The levels of a grouping column: all categories of a categorical
    column, the distinct values present of any other. *)
Definition levels (c : column) : list cell :=
  match categories c with
  | Some cats => cats
  | None => fold_right insert_cell [] (List.filter (fun x => negb (is_na x)) (cells c))
  end.

Fixpoint product (ls : list (list cell)) : list key :=
  match ls with
  | [] => [[]]
  | l :: rest => flat_map (fun c => List.map (cons c) (product rest)) l
  end.

Definition is_categorical (c : column) : bool :=
  match categories c with Some _ => true | None => false end.

(** *** Exploratory summary *)

Definition sort_by {A} (leb : A -> A -> bool) : list A -> list A :=
  @merge_sort A (fun a b => leb a b = true) (fun a b => decide (leb a b = true)).

Fixpoint count_value {A} (eqb : A -> A -> bool) (x : A) (cs : list (A * nat)) : list (A * nat) :=
  match cs with
  | [] => [(x, 1%nat)]
  | (y, n) :: t => if eqb x y then (y, S n) :: t else (y, n) :: count_value eqb x t
  end.

(** [Series.value_counts()]: distinct values with their frequencies, most
    frequent first. *)
Definition value_counts {A} (eqb : A -> A -> bool) (l : list A) : list (A * nat) :=
  sort_by (fun a b => Nat.leb (snd b) (snd a))
          (fold_left (fun cs x => count_value eqb x cs) l []).

(** [.sort_index()] of yearly counts. *)
Definition sort_index (cs : list (Z * nat)) : list (Z * nat) :=
  sort_by (fun a b => (fst a <=? fst b)%Z) cs.

(** [df.nlargest(n, 'FIRE_SIZE')]: refused for a column that is not
    numeric. *)
Definition nlargest (n : nat) (d : DataFrame) : result (list fire) :=
  match size_dtype d with
  | object =>
      Raise (TypeError "Column 'FIRE_SIZE' has dtype object, cannot use method 'nlargest' with this dtype")
  | float64 =>
      Ok (firstn n (sort_by (fun a b => Qle_bool (FIRE_SIZE b) (FIRE_SIZE a)) (records d)))
  end.

Definition count_none {A} (l : list (option A)) : nat :=
  length (List.filter (fun o => match o with None => true | Some _ => false end) l).

(** [df.isnull().sum()] *)
Definition isnull_sum (d : DataFrame) : list (string * nat) :=
  ([("FIRE_NAME", count_none (List.map FIRE_NAME (records d)));
    ("STATE", 0%nat);
    ("FIRE_YEAR", 0%nat);
    ("LATITUDE", count_none (List.map LATITUDE (records d)));
    ("LONGITUDE", count_none (List.map LONGITUDE (records d)));
    ("FIRE_SIZE", 0%nat);
    ("FIRE_SIZE_CLASS", 0%nat);
    ("STAT_CAUSE_CODE", 0%nat);
    ("STAT_CAUSE_DESCR", 0%nat)]
   ++ List.map (fun '(n, c) => (n, length (List.filter is_na (cells c)))) (extra d))%list.

(** [df.head(n)] *)
Definition head (n : nat) (d : DataFrame) : DataFrame :=
  mkDF (size_dtype d) (firstn n (records d))
       (List.map (fun '(name, c) => (name, mkCol (categories c) (firstn n (cells c)))) (extra d)).

Definition nl : string := String (Ascii.ascii_of_nat 10) "".
Definition rule : string := "==================================================".

(** Lines 53-99. *)
Definition explore_ca_data (df : option loc) : Py pystate unit :=
  match df with
  | None => ret tt
  | Some l =>
      d <- read_frame l ;;
      let rows := records d in
      let n := Z.of_nat (length rows) in
      print [Txt (nl +:+ rule)] ;;;
      print [Txt "CALIFORNIA WILDFIRE DATA SUMMARY"] ;;;
      print [Txt rule] ;;;
      print [Txt (nl +:+ "Dataset Info:")] ;;;
      print [Txt "  Total fires: "; Num n] ;;;
      print [Txt "  Years covered: "; Val (year_min rows); Txt "-"; Val (year_max rows)] ;;;
      print [Txt "  Total acres burned: "; Fix0 (Qsum (List.map FIRE_SIZE rows))] ;;;
      print [Txt "  Average fire size: ";
             Fix1 (np_div (Qsum (List.map FIRE_SIZE rows)) (inject_Z n)); Txt " acres"] ;;;
      print [Txt (nl +:+ "Fires by Year:")] ;;;
      for_ (sort_index (value_counts Z.eqb (List.map FIRE_YEAR rows)))
           (fun '(year, count) =>
              print [Txt "  "; Val (Some year); Txt ": "; Num (Z.of_nat count); Txt " fires"]) ;;;
      print [Txt (nl +:+ "Fire Size Classes:")] ;;;
      for_ (value_counts String.eqb (List.map FIRE_SIZE_CLASS rows))
           (fun '(size_class, count) =>
              print [Txt "  Class "; Txt size_class; Txt ": "; Num (Z.of_nat count); Txt " fires"]) ;;;
      print [Txt (nl +:+ "Top 10 Fire Causes:")] ;;;
      for_ (firstn 10 (value_counts String.eqb (List.map STAT_CAUSE_DESCR rows)))
           (fun '(cause, count) =>
              print [Txt "  "; Txt cause; Txt ": "; Num (Z.of_nat count); Txt " fires"]) ;;;
      print [Txt (nl +:+ "Largest Fires (Top 5):")] ;;;
      largest_fires <- lift (nlargest 5 d) ;;
      for_ largest_fires
           (fun fire =>
              let name := match FIRE_NAME fire with Some s => s | None => "Unknown" end in
              print [Txt "  "; Val (Some (FIRE_YEAR fire)); Txt " - "; Txt name; Txt ": ";
                     Fix0 (FIRE_SIZE fire); Txt " acres"]) ;;;
      print [Txt (nl +:+ "Missing Data:")] ;;;
      for_ (isnull_sum d)
           (fun '(col, missing_count) =>
              if (0 <? missing_count)%nat then
                let pct := option_map (fun q => q * 100)
                             (np_div (inject_Z (Z.of_nat missing_count)) (inject_Z n)) in
                print [Txt "  "; Txt col; Txt ": "; Num (Z.of_nat missing_count);
                       Txt " ("; Fix1 pct; Txt "%)"]
              else ret tt) ;;;
      print [Txt (nl +:+ "First 3 records:")] ;;;
      print [Table (head 3 d)]
  end.

Section Groupby.
(** The default of [groupby]'s [observed] parameter: [False] before
    pandas 3.0, [True] from then on. *)
Variable observed : bool.

(** [df.groupby(cols)] over [n] rows, with the [FIRE_SIZE] of each row.
    With [observed=False] and a categorical key, the result has a group
    for every combination of the levels of the key columns. *)
Definition groupby (n : nat) (cols : list column) (vals : list Q) : list (key * list Q) :=
  let gs := observed_groups (key_rows n cols) vals in
  if observed || negb (existsb is_categorical cols) then gs
  else fold_left (fun acc k => ensure_group k acc) (product (List.map levels cols)) gs.

Record agg_row : Type := mkAgg {
  group : key;
  values : list cell
}.

(** [.size()], [.sum()], [.mean()], [.count()] of a group. *)
Definition agg_size (vs : list Q) : cell := Int (Z.of_nat (length vs)).
Definition agg_sum (vs : list Q) : cell := Float (Qsum vs).
Definition agg_mean (vs : list Q) : cell :=
  opt_cell Float (np_div (Qsum vs) (inject_Z (Z.of_nat (length vs)))).

Definition aggregate (aggs : list (list Q -> cell)) (gs : list (key * list Q)) : list agg_row :=
  List.map (fun '(k, vs) => mkAgg k (List.map (fun f => f vs) aggs)) gs.

(** *** Figures *)

(** What is handed to [px.scatter_mapbox] and [fig.update_layout]; the
    rendering itself is plotly's. *)
Record Figure : Type := mkFigure {
  data : list agg_row;
  title : string;
  labels : list (string * string);
  animation_frame : option string;
  size_max : Z;
  height : Z
}.

(** Truth value of the [year] argument: [None] and [0] are false. *)
Definition truthy (year : option Z) : option Z :=
  match year with
  | Some y => if (y =? 0)%Z then None else Some y
  | None => None
  end.

(** Lines 128-135 and 192-198: the four bin columns, written into the
    frame at [l]. *)
Definition add_bins (l : loc) (lat_bins lon_bins : nat) : Py pystate unit :=
  d <- read_frame l ;;
  c <- lift (cut_labels (List.map LATITUDE (records d)) lat_bins) ;;
  set_column l "lat_bin" c ;;;
  d <- read_frame l ;;
  c <- lift (cut_labels (List.map LONGITUDE (records d)) lon_bins) ;;
  set_column l "lon_bin" c ;;;
  d <- read_frame l ;;
  lat_centers <- lift (cut_centers (List.map LATITUDE (records d)) lat_bins) ;;
  d <- read_frame l ;;
  lon_centers <- lift (cut_centers (List.map LONGITUDE (records d)) lon_bins) ;;
  set_column l "lat_center" lat_centers ;;;
  set_column l "lon_center" lon_centers.

(** [df.groupby(names)] on the frame at [l], with [FIRE_SIZE] as values. *)
Definition groupby_frame (l : loc) (names : list string) : Py pystate (list (key * list Q)) :=
  d <- read_frame l ;;
  cols <- (fix go (ns : list string) : Py pystate (list column) :=
             match ns with
             | [] => ret []
             | n :: ns' => c <- get_column l n ;; cs <- go ns' ;; ret (c :: cs)
             end) names ;;
  ret (groupby (length (records d)) cols (List.map FIRE_SIZE (records d))).

(** Lines 101-177. *)
Definition create_fire_choropleth (df : option loc) (metric : string) (year : option Z)
  : Py pystate (option Figure) :=
  match df with
  | None => print [Txt "No data available for visualization"] ;;; ret None
  | Some df =>
      plot_df <- df_copy df ;;
      sel <- match truthy year with
             | Some y => p <- df_where_year plot_df y ;; ret (p, " (" +:+ pretty y +:+ ")")
             | None => ret (plot_df, " (2000-2015)")
             end ;;
      let plot_df := fst sel in
      let title_year := snd sel in
      add_bins plot_df 20 20 ;;;
      let group_cols := ["lat_bin"; "lon_bin"; "lat_center"; "lon_center"] in
      agg <- (if String.eqb metric "fire_count" then
                gs <- groupby_frame plot_df group_cols ;;
                ret (Some (aggregate [agg_size] gs,
                           "California Wildfire Count by Region" +:+ title_year,
                           "Number of Fires"))
              else if String.eqb metric "total_acres" then
                gs <- groupby_frame plot_df group_cols ;;
                ret (Some (aggregate [agg_sum] gs,
                           "California Total Acres Burned by Region" +:+ title_year,
                           "Total Acres Burned"))
              else if String.eqb metric "avg_fire_size" then
                gs <- groupby_frame plot_df group_cols ;;
                ret (Some (aggregate [agg_mean] gs,
                           "California Average Fire Size by Region" +:+ title_year,
                           "Average Fire Size (Acres)"))
              else
                print [Txt "Invalid metric. Use 'fire_count', 'total_acres', or 'avg_fire_size'"] ;;;
                ret None) ;;
      match agg with
      | None => ret None
      | Some (agg_data, title, colorbar_title) =>
          ret (Some (mkFigure agg_data title [("value", colorbar_title)] None 30 700))
      end
  end.

(** Lines 179-230. *)
Definition create_time_series_map (df : option loc) : Py pystate (option Figure) :=
  match df with
  | None => print [Txt "No data available for visualization"] ;;; ret None
  | Some df =>
      df_viz <- df_copy df ;;
      add_bins df_viz 15 15 ;;;
      d <- read_frame df_viz ;;
      lat_bin <- get_column df_viz "lat_bin" ;;
      lon_bin <- get_column df_viz "lon_bin" ;;
      lat_center <- get_column df_viz "lat_center" ;;
      lon_center <- get_column df_viz "lon_center" ;;
      let fire_year := mkCol None (List.map (fun r => Int (FIRE_YEAR r)) (records d)) in
      let yearly_data :=
        aggregate [agg_size; agg_sum]
          (groupby (length (records d))
                   [fire_year; lat_bin; lon_bin; lat_center; lon_center]
                   (List.map FIRE_SIZE (records d))) in
      ret (Some (mkFigure yearly_data "California Wildfire Activity Over Time (2000-2015)"
                          [("fire_count", "Number of Fires"); ("total_acres", "Total Acres Burned")]
                          (Some "FIRE_YEAR") 25 700))
  end.

End Groupby.

End Wildfire.

(** ** Vocabulary for the properties of the generator *)

Module SyntheticSpec.
Import Synthetic.

Definition nonneg (r : row) : Prop := 0 <= precip_mm r /\ 0 <= wildfire_index r.

Definition key (r : row) : Z * string := (year r, state r).

Section Globals.
Context {G : Type}.

(** Both dictionaries have an entry for every state of the list. *)
Definition covers (sts : list string) (g : @globals G) : Prop :=
  forall st, In st sts -> is_Some (base_precip g !! st) /\ is_Some (base_wild g !! st).

(** Loop invariant of lines 55-71. *)
Definition built (ks : list (Z * string)) (g : @globals G) : Prop :=
  covers states g /\ Forall nonneg (rows g) /\ List.map key (rows g) = ks.

End Globals.

(** The column has two different values. *)
Definition spread (col : list Q) : Prop :=
  match col_min col, col_max col with
  | Some lo, Some hi => lo < hi
  | _, _ => False
  end.

(** A row whose two intensities are the metric values scaled between the
    given bounds. *)
Definition scaled (pl ph wl wh : Q) (r : irow) : Prop :=
  exists p w,
    precip_intensity r = Some p /\ wildfire_intensity r = Some w
    /\ p == (precip_mm (raw r) - pl) / (ph - pl)
    /\ w == (wildfire_index (raw r) - wl) / (wh - wl)
    /\ 0 <= p <= 1 /\ 0 <= w <= 1
    /\ (precip_mm (raw r) == pl -> p == 0) /\ (precip_mm (raw r) == ph -> p == 1)
    /\ (wildfire_index (raw r) == wl -> w == 0) /\ (wildfire_index (raw r) == wh -> w == 1).





End SyntheticSpec.

(** ** Vocabulary for the properties of the wildfire script *)

Module WildfireSpec.
Import Wildfire.

Definition missing {A} (o : option A) : bool :=
  match o with None => true | Some _ => false end.

(** The row has both coordinates. *)
Definition located (r : fire) : bool :=
  negb (missing (LATITUDE r)) && negb (missing (LONGITUDE r)).

(** The rows the builder bins: those of the given year, or all of them
    when [year] is [None] or [0]. *)
Definition plot_rows (year : option Z) (rows : list fire) : list fire :=
  match truthy year with
  | Some y => List.filter (fun r => (FIRE_YEAR r =? y)%Z) rows
  | None => rows
  end.

Definition complete (k : key) : bool := negb (existsb is_na k).

Definition group_total (gs : list (key * list Q)) : nat :=
  list_sum (List.map (fun g => length (snd g)) gs).

(** Sum of the [value] column of a table of counts. *)
Definition count_sum (rows : list agg_row) : Z :=
  fold_right (fun r acc => match values r with
                           | Int n :: _ => (n + acc)%Z
                           | _ => acc
                           end) 0%Z rows.

Definition with_heap (s : pystate) (h : list DataFrame) : pystate :=
  mkState (files s) (conns s) (calls s) h (stdout s).

Definition bin_columns : list string := ["lat_bin"; "lon_bin"; "lat_center"; "lon_center"].

(** Lines 122-177: the builder from the binning on, for the frame
    [plot_df] and the year suffix of the title. *)
Definition choropleth_from (observed : bool) (plot_df : loc) (title_year metric : string)
  : Py pystate (option Figure) :=
  add_bins plot_df 20 20 ;;;
  agg <- (if String.eqb metric "fire_count" then
            gs <- groupby_frame observed plot_df bin_columns ;;
            ret (Some (aggregate [agg_size] gs,
                       "California Wildfire Count by Region" +:+ title_year,
                       "Number of Fires"))
          else if String.eqb metric "total_acres" then
            gs <- groupby_frame observed plot_df bin_columns ;;
            ret (Some (aggregate [agg_sum] gs,
                       "California Total Acres Burned by Region" +:+ title_year,
                       "Total Acres Burned"))
          else if String.eqb metric "avg_fire_size" then
            gs <- groupby_frame observed plot_df bin_columns ;;
            ret (Some (aggregate [agg_mean] gs,
                       "California Average Fire Size by Region" +:+ title_year,
                       "Average Fire Size (Acres)"))
          else
            print [Txt "Invalid metric. Use 'fire_count', 'total_acres', or 'avg_fire_size'"] ;;;
            ret None) ;;
  match agg with
  | None => ret None
  | Some (agg_data, title, colorbar_title) =>
      ret (Some (mkFigure agg_data title [("value", colorbar_title)] None 30 700))
  end.

(** [keeps h0 c R]: run from a heap that starts with the frames [h0], the
    command leaves those frames as they are, whether it returns or
    raises, and a returned value satisfies [R]. *)
Definition keeps {A} (h0 : list DataFrame) (c : Py pystate A) (R : A -> Prop) : Prop :=
  forall s, h0 `prefix_of` heap s ->
            h0 `prefix_of` heap (snd (c s))
            /\ match fst (c s) with Ok a => R a | Raise _ => True end.

Definition fresh (h0 : list DataFrame) (l : loc) : Prop := (length h0 <= l)%nat.

(** What the summary prints for a table without rows: a count of zero,
    no year range, a total of zero, no mean, and every listing empty (each
    heading is followed directly by the next one). *)
Definition empty_summary (d : DataFrame) : list line :=
  [[Txt (nl +:+ rule)];
   [Txt "CALIFORNIA WILDFIRE DATA SUMMARY"];
   [Txt rule];
   [Txt (nl +:+ "Dataset Info:")];
   [Txt "  Total fires: "; Num 0];
   [Txt "  Years covered: "; Val None; Txt "-"; Val None];
   [Txt "  Total acres burned: "; Fix0 0];
   [Txt "  Average fire size: "; Fix1 None; Txt " acres"];
   [Txt (nl +:+ "Fires by Year:")];
   [Txt (nl +:+ "Fire Size Classes:")];
   [Txt (nl +:+ "Top 10 Fire Causes:")];
   [Txt (nl +:+ "Largest Fires (Top 5):")];
   [Txt (nl +:+ "Missing Data:")];
   [Txt (nl +:+ "First 3 records:")];
   [Table (head 3 d)]].

(** Every added column of the frame is empty, as in a frame without
    rows. *)
Definition no_cells (d : DataFrame) : Prop :=
  Forall (fun nc => cells (snd nc) = []) (extra d).

(** [pd.cut] computes the edges of the column without raising. *)
Definition cuts (col : list (option Q)) (bins : nat) : Prop :=
  exists edges, cut_edges col bins = Ok edges.

(** [pd.cut] computes the edges without raising and every cell of the
    column that holds a value falls into one of the intervals. *)
Definition all_binned (col : list (option Q)) (bins : nat) : bool :=
  match cut_edges col bins with
  | Ok edges =>
      forallb (fun x => match x, bin_of edges x with
                        | Some _, None => false
                        | _, _ => true
                        end) col
  | Raise _ => false
  end.

Definition binned (col : list (option Q)) (bins : nat) : Prop :=
  all_binned col bins = true.

(** All values of all groups. *)
Definition group_values (gs : list (key * list Q)) : list Q :=
  concat (List.map snd gs).

(** Sum of the [value] column of a table of sums. *)
Definition value_sum (rows : list agg_row) : Q :=
  fold_right (fun r acc => match values r with
                           | Float q :: _ => q + acc
                           | _ => acc
                           end) 0 rows.

(** Sum of the second aggregate of a table with two aggregates. *)
Definition second_sum (rows : list agg_row) : Q :=
  fold_right (fun r acc => match values r with
                           | _ :: Float q :: _ => q + acc
                           | _ => acc
                           end) 0 rows.

(** The four bin columns of a table, or the error of the first binning
    that fails. *)
Definition bin_table (rows : list fire) (n m : nat) : result (list column) :=
  match cut_labels (List.map LATITUDE rows) n with
  | Raise e => Raise e
  | Ok c1 =>
      match cut_labels (List.map LONGITUDE rows) m with
      | Raise e => Raise e
      | Ok c2 =>
          match cut_centers (List.map LATITUDE rows) n with
          | Raise e => Raise e
          | Ok c3 =>
              match cut_centers (List.map LONGITUDE rows) m with
              | Raise e => Raise e
              | Ok c4 => Ok [c1; c2; c3; c4]
              end
          end
      end
  end.

(** Title, data and colour-bar title of the map of a metric. *)
Definition metric_plot (metric : string) (gs : list (key * list Q))
  : option (string * list agg_row * string) :=
  if String.eqb metric "fire_count" then
    Some ("California Wildfire Count by Region", aggregate [agg_size] gs, "Number of Fires")
  else if String.eqb metric "total_acres" then
    Some ("California Total Acres Burned by Region", aggregate [agg_sum] gs,
          "Total Acres Burned")
  else if String.eqb metric "avg_fire_size" then
    Some ("California Average Fire Size by Region", aggregate [agg_mean] gs,
          "Average Fire Size (Acres)")
  else None.

(** The suffix of the title. *)
Definition title_year (year : option Z) : string :=
  match truthy year with
  | Some y => " (" +:+ pretty y +:+ ")"
  | None => " (2000-2015)"
  end.

(** What [create_fire_choropleth] makes of the rows it plots. *)
Definition plotted (observed : bool) (rows : list fire) (suffix metric : string)
  : result (option Figure) :=
  match bin_table rows 20 20 with
  | Raise e => Raise e
  | Ok cols =>
      match metric_plot metric (groupby observed (length rows) cols (List.map FIRE_SIZE rows)) with
      | Some (t, dat, cb) => Ok (Some (mkFigure dat (t +:+ suffix) [("value", cb)] None 30 700))
      | None => Ok None
      end
  end.

(** Two outcomes of a builder that agree up to the title of the figure:
    the same error, or no figure in both, or figures with the same data,
    labels and layout. *)
Definition same_plot (a b : result (option Figure)) : Prop :=
  match a, b with
  | Raise e1, Raise e2 => e1 = e2
  | Ok None, Ok None => True
  | Ok (Some f1), Ok (Some f2) =>
      data f1 = data f2 /\ labels f1 = labels f2
      /\ animation_frame f1 = animation_frame f2
      /\ size_max f1 = size_max f2 /\ height f1 = height f2
  | _, _ => False
  end.

(** The state after the lines [out] have been printed. *)
Definition appends (s : pystate) (out : list line) : pystate :=
  mkState (files s) (conns s) (calls s) (heap s) (stdout s ++ out).

(** The lines of the listings of the summary (lines 73, 78, 83, 89 and
    96). *)
Definition year_line (e : Z * nat) : line :=
  [Txt "  "; Val (Some (fst e)); Txt ": "; Num (Z.of_nat (snd e)); Txt " fires"].
Definition class_line (e : string * nat) : line :=
  [Txt "  Class "; Txt (fst e); Txt ": "; Num (Z.of_nat (snd e)); Txt " fires"].
Definition cause_line (e : string * nat) : line :=
  [Txt "  "; Txt (fst e); Txt ": "; Num (Z.of_nat (snd e)); Txt " fires"].
Definition fire_line (f : fire) : line :=
  [Txt "  "; Val (Some (FIRE_YEAR f)); Txt " - ";
   Txt (match FIRE_NAME f with Some s => s | None => "Unknown" end); Txt ": ";
   Fix0 (FIRE_SIZE f); Txt " acres"].
Definition missing_lines (n : Z) (e : string * nat) : list line :=
  if (0 <? snd e)%nat then
    [[Txt "  "; Txt (fst e); Txt ": "; Num (Z.of_nat (snd e)); Txt " (";
      Fix1 (option_map (fun q => q * 100) (np_div (inject_Z (Z.of_nat (snd e))) (inject_Z n)));
      Txt "%)"]]
  else [].

Definition yearly_counts (d : DataFrame) : list (Z * nat) :=
  sort_index (value_counts Z.eqb (List.map FIRE_YEAR (records d))).

(** What the summary prints up to the heading of the largest fires, and
    from there on when [nlargest] gave [largest]. *)
Definition summary_info (d : DataFrame) : list line :=
  let rows := records d in
  let n := Z.of_nat (length rows) in
  [[Txt (nl +:+ rule)];
   [Txt "CALIFORNIA WILDFIRE DATA SUMMARY"];
   [Txt rule];
   [Txt (nl +:+ "Dataset Info:")];
   [Txt "  Total fires: "; Num n];
   [Txt "  Years covered: "; Val (year_min rows); Txt "-"; Val (year_max rows)];
   [Txt "  Total acres burned: "; Fix0 (Qsum (List.map FIRE_SIZE rows))];
   [Txt "  Average fire size: ";
    Fix1 (np_div (Qsum (List.map FIRE_SIZE rows)) (inject_Z n)); Txt " acres"]].

Definition summary_counts (d : DataFrame) : list line :=
  ([[Txt (nl +:+ "Fire Size Classes:")]]
   ++ List.map class_line (value_counts String.eqb (List.map FIRE_SIZE_CLASS (records d)))
   ++ [[Txt (nl +:+ "Top 10 Fire Causes:")]]
   ++ List.map cause_line
        (firstn 10 (value_counts String.eqb (List.map STAT_CAUSE_DESCR (records d))))
   ++ [[Txt (nl +:+ "Largest Fires (Top 5):")]])%list.

Definition summary_until_largest (d : DataFrame) : list line :=
  (summary_info d
   ++ [[Txt (nl +:+ "Fires by Year:")]]
   ++ List.map year_line (yearly_counts d)
   ++ summary_counts d)%list.

Definition summary_missing (d : DataFrame) : list line :=
  ([[Txt (nl +:+ "Missing Data:")]]
   ++ flat_map (missing_lines (Z.of_nat (length (records d)))) (isnull_sum d)
   ++ [[Txt (nl +:+ "First 3 records:")]; [Table (head 3 d)]])%list.

Definition summary_from_largest (d : DataFrame) (largest : list fire) : list line :=
  (List.map fire_line largest ++ summary_missing d)%list.

(** The error of [nlargest] on a column that is not numeric. *)
Definition nlargest_refused : exn :=
  TypeError "Column 'FIRE_SIZE' has dtype object, cannot use method 'nlargest' with this dtype".

(** The lines printed by the two selection functions (lines 284 and 295). *)
Definition year_report (year : Z) (d : DataFrame) : line :=
  [Txt nl; Val (Some year); Txt ": "; Num (Z.of_nat (length (records d)));
   Txt " fires, "; Fix0 (Qsum (List.map FIRE_SIZE (records d))); Txt " acres burned"].

Definition large_report (min_acres : Z) (d : DataFrame) : line :=
  [Txt (nl +:+ "Fires ≥"); Num min_acres; Txt " acres: ";
   Num (Z.of_nat (length (records d)))].

(** Number of entries of a column equal to [y]. *)
Definition frequency {A} (eqb : A -> A -> bool) (y : A) (l : list A) : nat :=
  length (List.filter (eqb y) l).

(** The count listed for [y] in a table of counts, 0 when it is not
    listed. *)
Definition lookup_count {A} (eqb : A -> A -> bool) (y : A) (cs : list (A * nat)) : nat :=
  match List.find (fun p => eqb y (fst p)) cs with
  | Some p => snd p
  | None => 0%nat
  end.

Definition sample_fire (name : option string) (st : string) (yr : Z) (size : Q) : fire :=
  mkFire name st yr (Some (34 # 1)) (Some (- (118 # 1))) size "B" 1 "Lightning".

Definition sample_fires : list db_row :=
  [mkDbRow (sample_fire None "CA" 2003 (5 # 1)) [("OBJECTID", "1")];
   mkDbRow (sample_fire (Some "CEDAR") "CA" 2003 (273246 # 1)) [("OBJECTID", "2")];
   mkDbRow (sample_fire None "OR" 2002 (12 # 1)) [("OBJECTID", "3")];
   mkDbRow (sample_fire None "CA" 1999 (40 # 1)) [("OBJECTID", "4")];
   mkDbRow (sample_fire (Some "PINES") "CA" 2002 (61690 # 1)) [("OBJECTID", "5")]].

Definition sample_state : pystate :=
  mkState (fun path => if String.eqb path default_db_path then Opens (Some sample_fires)
                       else if String.eqb path "/nonexistent/dir/fires.sqlite" then Unopenable
                       else Opens None)
          [] [] [] [].

(** Three fires of 2003 and one of 2007; the last fire of 2003 has no
    latitude. *)
Definition sample_rows : list fire :=
  [mkFire (Some "CEDAR") "CA" 2003 (Some (33 # 1)) (Some (- (1168 # 10))) (273246 # 1) "G" 9 "Miscellaneous";
   mkFire None "CA" 2003 (Some (341 # 10)) (Some (- (1183 # 10))) (12 # 1) "C" 1 "Lightning";
   mkFire None "CA" 2007 (Some (389 # 10)) (Some (- (1205 # 10))) (3 # 1) "B" 1 "Lightning";
   mkFire None "CA" 2003 None (Some (- (1190 # 10))) (1 # 1) "A" 5 "Debris Burning"].

(** Two fires of 2003 whose latitudes are [dlat] apart. *)
Definition close_rows (dlat : Q) : list fire :=
  [mkFire None "CA" 2003 (Some (34 # 1)) (Some (- (118 # 1))) (10 # 1) "B" 1 "Lightning";
   mkFire None "CA" 2003 (Some ((34 # 1) + dlat)) (Some (- (117 # 1))) (20 # 1) "C" 1
          "Lightning"].

Definition close_heap (dlat : Q) : pystate :=
  mkState (fun _ => Unopenable) [] [] [mkDF float64 (close_rows dlat) []] [].

Definition sample_heap : pystate :=
  mkState (fun _ => Unopenable) [] [] [mkDF float64 sample_rows []] [].

End WildfireSpec.

(** ** map_fires_vs_precip.py, lines 79-214: frames of the animation *)

Module Renderer.
Import Synthetic.

(** [Series.min()] and [Series.max()] of a float column: nan cells are
    skipped, and the result is nan when no cell is left. *)
Definition series_min (col : list (option Q)) : option Q := col_min (Wildfire.present col).
Definition series_max (col : list (option Q)) : option Q := col_max (Wildfire.present col).

(** Lines 81-84: the colour bounds, taken once from the whole table. *)
Definition zmin_precip (df : list irow) : option Q := series_min (List.map precip_intensity df).
Definition zmax_precip (df : list irow) : option Q := series_max (List.map precip_intensity df).
Definition cmin_wild (df : list irow) : option Q := series_min (List.map wildfire_intensity df).
Definition cmax_wild (df : list irow) : option Q := series_max (List.map wildfire_intensity df).

(** Line 87: [df[df["year"] == y].set_index("state").reindex(states)
    .reset_index()].  One entry per state of [states], in that order:
    the row of the state, or nothing (a row of nan) when the year has no
    row for it.  [reindex] refuses an index with a repeated label. *)
Definition dyear (y : Z) (df : list irow) : result (list (string * option irow)) :=
  let sel := frame_rows y df in
  if bool_decide (NoDup (List.map (fun r => state (raw r)) sel)) then
    Ok (List.map (fun st => (st, List.find (fun r => String.eqb (state (raw r)) st) sel))
                 states)
  else Raise (ValueError "cannot reindex on an axis with duplicate labels").

(** A column of a frame table; a nan row gives nan. *)
Definition column_of (f : irow -> option Q) (rows : list (string * option irow))
  : list (option Q) :=
  List.map (fun e => match snd e with Some r => f r | None => None end) rows.

(** [4 + intensity * k], element by element. *)
Definition marker_size (k : Q) (col : list (option Q)) : list (option Q) :=
  List.map (option_map (fun v => 4 + v * k)) col.

Record Markers : Type := mkMarkers {
  marker_locations : list string;
  size : list (option Q);
  color : list (option Q);
  cmin : option Q;
  cmax : option Q
}.

(** One [go.Frame]: the choropleth of precipitation intensity and the two
    layers of markers.  (Hover texts and styling are left out.) *)
Record Frame : Type := mkFrame {
  frame_name : string;
  locations : list string;
  z : list (option Q);
  zmin : option Q;
  zmax : option Q;
  scatter_wild : Markers;
  scatter_precip : Markers
}.

(** Lines 88-136, for one year. *)
Definition frame_of (df : list irow) (y : Z) : result Frame :=
  match dyear y df with
  | Raise e => Raise e
  | Ok rows =>
      let sts := List.map fst rows in
      let pi := column_of precip_intensity rows in
      let wi := column_of wildfire_intensity rows in
      Ok (mkFrame (pretty y) sts pi (zmin_precip df) (zmax_precip df)
                  (mkMarkers sts (marker_size 20 wi) wi (cmin_wild df) (cmax_wild df))
                  (mkMarkers sts (marker_size 15 pi) pi (zmin_precip df) (zmax_precip df)))
  end.

(** Lines 86-136: [for year in years: frames.append(...)]. *)
Fixpoint build_frames (df : list irow) (ys : list Z) : result (list Frame) :=
  match ys with
  | [] => Ok []
  | y :: ys' =>
      match frame_of df y with
      | Raise e => Raise e
      | Ok f => match build_frames df ys' with
                | Raise e => Raise e
                | Ok fs => Ok (f :: fs)
                end
      end
  end.

(** Lines 205-213: the frame each step of the slider asks for. *)
Definition slider_steps : list string := List.map pretty years.

(** A cell that is nan or lies between the bounds. *)
Definition within (lo hi : Q) (c : option Q) : Prop :=
  match c with
  | Some v => lo <= v <= hi
  | None => True
  end.

(** The column has one value only. *)
Definition constant (col : list Q) : Prop :=
  match col_min col, col_max col with
  | Some lo, Some hi => lo == hi
  | _, _ => False
  end.

(** A table of two rows whose two metric columns are not constant. *)
Definition two_rows : list row :=
  [mkRow "CA" 2000 (600 # 1) (40 # 1); mkRow "TX" 2000 (800 # 1) (10 # 1)].

End Renderer.

(** ** ca_fires_2000-2015.py: the remaining functions and the main block *)

Module WildfireTools.
Import Wildfire.

(** [df[mask]] for a row-wise condition: a new frame with the rows that
    satisfy it. *)
Definition df_where (keep : fire -> bool) (l : loc) : Py pystate loc :=
  d <- read_frame l ;;
  let mask := List.map keep (records d) in
  new_frame (mkDF (size_dtype d) (select mask (records d))
                  (List.map (fun '(n, c) => (n, mkCol (categories c) (select mask (cells c))))
                            (extra d))).

(** Lines 276-285. *)
Definition get_fires_by_year (df : option loc) (year : Z) : Py pystate (option loc) :=
  match df with
  | None => ret None
  | Some df =>
      sel <- df_where (fun r => (FIRE_YEAR r =? year)%Z) df ;;
      year_data <- df_copy sel ;;
      d <- read_frame year_data ;;
      print [Txt nl; Val (Some year); Txt ": "; Num (Z.of_nat (length (records d)));
             Txt " fires, "; Fix0 (Qsum (List.map FIRE_SIZE (records d)));
             Txt " acres burned"] ;;;
      ret (Some year_data)
  end.

(** Lines 287-296, for an integer threshold (the default is 1000). *)
Definition get_large_fires (df : option loc) (min_acres : Z) : Py pystate (option loc) :=
  match df with
  | None => ret None
  | Some df =>
      sel <- df_where (fun r => Qle_bool (inject_Z min_acres) (FIRE_SIZE r)) df ;;
      large_fires <- df_copy sel ;;
      d <- read_frame large_fires ;;
      print [Txt (nl +:+ "Fires ≥"); Num min_acres; Txt " acres: ";
             Num (Z.of_nat (length (records d)))] ;;;
      ret (Some large_fires)
  end.

(** [Series.head(n)]: the first [n] entries, or all but the last [-n]
    for a negative [n]. *)
Definition series_head {A} (n : Z) (l : list A) : list A :=
  if (n <? 0)%Z then firstn (length l - Z.to_nat (- n)) l else firstn (Z.to_nat n) l.

Record BarFigure : Type := mkBar {
  bar_x : list string;
  bar_y : list nat;
  bar_text : list nat;
  bar_title : string;
  xaxis_title : string;
  yaxis_title : string;
  bar_height : Z
}.

(** Lines 232-261. *)
Definition create_cause_bar_chart (df : option loc) (top_n_causes : Z)
  : Py pystate (option BarFigure) :=
  match df with
  | None => print [Txt "No data available for visualization"] ;;; ret None
  | Some df =>
      d <- read_frame df ;;
      let cause_counts :=
        series_head top_n_causes
          (value_counts String.eqb (List.map STAT_CAUSE_DESCR (records d))) in
      let causes := List.map fst cause_counts in
      let counts := List.map snd cause_counts in
      ret (Some (mkBar causes counts counts "Top Fire Causes" "Cause" "Number of Fires" 500))
  end.

(** *** The main block *)

Inductive shown : Type :=
| ShowMap (f : Figure)
| ShowBar (b : BarFigure).

(** The interpreter state together with the figures handed to
    [fig.show()], in order. *)
Record session : Type := mkSession {
  py : pystate;
  displayed : list shown
}.

Definition in_py {A} (c : Py pystate A) : Py session A :=
  fun ss => let (r, s') := c (py ss) in (r, mkSession s' (displayed ss)).

Definition show (f : shown) : Py session unit :=
  modify (fun ss => mkSession (py ss) (displayed ss ++ [f])).

Section Main.
Variable observed : bool.

(** Lines 299-341.  A figure object is true in [if fig2:]. *)
Definition main : Py session unit :=
  df <- in_py (load_california_wildfires default_db_path) ;;
  match df with
  | Some _ =>
      in_py (explore_ca_data df) ;;;
      in_py (print [Txt (nl +:+ rule)]) ;;;
      in_py (print [Txt "CREATING VISUALIZATIONS..."]) ;;;
      in_py (print [Txt rule]) ;;;
      in_py (print [Txt "Creating total acres burned choropleth..."]) ;;;
      fig2 <- in_py (create_fire_choropleth observed df "total_acres" None) ;;
      match fig2 with
      | Some f => show (ShowMap f)
      | None => ret tt
      end ;;;
      in_py (print [Txt "Creating fire causes comparison..."]) ;;;
      fig4 <- in_py (create_cause_bar_chart df 10) ;;
      match fig4 with
      | Some b => show (ShowBar b)
      | None => ret tt
      end
  | None => in_py (print [Txt "Failed to load data. Check the database path."])
  end.

End Main.

End WildfireTools.

(** ** The runtime: rules for total correctness *)

Lemma returns_ret {S A} (P : S -> Prop) (a : A) :
  returns P (ret a) (fun r s => r = a /\ P s).
Proof. intros s Hs. exists a, s. split; [reflexivity | auto]. Qed.

Lemma returns_bind {S A B} (P : S -> Prop) (c : Py S A) (k : A -> Py S B)
      (R : A -> S -> Prop) (T : B -> S -> Prop) :
  returns P c R ->
  (forall a, returns (R a) (k a) T) ->
  returns P (bind c k) T.
Proof.
  intros Hc Hk s Hs.
  destruct (Hc s Hs) as (a & s1 & E1 & H1).
  destruct (Hk a s1 H1) as (b & s2 & E2 & H2).
  exists b, s2. split; [| exact H2].
  unfold bind. rewrite E1. exact E2.
Qed.

Lemma returns_weaken {S A} (P P' : S -> Prop) (c : Py S A) (R R' : A -> S -> Prop) :
  returns P c R ->
  (forall s, P' s -> P s) ->
  (forall a s, R a s -> R' a s) ->
  returns P' c R'.
Proof.
  intros Hc HP HR s Hs.
  destruct (Hc s (HP s Hs)) as (a & s' & E & H).
  exists a, s'. split; [exact E | apply HR; exact H].
Qed.

Lemma returns_modify {S} (P : S -> Prop) (f : S -> S) :
  returns P (modify f) (fun _ s' => exists s, P s /\ s' = f s).
Proof. intros s Hs. exists tt, (f s). split; [reflexivity | eauto]. Qed.

(** Loop rule: [I done] is the invariant after the elements [done] have
    been processed. *)
Lemma returns_for {S A} (I : list A -> S -> Prop) (xs : list A) (body : A -> Py S unit) :
  (forall done x, (exists rest, xs = done ++ x :: rest)%list ->
                  returns (I done) (body x) (fun _ => I (done ++ [x])%list)) ->
  returns (I []) (for_ xs body) (fun _ => I xs).
Proof.
  intros Hbody.
  assert (G : forall rest done, xs = (done ++ rest)%list ->
               returns (I done) (for_ rest body) (fun _ => I xs)).
  { induction rest as [| x rest IH]; intros done E.
    - rewrite List.app_nil_r in E. subst done.
      intros s Hs. exists tt, s. split; [reflexivity | exact Hs].
    - simpl. eapply returns_bind.
      + apply Hbody. exists rest. exact E.
      + intros u. apply IH. rewrite <- List.app_assoc. exact E. }
  apply (G xs []). reflexivity.
Qed.

(** ** Properties of the synthetic generator *)

Module SyntheticFacts.
Import Synthetic SyntheticSpec.

Lemma Qlt_bool_iff (x y : Q) : Qlt_bool x y = true <-> x < y.
Proof.
  unfold Qlt_bool. rewrite negb_true_iff.
  destruct (Qle_bool y x) eqn:E.
  - apply Qle_bool_iff in E. split; [discriminate | intros L; exfalso; lra].
  - split; [intros _ | reflexivity].
    destruct (Qlt_le_dec x y) as [L | L]; [exact L |].
    apply Qle_bool_iff in L. congruence.
Qed.

Lemma py_max0_nonneg (x : Q) : 0 <= py_max0 x.
Proof.
  unfold py_max0. destruct (Qlt_bool 0 x) eqn:E.
  - apply Qlt_bool_iff in E. lra.
  - lra.
Qed.

(** The clamp gives a non-negative value on every IEEE value as well: a
    nan, a negative zero or a negative number is replaced by [0]. *)
Lemma py_max0_binary64_nonneg (x : spec_float) :
  SFleb (S754_zero false) (py_max0_binary64 x) = true.
Proof.
  unfold py_max0_binary64, SFltb, SFleb.
  destruct (SFcompare (S754_zero false) x) as [[| |] |] eqn:E; try reflexivity.
  rewrite E. reflexivity.
Qed.

Example py_max0_binary64_nan : py_max0_binary64 S754_nan = S754_zero false.
Proof. reflexivity. Qed.

Lemma list_prod_snoc {A B} (l : list A) (x : A) (l' : list B) :
  list_prod (l ++ [x]) l' = (list_prod l l' ++ List.map (pair x) l')%list.
Proof.
  induction l as [| y l IH]; simpl.
  - rewrite List.app_nil_r. reflexivity.
  - rewrite IH, List.app_assoc. reflexivity.
Qed.

Section GeneratorFacts.
Context {G : Type} `{RandomState G}.

Lemma baseline_spec (st : string) (mu sigma low high : Q) (g : @globals G) :
  exists p w r,
    baseline st mu sigma low high g =
    (Ok tt, mkGlobals r (<[st := p]> (base_precip g)) (<[st := w]> (base_wild g)) (rows g)).
Proof.
  unfold baseline, bind, normal, uniform, draw, set_base_precip, set_base_wild, modify.
  destruct (np_normal mu sigma (rng g)) as [p r1] eqn:E1. simpl.
  destruct (np_uniform low high r1) as [w r2] eqn:E2. simpl.
  exists p, w, r2. reflexivity.
Qed.

Lemma covers_insert (sts : list string) (st : string) (p w : Q) (g g' : @globals G) :
  covers sts g ->
  base_precip g' = <[st := p]> (base_precip g) ->
  base_wild g' = <[st := w]> (base_wild g) ->
  covers (sts ++ [st]) g'.
Proof.
  intros C Ep Ew x Hx. rewrite Ep, Ew.
  destruct (decide (st = x)) as [-> | Hne].
  - rewrite !lookup_insert_eq. split; eexists; reflexivity.
  - rewrite !lookup_insert_ne by exact Hne.
    apply in_app_or in Hx. destruct Hx as [Hx | [Hx | []]]; [apply C; exact Hx | congruence].
Qed.

Lemma draw_baselines_returns :
  returns (fun _ => True) draw_baselines (fun _ g => covers states g).
Proof.
  unfold draw_baselines. eapply returns_bind.
  - apply returns_modify.
  - intros u. eapply returns_weaken.
    + apply (returns_for (fun done g => covers done g)).
      intros done st _ g C.
      assert (B : forall mu sigma low high,
                 exists g', baseline st mu sigma low high g = (Ok tt, g')
                            /\ covers (done ++ [st]) g').
      { intros mu sigma low high.
        destruct (baseline_spec st mu sigma low high g) as (p & w & r & E).
        eexists. split; [exact E |].
        eapply covers_insert; [exact C | reflexivity | reflexivity]. }
      repeat case_bool_decide;
        match goal with
        | |- context [baseline st ?mu ?sigma ?low ?high g] =>
            destruct (B mu sigma low high) as (g' & E & C'); exists tt, g'; split; assumption
        end.
    + intros s _ st [].
    + intros a s C. exact C.
Qed.

Lemma build_row_spec (yr : Z) (yf : Q) (st : string) (g : @globals G) :
  is_Some (base_precip g !! st) -> is_Some (base_wild g !! st) ->
  exists r g',
    build_row yr yf st g = (Ok tt, g')
    /\ rows g' = (rows g ++ [r])%list
    /\ base_precip g' = base_precip g
    /\ base_wild g' = base_wild g
    /\ key r = (yr, st)
    /\ nonneg r.
Proof.
  intros [bp Ebp] [bw Ebw].
  unfold build_row, bind, get_base_precip, get_base_wild, normal, uniform, rand, draw,
    rows_append, modify, ret.
  rewrite Ebp. simpl.
  destruct (np_normal 0 (8 # 100) (rng g)) as [n1 r1]. simpl.
  destruct (np_normal 0 (3 # 100) r1) as [n2 r2]. simpl.
  rewrite Ebw. simpl.
  destruct (np_normal 0 (25 # 100) r2) as [n3 r3]. simpl.
  destruct (bool_decide (st ∈ west)); simpl.
  - destruct (np_rand r3) as [x r4]. simpl.
    match goal with |- context [Qlt_bool x ?c] => destruct (Qlt_bool x c) end; simpl.
    + destruct (np_uniform (15 # 10) 4 r4) as [u r5]. simpl.
      eexists _, _. split; [reflexivity |]. simpl.
      repeat split; try reflexivity; apply py_max0_nonneg.
    + eexists _, _. split; [reflexivity |]. simpl.
      repeat split; try reflexivity; apply py_max0_nonneg.
  - eexists _, _. split; [reflexivity |]. simpl.
    repeat split; try reflexivity; apply py_max0_nonneg.
Qed.

Lemma year_loop_returns (yr : Z) (yf : Q) (ks : list (Z * string)) :
  returns (built ks) (for_ states (build_row yr yf))
          (fun _ => built (ks ++ List.map (pair yr) states)).
Proof.
  eapply returns_weaken.
  - apply (returns_for (fun done => built (ks ++ List.map (pair yr) done))).
    intros done st [rest E] g (C & N & K).
    assert (Hin : In st states) by (rewrite E; apply in_or_app; right; left; reflexivity).
    destruct (C st Hin) as [Sp Sw].
    destruct (build_row_spec yr yf st g Sp Sw) as (r & g' & E' & Er & Ep & Ew & Ek & Hn).
    exists tt, g'. split; [exact E' |]. split; [| split].
    + intros x Hx. rewrite Ep, Ew. apply C. exact Hx.
    + rewrite Er. apply Forall_app. split; [exact N | constructor; [exact Hn | constructor]].
    + rewrite Er, !List.map_app, K. simpl. rewrite Ek, <- List.app_assoc. reflexivity.
  - intros s B. simpl. rewrite List.app_nil_r. exact B.
  - intros a s B. exact B.
Qed.

Lemma build_rows_returns :
  returns (covers states) build_rows (fun _ => built (list_prod years states)).
Proof.
  unfold build_rows. eapply returns_bind.
  - apply returns_modify.
  - intros u. eapply returns_weaken.
    + apply (returns_for (fun done => built (list_prod done states))).
      intros done yr _.
      eapply returns_weaken.
      * apply year_loop_returns.
      * intros s B. exact B.
      * intros a s B.
        rewrite list_prod_snoc. exact B.
    + intros s (g & C & ->). split; [exact C |]. split; [constructor | reflexivity].
    + intros a s B. exact B.
Qed.

(** The script runs to the end, whatever the generator draws: no lookup
    fails, and the table has one non-negative row per (year, state) in
    loop order. *)
Lemma generate_returns (g : @globals G) :
  exists t g', generate g = (Ok t, g')
               /\ Forall nonneg t
               /\ List.map key t = list_prod years states.
Proof.
  assert (R : returns (fun _ => True) generate
                (fun t _ => Forall nonneg t /\ List.map key t = list_prod years states)).
  { unfold generate. eapply returns_bind; [apply returns_modify |]. intros u1.
    eapply returns_bind.
    { eapply returns_weaken; [apply draw_baselines_returns | intros; exact I | intros a s C; exact C]. }
    intros u2. eapply returns_bind; [apply build_rows_returns |]. intros u3.
    intros s (C & N & K). exists (rows s), s. split; [reflexivity | auto]. }
  destruct (R g I) as (t & g' & E & P). exists t, g'. split; [exact E | exact P].
Qed.

Lemma run_returns (g0 : G) :
  exists t, run g0 = Ok t /\ Forall nonneg t /\ List.map key t = list_prod years states.
Proof.
  destruct (generate_returns (fresh_process g0)) as (t & g' & E & P).
  exists t. unfold run. rewrite E. split; [reflexivity | exact P].
Qed.

(** Seeding first makes the rest of the run independent of the state the
    process started with. *)
Lemma run_seeded (g0 g0' : G) :
  np_seed 42 g0 = np_seed 42 g0' -> run g0 = run g0'.
Proof.
  intros E. unfold run, generate, bind, seed, modify, fresh_process. simpl.
  rewrite E. reflexivity.
Qed.

End GeneratorFacts.
End SyntheticFacts.

(** ** Properties of the wildfire loader *)

Module LoaderFacts.
Import Wildfire.

Lemma lookup_snoc {A} (l : list A) (x : A) : (l ++ [x])%list !! length l = Some x.
Proof. apply list_lookup_middle. reflexivity. Qed.

Lemma insert_snoc {A} (l : list A) (x y : A) :
  <[length l := y]> (l ++ [x])%list = (l ++ [y])%list.
Proof.
  rewrite insert_app_r_alt by reflexivity.
  rewrite Nat.sub_diag. reflexivity.
Qed.

Ltac run_loader :=
  cbv beta delta [load_california_wildfires try_except bind ret raise modify print log
                  sqlite3_connect read_sql_query conn_close read_frame new_frame];
  simpl.

(** The three ways a call can go, by what is found at the path. *)
Lemma load_unopenable (path : string) (s : pystate) :
  files s path = Unopenable ->
  load_california_wildfires path s =
  (Ok None,
   mkState (files s) (conns s) (calls s ++ [Connect path])%list (heap s)
           (stdout s ++ [[Txt "Loading California wildfire data (2000-2015)..."]]
                     ++ [[Txt "Error loading data: ";
                          Exc (DatabaseError "unable to open database file")]])%list).
Proof.
  intros E.
  run_loader. rewrite E. simpl. rewrite <- List.app_assoc. reflexivity.
Qed.

Lemma load_query_fails (path : string) (s : pystate) :
  files s path = Opens None ->
  load_california_wildfires path s =
  (Ok None,
   mkState (files s) (conns s ++ [mkConn None true])%list
           (calls s ++ [Connect path] ++ [Query (length (conns s))])%list (heap s)
           (stdout s ++ [[Txt "Loading California wildfire data (2000-2015)..."]]
                     ++ [[Txt "Error loading data: ";
                          Exc (DatabaseError "no such table: Fires")]])%list).
Proof.
  intros E.
  run_loader. rewrite E. simpl. rewrite lookup_snoc. simpl.
  rewrite <- !List.app_assoc. reflexivity.
Qed.

Lemma load_succeeds (path : string) (s : pystate) (fires : list db_row) :
  files s path = Opens (Some fires) ->
  let rows := query fires in
  let d := mkDF (match rows with [] => object | _ => float64 end) rows [] in
  load_california_wildfires path s =
  (Ok (Some (length (heap s))),
   mkState (files s) (conns s ++ [mkConn (Some fires) false])%list
           (calls s ++ [Connect path] ++ [Query (length (conns s))]
                    ++ [Close (length (conns s))])%list
           (heap s ++ [d])%list
           (stdout s ++ [[Txt "Loading California wildfire data (2000-2015)..."]]
                     ++ [[Txt "✓ Successfully loaded "; Num (Z.of_nat (length rows));
                          Txt " California fires"]]
                     ++ [[Txt "✓ Years: "; Val (year_min rows); Txt "-"; Val (year_max rows)]]
                     ++ [[Txt "✓ Columns: "; Names columns]])%list).
Proof.
  intros E rows d.
  run_loader. rewrite E. simpl. rewrite lookup_snoc. simpl.
  rewrite lookup_snoc. simpl. rewrite lookup_snoc. simpl.
  rewrite insert_snoc. rewrite <- !List.app_assoc. reflexivity.
Qed.

(** The WHERE clause, in words. *)
Lemma where_clause_spec (r : fire) :
  where_clause r = true <->
  STATE r = "CA" /\ (2000 <= FIRE_YEAR r <= 2015)%Z.
Proof.
  unfold where_clause. rewrite !andb_true_iff, String.eqb_eq, !Z.leb_le. tauto.
Qed.

(** The ORDER BY clause, in words. *)
Lemma precedes_spec (a b : fire) :
  precedes a b <->
  (FIRE_YEAR a < FIRE_YEAR b)%Z
  \/ (FIRE_YEAR a = FIRE_YEAR b /\ FIRE_SIZE b <= FIRE_SIZE a).
Proof.
  unfold precedes, order_by.
  rewrite orb_true_iff, andb_true_iff, Z.ltb_lt, Z.eqb_eq, Qle_bool_iff. tauto.
Qed.

#[export] Instance precedes_total : Total precedes.
Proof.
  intros a b. rewrite !precedes_spec.
  destruct (Z.lt_trichotomy (FIRE_YEAR a) (FIRE_YEAR b)) as [L | [E | L]]; [tauto | | tauto].
  destruct (Qlt_le_dec (FIRE_SIZE a) (FIRE_SIZE b)) as [S | S].
  - right. right. split; [congruence | lra].
  - left. right. split; [exact E | exact S].
Qed.

#[export] Instance precedes_trans : Transitive precedes.
Proof.
  intros a b c. rewrite !precedes_spec.
  intros [L1 | [E1 S1]] [L2 | [E2 S2]]; [left; lia | left; lia | left; lia |].
  right. split; [congruence | lra].
Qed.

Lemma query_sorted (fires : list db_row) : StronglySorted precedes (query fires).
Proof. unfold query. apply StronglySorted_merge_sort; typeclasses eauto. Qed.

Lemma query_rows (fires : list db_row) :
  Permutation (query fires) (List.filter where_clause (List.map selected fires)).
Proof. unfold query. apply merge_sort_Permutation. Qed.

End LoaderFacts.

(** ** The synthetic generator: reproducibility and sign of the metrics *)

Module GeneratorClaims.
Import Synthetic SyntheticSpec SyntheticFacts.

(** C1. The generator is deterministic for the fixed seed: two runs of
    the script, started from whatever generator states [g0] and [g0'] the
    two processes came up with, both finish and produce the same table,
    row for row and value for value.  The one assumption is what seeding
    means: [np.random.seed(n)] replaces the generator state by one that
    depends on [n] only. *)
Theorem generator_deterministic {G : Type} `{RandomState G} (g0 g0' : G) :
  (forall (n : Z) (a b : G), np_seed n a = np_seed n b) ->
  exists t : list row, run g0 = Ok t /\ run g0' = Ok t.
Proof.
  intros Hseed.
  destruct (run_returns g0) as (t & E & _).
  exists t. split; [exact E |].
  rewrite <- (run_seeded g0 g0' (Hseed 42%Z g0 g0')). exact E.
Qed.

Lemma generator_deterministic_witness :
  exists t : list row, @run Z Lcg.lcg 1%Z = Ok t /\ @run Z Lcg.lcg 2%Z = Ok t.
Proof.
  apply (generator_deterministic (H := Lcg.lcg) 1%Z 2%Z).
  intros n a b. reflexivity.
Defined.

(** C10. Every row of the generated table has non-negative metrics:
    whatever the generator draws, the script finishes with one row per
    (year, state) pair, and in each row [precip_mm >= 0] and
    [wildfire_index >= 0]. *)
Theorem generated_metrics_nonnegative {G : Type} `{RandomState G} (g0 : G) :
  exists t : list row,
    run g0 = Ok t
    /\ List.map (fun r => (year r, state r)) t = list_prod years states
    /\ Forall (fun r => 0 <= precip_mm r /\ 0 <= wildfire_index r) t.
Proof.
  destruct (run_returns g0) as (t & E & N & K).
  exists t. split; [exact E |]. split; [exact K | exact N].
Qed.

End GeneratorClaims.

(** ** The wildfire loader: result, failures, the connection *)

Module LoaderClaims.
Import Wildfire WildfireSpec LoaderFacts.

Lemma StronglySorted_weaken {A} (R R' : A -> A -> Prop) (l : list A) :
  (forall a b, R a b -> R' a b) -> StronglySorted R l -> StronglySorted R' l.
Proof.
  intros HR. induction 1 as [| a l Hs IH Hall]; constructor.
  - exact IH.
  - eapply Forall_impl; [exact Hall | intros b Hb; apply HR; exact Hb].
Qed.

(** C7. When the load succeeds (the database opens and has a [Fires]
    table), the function returns a table that holds exactly the rows of
    [Fires] with [STATE = 'CA'] and [2000 <= FIRE_YEAR <= 2015], with the
    nine selected columns and no other, ordered by [FIRE_YEAR] ascending
    and by [FIRE_SIZE] descending within a year. *)
Theorem loader_returns_filtered_sorted_rows (path : string) (s : pystate) (fires : list db_row) :
  files s path = Opens (Some fires) ->
  exists (l : loc) (d : DataFrame) (s' : pystate),
    load_california_wildfires path s = (Ok (Some l), s')
    /\ heap s' !! l = Some d
    /\ column_names d = columns
    /\ Permutation (records d) (List.filter where_clause (List.map selected fires))
    /\ (forall r, where_clause r = true <->
                  STATE r = "CA" /\ (2000 <= FIRE_YEAR r <= 2015)%Z)
    /\ StronglySorted
         (fun a b => (FIRE_YEAR a < FIRE_YEAR b)%Z
                     \/ (FIRE_YEAR a = FIRE_YEAR b /\ FIRE_SIZE b <= FIRE_SIZE a))
         (records d).
Proof.
  intros E.
  pose proof (load_succeeds path s fires E) as L. cbv zeta in L.
  eexists _, _, _. split; [exact L |]. simpl.
  split; [apply lookup_snoc |].
  split; [reflexivity |].
  split; [apply query_rows |].
  split; [exact where_clause_spec |].
  eapply StronglySorted_weaken; [| apply query_sorted].
  intros a b. apply precedes_spec.
Qed.

Lemma loader_returns_filtered_sorted_rows_witness :
  exists (l : loc) (d : DataFrame) (s' : pystate),
    load_california_wildfires default_db_path sample_state = (Ok (Some l), s')
    /\ heap s' !! l = Some d
    /\ column_names d = columns
    /\ Permutation (records d) (List.filter where_clause (List.map selected sample_fires))
    /\ (forall r, where_clause r = true <->
                  STATE r = "CA" /\ (2000 <= FIRE_YEAR r <= 2015)%Z)
    /\ StronglySorted
         (fun a b => (FIRE_YEAR a < FIRE_YEAR b)%Z
                     \/ (FIRE_YEAR a = FIRE_YEAR b /\ FIRE_SIZE b <= FIRE_SIZE a))
         (records d).
Proof.
  apply (loader_returns_filtered_sorted_rows default_db_path sample_state sample_fires).
  reflexivity.
Defined.

Example sample_query :
  List.map (fun r => (FIRE_NAME r, FIRE_YEAR r, FIRE_SIZE r)) (query sample_fires)
  = [(Some "PINES", 2002%Z, 61690 # 1); (Some "CEDAR", 2003%Z, 273246 # 1); (None, 2003%Z, 5 # 1)].
Proof. vm_compute. reflexivity. Qed.

(** C5. If opening the database or running the query fails, the function
    catches the error, prints a diagnostic line carrying it, and returns
    [None] rather than raising; it connects once, queries at most once,
    and creates no table. *)
Theorem loader_failure_returns_none (path : string) (s : pystate) :
  files s path = Unopenable \/ files s path = Opens None ->
  exists (e : exn) (s' : pystate),
    load_california_wildfires path s = (Ok None, s')
    /\ stdout s' = (stdout s ++ [[Txt "Loading California wildfire data (2000-2015)..."];
                                 [Txt "Error loading data: "; Exc e]])%list
    /\ (calls s' = (calls s ++ [Connect path])%list
        \/ calls s' = (calls s ++ [Connect path; Query (length (conns s))])%list)
    /\ heap s' = heap s.
Proof.
  intros [E | E].
  - eexists _, _. split; [apply (load_unopenable path s E) |]. simpl.
    split; [reflexivity |]. split; [left; reflexivity | reflexivity].
  - eexists _, _. split; [apply (load_query_fails path s E) |]. simpl.
    split; [reflexivity |]. split; [right; reflexivity | reflexivity].
Qed.

Lemma loader_failure_returns_none_witness :
  exists (e : exn) (s' : pystate),
    load_california_wildfires "/nonexistent/dir/fires.sqlite" sample_state = (Ok None, s')
    /\ stdout s' = (stdout sample_state
                    ++ [[Txt "Loading California wildfire data (2000-2015)..."];
                        [Txt "Error loading data: "; Exc e]])%list
    /\ (calls s' = (calls sample_state ++ [Connect "/nonexistent/dir/fires.sqlite"])%list
        \/ calls s' = (calls sample_state
                       ++ [Connect "/nonexistent/dir/fires.sqlite";
                           Query (length (conns sample_state))])%list)
    /\ heap s' = heap sample_state.
Proof.
  apply (loader_failure_returns_none "/nonexistent/dir/fires.sqlite" sample_state).
  left. reflexivity.
Defined.

(** The function never raises, whatever is at the path. *)
Lemma loader_never_raises (path : string) (s : pystate) :
  exists (r : option loc) (s' : pystate), load_california_wildfires path s = (Ok r, s').
Proof.
  destruct (files s path) as [| [fires |]] eqn:E.
  - eexists _, _. apply (load_unopenable path s E).
  - eexists _, _. apply (load_succeeds path s fires E).
  - eexists _, _. apply (load_query_fails path s E).
Qed.

(** On the success path the connection is closed before returning. *)
Lemma loader_closes_on_success (path : string) (s : pystate) (fires : list db_row) :
  files s path = Opens (Some fires) ->
  conns (snd (load_california_wildfires path s)) !! length (conns s)
  = Some (mkConn (Some fires) false).
Proof.
  intros E. pose proof (load_succeeds path s fires E) as L. cbv zeta in L.
  rewrite L. simpl. apply lookup_snoc.
Qed.

(** On the failure path where the query raises, it is not. *)
Lemma loader_open_on_query_failure (path : string) (s : pystate) :
  files s path = Opens None ->
  conns (snd (load_california_wildfires path s)) !! length (conns s)
  = Some (mkConn None true).
Proof.
  intros E. rewrite (load_query_fails path s E). simpl. apply lookup_snoc.
Qed.

(** C4, at a path where the database opens but the query fails (a file
    that does not exist yet is created empty by [sqlite3.connect], and
    has no [Fires] table): the function returns [None], the connection it
    opened is still open, and no [close] was called. *)
Theorem loader_query_failure_leaves_connection_open :
  let s0 := mkState (fun _ => Opens None) [] [] [] [] in
  let out := load_california_wildfires default_db_path s0 in
  fst out = Ok None
  /\ conns (snd out) = [mkConn None true]
  /\ calls (snd out) = [Connect default_db_path; Query 0].
Proof. vm_compute. repeat split. Qed.

End LoaderClaims.

(** ** Column minimum and maximum *)

Module ColumnFacts.

Lemma col_min_In (xs : list Q) (m : Q) : col_min xs = Some m -> In m xs.
Proof.
  revert m. induction xs as [| x xs IH]; intros m E; simpl in E; [discriminate |].
  destruct (col_min xs) as [m' |].
  - injection E as <-. unfold Qmin, GenericMinMax.gmin.
    destruct (x ?= m'); [left | left | right; apply IH]; reflexivity.
  - injection E as <-. left. reflexivity.
Qed.

Lemma col_max_In (xs : list Q) (m : Q) : col_max xs = Some m -> In m xs.
Proof.
  revert m. induction xs as [| x xs IH]; intros m E; simpl in E; [discriminate |].
  destruct (col_max xs) as [m' |].
  - injection E as <-. unfold Qmax, GenericMinMax.gmax.
    destruct (x ?= m'); [left | right; apply IH | left]; reflexivity.
  - injection E as <-. left. reflexivity.
Qed.

Lemma col_min_le (xs : list Q) (m : Q) :
  col_min xs = Some m -> forall x, In x xs -> m <= x.
Proof.
  revert m. induction xs as [| y xs IH]; intros m E x Hx; [destruct Hx |].
  simpl in E. destruct (col_min xs) as [m' |] eqn:E'.
  - injection E as <-. destruct Hx as [<- | Hx].
    + apply Q.le_min_l.
    + eapply Qle_trans; [apply Q.le_min_r | apply (IH m' eq_refl x Hx)].
  - injection E as <-. destruct xs as [| z xs].
    + destruct Hx as [<- | []]. apply Qle_refl.
    + simpl in E'. destruct (col_min xs); discriminate.
Qed.

Lemma col_max_ge (xs : list Q) (m : Q) :
  col_max xs = Some m -> forall x, In x xs -> x <= m.
Proof.
  revert m. induction xs as [| y xs IH]; intros m E x Hx; [destruct Hx |].
  simpl in E. destruct (col_max xs) as [m' |] eqn:E'.
  - injection E as <-. destruct Hx as [<- | Hx].
    + apply Q.le_max_l.
    + eapply Qle_trans; [apply (IH m' eq_refl x Hx) | apply Q.le_max_r].
  - injection E as <-. destruct xs as [| z xs].
    + destruct Hx as [<- | []]. apply Qle_refl.
    + simpl in E'. destruct (col_max xs); discriminate.
Qed.

Lemma col_min_is_Some (xs : list Q) : xs <> [] -> exists m, col_min xs = Some m.
Proof.
  destruct xs as [| x xs]; [congruence | intros _]. simpl.
  destruct (col_min xs); eexists; reflexivity.
Qed.

Lemma col_max_is_Some (xs : list Q) : xs <> [] -> exists m, col_max xs = Some m.
Proof.
  destruct xs as [| x xs]; [congruence | intros _]. simpl.
  destruct (col_max xs); eexists; reflexivity.
Qed.

Lemma np_div_nonzero (a b : Q) : ~ b == 0 -> np_div a b = Some (a / b).
Proof.
  intros Hb. unfold np_div. destruct (Qeq_bool b 0) eqn:E; [| reflexivity].
  apply Qeq_bool_eq in E. contradiction.
Qed.

Lemma np_div_zero (a b : Q) : b == 0 -> np_div a b = None.
Proof. intros Hb. unfold np_div. rewrite (Qeq_eq_bool _ _ Hb). reflexivity. Qed.

(** Min-max scaling of a value between the bounds. *)
Lemma scale_spec (lo hi x : Q) :
  lo < hi -> lo <= x <= hi ->
  exists v, Synthetic.scale (Some lo) (Some hi) x = Some v
            /\ v == (x - lo) / (hi - lo)
            /\ 0 <= v <= 1
            /\ (x == lo -> v == 0)
            /\ (x == hi -> v == 1).
Proof.
  intros Hlt [Hlo Hhi].
  assert (Hpos : 0 < hi - lo) by lra.
  exists ((x - lo) / (hi - lo)). simpl.
  split; [apply np_div_nonzero; lra |].
  split; [reflexivity |].
  split; [| split].
  - split.
    + apply Qle_shift_div_l; [exact Hpos | lra].
    + apply Qle_shift_div_r; [exact Hpos | lra].
  - intros E. rewrite E. unfold Qminus. rewrite Qplus_opp_r. field. lra.
  - intros E. rewrite E. field. lra.
Qed.

End ColumnFacts.

(** ** Normalised intensities *)

Module IntensityClaims.
Import Synthetic SyntheticSpec SyntheticFacts ColumnFacts.

Lemma spread_bounds (col : list Q) :
  spread col ->
  exists lo hi, col_min col = Some lo /\ col_max col = Some hi /\ lo < hi
                /\ In lo col /\ In hi col
                /\ forall x, In x col -> lo <= x <= hi.
Proof.
  unfold spread. destruct (col_min col) as [lo |] eqn:El; [| tauto].
  destruct (col_max col) as [hi |] eqn:Eh; [| tauto].
  intros Hlt. exists lo, hi. repeat split; auto using col_min_In, col_max_In.
  - apply (col_min_le col lo El x). assumption.
  - apply (col_max_ge col hi Eh x). assumption.
Qed.

Lemma add_intensities_scaled (df : list row) :
  spread (List.map precip_mm df) -> spread (List.map wildfire_index df) ->
  exists pl ph wl wh,
    col_min (List.map precip_mm df) = Some pl /\ col_max (List.map precip_mm df) = Some ph
    /\ col_min (List.map wildfire_index df) = Some wl
    /\ col_max (List.map wildfire_index df) = Some wh
    /\ List.map raw (add_intensities df) = df
    /\ Forall (scaled pl ph wl wh) (add_intensities df)
    /\ (exists r, In r (add_intensities df) /\ precip_mm (raw r) = pl)
    /\ (exists r, In r (add_intensities df) /\ precip_mm (raw r) = ph)
    /\ (exists r, In r (add_intensities df) /\ wildfire_index (raw r) = wl)
    /\ (exists r, In r (add_intensities df) /\ wildfire_index (raw r) = wh).
Proof.
  intros Sp Sw.
  destruct (spread_bounds _ Sp) as (pl & ph & Epl & Eph & Hp & Ipl & Iph & Bp).
  destruct (spread_bounds _ Sw) as (wl & wh & Ewl & Ewh & Hw & Iwl & Iwh & Bw).
  exists pl, ph, wl, wh. unfold add_intensities. rewrite Epl, Eph, Ewl, Ewh.
  repeat split; try reflexivity.
  - rewrite List.map_map. simpl. apply List.map_id.
  - apply List.Forall_forall. intros r Hr. apply in_map_iff in Hr.
    destruct Hr as (x & <- & Hx). simpl.
    destruct (scale_spec pl ph (precip_mm x) Hp) as (p & E1 & F1 & R1 & L1 & U1).
    { apply Bp. apply in_map. exact Hx. }
    destruct (scale_spec wl wh (wildfire_index x) Hw) as (w & E2 & F2 & R2 & L2 & U2).
    { apply Bw. apply in_map. exact Hx. }
    exists p, w. unfold scaled. simpl. tauto.
  - apply in_map_iff in Ipl. destruct Ipl as (x & E & Hx).
    eexists. split; [apply in_map; exact Hx | exact E].
  - apply in_map_iff in Iph. destruct Iph as (x & E & Hx).
    eexists. split; [apply in_map; exact Hx | exact E].
  - apply in_map_iff in Iwl. destruct Iwl as (x & E & Hx).
    eexists. split; [apply in_map; exact Hx | exact E].
  - apply in_map_iff in Iwh. destruct Iwh as (x & E & Hx).
    eexists. split; [apply in_map; exact Hx | exact E].
Qed.




End IntensityClaims.

(** ** Binning and grouping *)

Module BinningFacts.
Import Wildfire WildfireSpec ColumnFacts.

Lemma present_In {A} (col : list (option A)) (x : A) : In (Some x) col <-> In x (present col).
Proof.
  induction col as [| [y |] col IH]; simpl.
  - tauto.
  - rewrite <- IH. split; intros [E | H]; auto; left; congruence.
  - rewrite <- IH. split; [intros [E | H]; [discriminate | exact H] | auto].
Qed.






Lemma cut_edges_empty (n : nat) :
  (1 <= n)%nat -> cut_edges [] n = Raise (ValueError "Cannot cut empty array").
Proof.
  intros Hn. unfold cut_edges.
  destruct (Nat.ltb_spec n 1) as [H | H]; [lia | reflexivity].
Qed.

Lemma binned_edges (col : list (option Q)) (n : nat) :
  binned col n ->
  exists edges,
    cut_edges col n = Ok edges
    /\ forall x, In x col -> missing (bin_of edges x) = missing x.
Proof.
  unfold binned, all_binned. destruct (cut_edges col n) as [edges | e]; [| discriminate].
  intros H. exists edges. split; [reflexivity |].
  rewrite forallb_forall in H. intros x Hx. specialize (H x Hx).
  destruct x as [v |]; [| reflexivity].
  destruct (bin_of edges (Some v)); [reflexivity | discriminate H].
Qed.

Lemma binned_cuts (col : list (option Q)) (n : nat) : binned col n -> cuts col n.
Proof. intros H. destruct (binned_edges col n H) as (edges & E & _). exists edges. exact E. Qed.

Lemma cut_labels_ok (col : list (option Q)) (n : nat) :
  binned col n ->
  exists f,
    cut_labels col n = Ok (mkCol None (List.map f col))
    /\ forall x, In x col -> is_na (f x) = missing x.
Proof.
  intros H. destruct (binned_edges col n H) as (edges & E & B).
  unfold cut_labels. rewrite E. eexists. split; [reflexivity |].
  intros x Hx. rewrite <- (B x Hx). destruct (bin_of edges x); reflexivity.
Qed.

Lemma cut_centers_ok (col : list (option Q)) (n : nat) :
  binned col n ->
  exists f cats,
    cut_centers col n = Ok (mkCol (Some cats) (List.map f col))
    /\ forall x, In x col -> is_na (f x) = missing x.
Proof.
  intros H. destruct (binned_edges col n H) as (edges & E & B).
  unfold cut_centers. rewrite E. eexists _, _. split; [reflexivity |].
  intros x Hx. rewrite <- (B x Hx). destruct (bin_of edges x); reflexivity.
Qed.

(** *** Group sizes *)

Lemma add_to_group_total (k : key) (v : Q) (gs : list (key * list Q)) :
  group_total (add_to_group k v gs) = S (group_total gs).
Proof.
  unfold group_total. induction gs as [| [k' vs] gs IH]; simpl; [reflexivity |].
  destruct (key_compare k k'); simpl.
  - rewrite List.length_app. simpl. lia.
  - lia.
  - rewrite IH. lia.
Qed.

Lemma ensure_group_total (k : key) (gs : list (key * list Q)) :
  group_total (ensure_group k gs) = group_total gs.
Proof.
  unfold group_total. induction gs as [| [k' vs] gs IH]; simpl; [reflexivity |].
  destruct (key_compare k k'); simpl; [reflexivity | reflexivity | rewrite IH; reflexivity].
Qed.

Lemma observed_groups_total (keys : list key) (vals : list Q) :
  length keys = length vals ->
  group_total (observed_groups keys vals) = length (List.filter complete keys).
Proof.
  unfold observed_groups.
  assert (G : forall acc,
             length keys = length vals ->
             group_total
               (fold_left (fun gs '(k, v) => if existsb is_na k then gs else add_to_group k v gs)
                          (combine keys vals) acc)
             = (group_total acc + length (List.filter complete keys))%nat).
  { revert vals. induction keys as [| k keys IH]; intros [| v vals] acc L;
      simpl in *; try discriminate; [lia |].
    rewrite IH by lia. unfold complete at 2.
    destruct (existsb is_na k); simpl; [lia | rewrite add_to_group_total; lia]. }
  intros L. rewrite (G [] L). reflexivity.
Qed.

Lemma ensure_all_total (ks : list key) (gs : list (key * list Q)) :
  group_total (fold_left (fun acc k => ensure_group k acc) ks gs) = group_total gs.
Proof.
  revert gs. induction ks as [| k ks IH]; intros gs; simpl; [reflexivity |].
  rewrite IH. apply ensure_group_total.
Qed.

Lemma key_rows_length (n : nat) (cols : list column) : length (key_rows n cols) = n.
Proof. unfold key_rows. rewrite List.length_map, List.length_seq. reflexivity. Qed.

(** Whatever [observed] is, the group sizes add up to the number of rows
    whose key has no missing cell. *)
Lemma groupby_total (observed : bool) (n : nat) (cols : list column) (vals : list Q) :
  length vals = n ->
  group_total (groupby observed n cols vals) = length (List.filter complete (key_rows n cols)).
Proof.
  intros L. unfold groupby.
  destruct (observed || negb (existsb is_categorical cols)).
  - apply observed_groups_total. rewrite key_rows_length. congruence.
  - rewrite ensure_all_total. apply observed_groups_total.
    rewrite key_rows_length. congruence.
Qed.

Lemma count_sum_sizes (gs : list (key * list Q)) :
  count_sum (aggregate [agg_size] gs) = Z.of_nat (group_total gs).
Proof.
  unfold group_total. induction gs as [| [k vs] gs IH]; simpl; [reflexivity |].
  rewrite IH. lia.
Qed.

(** Rows of key columns that were computed row by row. *)
Lemma key_rows_map {A} (rows : list A) (fs : list (A -> cell)) (cols : list column) :
  Forall2 (fun f c => cells c = List.map f rows) fs cols ->
  key_rows (length rows) cols = List.map (fun r => List.map (fun f => f r) fs) rows.
Proof.
  intros HF. destruct rows as [| r0 rows'] eqn:Er; [reflexivity |]. rewrite <- Er in *.
  unfold key_rows.
  apply (nth_ext _ _ [] (List.map (fun f => f r0) fs)).
  - rewrite !List.length_map, List.length_seq. reflexivity.
  - intros i Hi. rewrite List.length_map, List.length_seq in Hi.
    rewrite (nth_indep _ [] (List.map (fun c => nth 0 (cells c) NA) cols))
      by (rewrite List.length_map, List.length_seq; exact Hi).
    rewrite (map_nth (fun i => List.map (fun c => nth i (cells c) NA) cols) (seq 0 (length rows)) 0%nat i).
    rewrite seq_nth by exact Hi. simpl.
    rewrite (map_nth (fun r => List.map (fun f => f r) fs) rows r0 i).
    induction HF as [| f c fs cols Hc HF IH]; simpl; [reflexivity |].
    rewrite IH. f_equal. rewrite Hc.
    rewrite (nth_indep _ NA (f r0)) by (rewrite List.length_map; exact Hi).
    apply map_nth.
Qed.

End BinningFacts.

(** ** The map builders step by step *)

Module BuilderFacts.
Import Wildfire WildfireSpec LoaderFacts BinningFacts.

Ltac run_py :=
  cbv beta delta [bind ret raise lift modify print read_frame write_frame new_frame
                  set_column get_column df_copy df_where_year with_heap];
  simpl.

Lemma get_set_extra (n n' : string) (c : column) (ex : list (string * column)) :
  get_extra n (set_extra n' c ex) = if String.eqb n' n then Some c else get_extra n ex.
Proof.
  induction ex as [| [m c'] ex IH]; simpl; [reflexivity |].
  destruct (String.eqb m n') eqn:E1; simpl.
  - apply String.eqb_eq in E1. subst m. destruct (String.eqb n' n); reflexivity.
  - rewrite IH. destruct (String.eqb m n) eqn:E2; [| reflexivity].
    apply String.eqb_eq in E2. subst m. rewrite String.eqb_sym, E1. reflexivity.
Qed.

Lemma set_column_ok (l : loc) (name : string) (c : column) (s : pystate) (d : DataFrame) :
  heap s !! l = Some d ->
  set_column l name c s =
  (Ok tt, with_heap s (<[l := mkDF (size_dtype d) (records d) (set_extra name c (extra d))]>
                         (heap s))).
Proof. intros E. run_py. rewrite E. reflexivity. Qed.

Lemma df_copy_ok (l : loc) (s : pystate) (d : DataFrame) :
  heap s !! l = Some d ->
  df_copy l s = (Ok (length (heap s)), with_heap s (heap s ++ [d])%list).
Proof. intros E. run_py. rewrite E. reflexivity. Qed.

(** The rows [df[df['FIRE_YEAR'] == y]] keeps. *)
Lemma select_year (y : Z) (rows : list fire) :
  select (List.map (fun r => (FIRE_YEAR r =? y)%Z) rows) rows
  = List.filter (fun r => (FIRE_YEAR r =? y)%Z) rows.
Proof.
  induction rows as [| r rows IH]; simpl; [reflexivity |].
  destruct (FIRE_YEAR r =? y)%Z; rewrite IH; reflexivity.
Qed.

Lemma df_where_year_ok (l : loc) (y : Z) (s : pystate) (d : DataFrame) :
  heap s !! l = Some d ->
  exists ex,
    df_where_year l y s =
    (Ok (length (heap s)),
     with_heap s (heap s ++ [mkDF (size_dtype d)
                                  (List.filter (fun r => (FIRE_YEAR r =? y)%Z) (records d)) ex])%list).
Proof.
  intros E. run_py. rewrite E. simpl. rewrite select_year. eexists. reflexivity.
Qed.

Lemma add_bins_ok (l : loc) (n m : nat) (s : pystate) (d : DataFrame) (c1 c2 c3 c4 : column) :
  heap s !! l = Some d ->
  cut_labels (List.map LATITUDE (records d)) n = Ok c1 ->
  cut_labels (List.map LONGITUDE (records d)) m = Ok c2 ->
  cut_centers (List.map LATITUDE (records d)) n = Ok c3 ->
  cut_centers (List.map LONGITUDE (records d)) m = Ok c4 ->
  add_bins l n m s =
  (Ok tt,
   with_heap s
     (<[l := mkDF (size_dtype d) (records d)
               (set_extra "lon_center" c4
                  (set_extra "lat_center" c3
                     (set_extra "lon_bin" c2
                        (set_extra "lat_bin" c1 (extra d)))))]> (heap s))).
Proof.
  intros E E1 E2 E3 E4.
  pose proof (lookup_lt_Some _ _ _ E) as Hl.
  unfold add_bins. run_py. rewrite E. simpl. rewrite E1. simpl. rewrite E. simpl.
  rewrite list_lookup_insert_eq by exact Hl. simpl. rewrite E2. simpl.
  rewrite list_lookup_insert_eq by exact Hl. simpl.
  rewrite list_insert_insert_eq.
  rewrite list_lookup_insert_eq by exact Hl. simpl. rewrite E3. simpl.
  rewrite list_lookup_insert_eq by exact Hl. simpl. rewrite E4. simpl.
  rewrite list_lookup_insert_eq by exact Hl. simpl.
  rewrite list_insert_insert_eq.
  rewrite list_lookup_insert_eq by exact Hl. simpl.
  rewrite list_insert_insert_eq. reflexivity.
Qed.

(** If binning fails, [add_bins] raises. *)
Lemma add_bins_empty (l : loc) (n m : nat) (s : pystate) (d : DataFrame) :
  (1 <= n)%nat ->
  heap s !! l = Some d -> records d = [] ->
  add_bins l n m s = (Raise (ValueError "Cannot cut empty array"), s).
Proof.
  intros Hn E R. unfold add_bins. run_py. rewrite E. simpl. rewrite R.
  unfold cut_labels. simpl List.map. rewrite (cut_edges_empty n Hn). reflexivity.
Qed.

Lemma groupby_frame_bins (observed : bool) (l : loc) (s : pystate) (d : DataFrame)
      (c1 c2 c3 c4 : column) (ex : list (string * column)) :
  heap s !! l = Some d ->
  extra d = set_extra "lon_center" c4
              (set_extra "lat_center" c3 (set_extra "lon_bin" c2 (set_extra "lat_bin" c1 ex))) ->
  groupby_frame observed l bin_columns s =
  (Ok (groupby observed (length (records d)) [c1; c2; c3; c4]
               (List.map FIRE_SIZE (records d))), s).
Proof.
  intros E X. unfold groupby_frame, bin_columns. run_py.
  repeat (first [rewrite E | rewrite X | rewrite get_set_extra]; simpl).
  reflexivity.
Qed.

Lemma create_fire_choropleth_unfold (observed : bool) (df : loc) (metric : string)
      (year : option Z) :
  create_fire_choropleth observed (Some df) metric year =
  (plot_df <- df_copy df ;;
   sel <- match truthy year with
          | Some y => p <- df_where_year plot_df y ;; ret (p, " (" +:+ pretty y +:+ ")")
          | None => ret (plot_df, " (2000-2015)")
          end ;;
   choropleth_from observed (fst sel) (snd sel) metric).
Proof. reflexivity. Qed.

(** Up to the binning, the builder only allocates: the caller's frames
    stay where they are and [plot_df] is a new frame with the selected
    rows. *)
Lemma choropleth_selection (observed : bool) (df : loc) (metric : string) (year : option Z)
      (s : pystate) (d : DataFrame) :
  heap s !! df = Some d ->
  exists (p : loc) (ty : string) (more : list DataFrame) (dp : DataFrame),
    create_fire_choropleth observed (Some df) metric year s
    = choropleth_from observed p ty metric (with_heap s (heap s ++ more)%list)
    /\ (heap s ++ more)%list !! p = Some dp
    /\ records dp = plot_rows year (records d).
Proof.
  intros E. rewrite create_fire_choropleth_unfold. unfold plot_rows.
  unfold bind at 1. rewrite (df_copy_ok df s d E).
  destruct (truthy year) as [y |].
  - destruct (df_where_year_ok (length (heap s)) y (with_heap s (heap s ++ [d])%list) d)
      as (ex & W); [apply lookup_snoc |].
    unfold bind at 1. unfold bind at 1. rewrite W. simpl.
    eexists _, _, [d; _], _. split; [| split].
    + unfold ret. simpl. unfold with_heap. simpl.
      rewrite <- List.app_assoc. reflexivity.
    + rewrite List.length_app. simpl.
      replace (heap s ++ [d; _])%list with ((heap s ++ [d]) ++ [mkDF (size_dtype d)
        (List.filter (fun r => (FIRE_YEAR r =? y)%Z) (records d)) ex])%list
        by (rewrite <- List.app_assoc; reflexivity).
      replace (length (heap s) + 1)%nat with (length (heap s ++ [d])%list)
        by (rewrite List.length_app; reflexivity).
      apply lookup_snoc.
    + reflexivity.
  - unfold bind at 1. unfold ret at 1. simpl.
    eexists _, _, [d], d. split; [reflexivity |]. split; [apply lookup_snoc | reflexivity].
Qed.

End BuilderFacts.

(** ** The binned map builder: counts and the metric selector *)

Module ChoroplethClaims.
Import Wildfire WildfireSpec LoaderFacts BinningFacts BuilderFacts.

Lemma filter_map_length {A B} (f : A -> B) (P : B -> bool) (R : A -> bool) (l : list A) :
  (forall x, In x l -> P (f x) = R x) ->
  length (List.filter P (List.map f l)) = length (List.filter R l).
Proof.
  induction l as [| a l IH]; intros HP; [reflexivity |]. simpl.
  rewrite (HP a) by (left; reflexivity).
  assert (IH' := IH (fun x Hx => HP x (or_intror Hx))).
  destruct (R a); simpl; rewrite IH'; reflexivity.
Qed.

(** The four bin columns of a table whose latitudes and longitudes are
    all binned, and the keys they give to the rows. *)
Lemma bin_columns_ok (rows : list fire) (n m : nat) :
  binned (List.map LATITUDE rows) n -> binned (List.map LONGITUDE rows) m ->
  exists c1 c2 c3 c4,
    cut_labels (List.map LATITUDE rows) n = Ok c1
    /\ cut_labels (List.map LONGITUDE rows) m = Ok c2
    /\ cut_centers (List.map LATITUDE rows) n = Ok c3
    /\ cut_centers (List.map LONGITUDE rows) m = Ok c4
    /\ forall yr : fire -> cell,
         (forall r, is_na (yr r) = false) ->
         length (List.filter complete
                   (key_rows (length rows) (mkCol None (List.map yr rows) :: [c1; c2; c3; c4])))
         = length (List.filter located rows)
         /\ length (List.filter complete (key_rows (length rows) [c1; c2; c3; c4]))
            = length (List.filter located rows).
Proof.
  intros Hlat Hlon.
  destruct (cut_labels_ok _ n Hlat) as (f1 & E1 & N1).
  destruct (cut_labels_ok _ m Hlon) as (f2 & E2 & N2).
  destruct (cut_centers_ok _ n Hlat) as (f3 & k3 & E3 & N3).
  destruct (cut_centers_ok _ m Hlon) as (f4 & k4 & E4 & N4).
  eexists _, _, _, _. repeat (split; [eassumption |]).
  set (g1 := fun r => f1 (LATITUDE r)). set (g2 := fun r => f2 (LONGITUDE r)).
  set (g3 := fun r => f3 (LATITUDE r)). set (g4 := fun r => f4 (LONGITUDE r)).
  assert (F4 : Forall2 (fun f c => cells c = List.map f rows) [g1; g2; g3; g4]
                 [mkCol None (List.map f1 (List.map LATITUDE rows));
                  mkCol None (List.map f2 (List.map LONGITUDE rows));
                  mkCol (Some k3) (List.map f3 (List.map LATITUDE rows));
                  mkCol (Some k4) (List.map f4 (List.map LONGITUDE rows))]).
  { repeat constructor; simpl; apply List.map_map. }
  assert (C : forall r, In r rows ->
                complete [g1 r; g2 r; g3 r; g4 r] = located r).
  { intros r Hr. unfold complete, located, g1, g2, g3, g4. simpl.
    rewrite N1, N2, N3, N4 by (apply in_map; exact Hr).
    destruct (missing (LATITUDE r)), (missing (LONGITUDE r)); reflexivity. }
  intros yr Hyr. split.
  - rewrite (key_rows_map rows (yr :: [g1; g2; g3; g4])).
    + apply filter_map_length. intros r Hr. rewrite <- (C r Hr).
      unfold complete. simpl. rewrite Hyr. reflexivity.
    + constructor; [reflexivity | exact F4].
  - rewrite (key_rows_map rows [g1; g2; g3; g4] _ F4).
    apply filter_map_length. exact C.
Qed.

(** The builder from the binning on, when the four binnings succeed. *)
Lemma choropleth_from_cut (observed : bool) (p : loc) (ty metric : string) (s : pystate)
      (dp : DataFrame) (c1 c2 c3 c4 : column) :
  heap s !! p = Some dp ->
  cut_labels (List.map LATITUDE (records dp)) 20 = Ok c1 ->
  cut_labels (List.map LONGITUDE (records dp)) 20 = Ok c2 ->
  cut_centers (List.map LATITUDE (records dp)) 20 = Ok c3 ->
  cut_centers (List.map LONGITUDE (records dp)) 20 = Ok c4 ->
  exists h : list DataFrame,
    let gs := groupby observed (length (records dp)) [c1; c2; c3; c4]
                      (List.map FIRE_SIZE (records dp)) in
    choropleth_from observed p ty metric s =
       if String.eqb metric "fire_count" then
         (Ok (Some (mkFigure (aggregate [agg_size] gs)
                             ("California Wildfire Count by Region" +:+ ty)
                             [("value", "Number of Fires")] None 30 700)),
          with_heap s h)
       else if String.eqb metric "total_acres" then
         (Ok (Some (mkFigure (aggregate [agg_sum] gs)
                             ("California Total Acres Burned by Region" +:+ ty)
                             [("value", "Total Acres Burned")] None 30 700)),
          with_heap s h)
       else if String.eqb metric "avg_fire_size" then
         (Ok (Some (mkFigure (aggregate [agg_mean] gs)
                             ("California Average Fire Size by Region" +:+ ty)
                             [("value", "Average Fire Size (Acres)")] None 30 700)),
          with_heap s h)
       else
         (Ok None,
          mkState (files s) (conns s) (calls s) h
                  (stdout s ++ [[Txt "Invalid metric. Use 'fire_count', 'total_acres', or 'avg_fire_size'"]])%list).
Proof.
  intros E E1 E2 E3 E4.
  pose proof (add_bins_ok p 20 20 s dp c1 c2 c3 c4 E E1 E2 E3 E4) as A.
  pose proof (lookup_lt_Some _ _ _ E) as Hl.
  set (dq := mkDF (size_dtype dp) (records dp)
               (set_extra "lon_center" c4
                  (set_extra "lat_center" c3
                     (set_extra "lon_bin" c2 (set_extra "lat_bin" c1 (extra dp)))))) in *.
  assert (G : groupby_frame observed p bin_columns (with_heap s (<[p := dq]> (heap s)))
              = (Ok (groupby observed (length (records dp)) [c1; c2; c3; c4]
                             (List.map FIRE_SIZE (records dp))),
                 with_heap s (<[p := dq]> (heap s)))).
  { apply (groupby_frame_bins observed p _ dq c1 c2 c3 c4 (extra dp)).
    - simpl. apply list_lookup_insert_eq. exact Hl.
    - reflexivity. }
  exists (<[p := dq]> (heap s)). cbv zeta.
  unfold choropleth_from. unfold bind at 1. rewrite A.
  destruct (String.eqb metric "fire_count");
    [unfold bind at 1; unfold bind at 1; rewrite G; reflexivity |].
  destruct (String.eqb metric "total_acres");
    [unfold bind at 1; unfold bind at 1; rewrite G; reflexivity |].
  destruct (String.eqb metric "avg_fire_size");
    [unfold bind at 1; unfold bind at 1; rewrite G; reflexivity |].
  reflexivity.
Qed.

(** The builder from the binning on, when every coordinate is binned. *)
Lemma choropleth_from_ok (observed : bool) (p : loc) (ty metric : string) (s : pystate)
      (dp : DataFrame) :
  heap s !! p = Some dp ->
  binned (List.map LATITUDE (records dp)) 20 ->
  binned (List.map LONGITUDE (records dp)) 20 ->
  exists (gs : list (key * list Q)) (h : list DataFrame),
    group_total gs = length (List.filter located (records dp))
    /\ choropleth_from observed p ty metric s =
       if String.eqb metric "fire_count" then
         (Ok (Some (mkFigure (aggregate [agg_size] gs)
                             ("California Wildfire Count by Region" +:+ ty)
                             [("value", "Number of Fires")] None 30 700)),
          with_heap s h)
       else if String.eqb metric "total_acres" then
         (Ok (Some (mkFigure (aggregate [agg_sum] gs)
                             ("California Total Acres Burned by Region" +:+ ty)
                             [("value", "Total Acres Burned")] None 30 700)),
          with_heap s h)
       else if String.eqb metric "avg_fire_size" then
         (Ok (Some (mkFigure (aggregate [agg_mean] gs)
                             ("California Average Fire Size by Region" +:+ ty)
                             [("value", "Average Fire Size (Acres)")] None 30 700)),
          with_heap s h)
       else
         (Ok None,
          mkState (files s) (conns s) (calls s) h
                  (stdout s ++ [[Txt "Invalid metric. Use 'fire_count', 'total_acres', or 'avg_fire_size'"]])%list).
Proof.
  intros E Hlat Hlon.
  destruct (bin_columns_ok (records dp) 20 20 Hlat Hlon)
    as (c1 & c2 & c3 & c4 & E1 & E2 & E3 & E4 & T).
  destruct (choropleth_from_cut observed p ty metric s dp c1 c2 c3 c4 E E1 E2 E3 E4)
    as (h & R). cbv zeta in R.
  eexists _, h. split; [| exact R].
  rewrite groupby_total by apply List.length_map.
  apply (T (fun _ => Int 0) (fun _ => eq_refl)).
Qed.

(** Both binnings of a column succeed when its edges are computed. *)
Lemma cuts_columns (col : list (option Q)) (n : nat) :
  cuts col n -> exists c c', cut_labels col n = Ok c /\ cut_centers col n = Ok c'.
Proof.
  intros (edges & E). unfold cut_labels, cut_centers. rewrite E.
  eexists _, _. split; reflexivity.
Qed.

Lemma fire_count_total (observed : bool) (s : pystate) (df : loc) (d : DataFrame)
      (year : option Z) :
  heap s !! df = Some d ->
  binned (List.map LATITUDE (plot_rows year (records d))) 20 ->
  binned (List.map LONGITUDE (plot_rows year (records d))) 20 ->
  exists fig s',
    create_fire_choropleth observed (Some df) "fire_count" year s = (Ok (Some fig), s')
    /\ count_sum (data fig)
       = Z.of_nat (length (List.filter located (plot_rows year (records d)))).
Proof.
  intros E Hlat Hlon.
  destruct (choropleth_selection observed df "fire_count" year s d E)
    as (p & ty & more & dp & -> & Ep & Er).
  rewrite <- Er in Hlat, Hlon.
  destruct (choropleth_from_ok observed p ty "fire_count"
              (with_heap s (heap s ++ more)%list) dp Ep Hlat Hlon) as (gs & h & T & ->).
  simpl. eexists _, _. split; [reflexivity |]. simpl.
  rewrite count_sum_sizes, T, Er. reflexivity.
Qed.

Lemma invalid_metric_none (observed : bool) (s : pystate) (df : loc) (d : DataFrame)
      (metric : string) (year : option Z) :
  heap s !! df = Some d ->
  cuts (List.map LATITUDE (plot_rows year (records d))) 20 ->
  cuts (List.map LONGITUDE (plot_rows year (records d))) 20 ->
  metric <> "fire_count" -> metric <> "total_acres" -> metric <> "avg_fire_size" ->
  exists s',
    create_fire_choropleth observed (Some df) metric year s = (Ok None, s')
    /\ stdout s' = (stdout s ++ [[Txt "Invalid metric. Use 'fire_count', 'total_acres', or 'avg_fire_size'"]])%list.
Proof.
  intros E Hlat Hlon N1 N2 N3.
  destruct (choropleth_selection observed df metric year s d E)
    as (p & ty & more & dp & -> & Ep & Er).
  rewrite <- Er in Hlat, Hlon.
  destruct (cuts_columns _ 20 Hlat) as (c1 & c3 & E1 & E3).
  destruct (cuts_columns _ 20 Hlon) as (c2 & c4 & E2 & E4).
  destruct (choropleth_from_cut observed p ty metric
              (with_heap s (heap s ++ more)%list) dp c1 c2 c3 c4 Ep E1 E2 E3 E4) as (h & R).
  cbv zeta in R. rewrite R.
  apply String.eqb_neq in N1, N2, N3. rewrite N1, N2, N3.
  eexists. split; reflexivity.
Qed.

Lemma filter_all {A} (P : A -> bool) (l : list A) :
  Forall (fun x => P x = true) l -> List.filter P l = l.
Proof.
  induction 1 as [| x l Hx _ IH]; simpl; [reflexivity |]. rewrite Hx, IH. reflexivity.
Qed.

(** C3, as amended.  For every table and every year argument for which
    [pd.cut] bins the latitudes and the longitudes of the selected rows
    (those of the year; all rows when no year, or year 0, is given)
    into 20 bins without raising and gives every latitude and longitude
    that is present a bin, the builder called with ['fire_count'] returns
    a figure, and the counts of its bins add up to the number of selected
    rows that have both coordinates, hence to the number of selected rows
    when none of them lacks a coordinate. *)
Theorem fire_count_sum (observed : bool) (s : pystate) (df : loc) (d : DataFrame)
        (year : option Z) :
  heap s !! df = Some d ->
  binned (List.map LATITUDE (plot_rows year (records d))) 20 ->
  binned (List.map LONGITUDE (plot_rows year (records d))) 20 ->
  exists fig s',
    create_fire_choropleth observed (Some df) "fire_count" year s = (Ok (Some fig), s')
    /\ count_sum (data fig)
       = Z.of_nat (length (List.filter located (plot_rows year (records d))))
    /\ (Forall (fun r => located r = true) (plot_rows year (records d)) ->
        count_sum (data fig) = Z.of_nat (length (plot_rows year (records d)))).
Proof.
  intros E Hlat Hlon.
  destruct (fire_count_total observed s df d year E Hlat Hlon) as (fig & s' & R & T).
  exists fig, s'. split; [exact R |]. split; [exact T |].
  intros Hall. rewrite T, (filter_all located _ Hall). reflexivity.
Qed.

Lemma fire_count_sum_witness :
  exists fig s',
    create_fire_choropleth false (Some 0%nat) "fire_count" (Some 2003%Z) sample_heap
    = (Ok (Some fig), s')
    /\ count_sum (data fig)
       = Z.of_nat (length (List.filter located (plot_rows (Some 2003%Z) sample_rows)))
    /\ (Forall (fun r => located r = true) (plot_rows (Some 2003%Z) sample_rows) ->
        count_sum (data fig) = Z.of_nat (length (plot_rows (Some 2003%Z) sample_rows))).
Proof.
  apply (fire_count_sum false sample_heap 0%nat (mkDF float64 sample_rows []) (Some 2003%Z)).
  - reflexivity.
  - vm_compute. reflexivity.
  - vm_compute. reflexivity.
Defined.

(** C3 as stated fails: with a row that lacks a latitude, the builder
    returns a figure whose counts add up to less than the number of rows
    of the table, with either default of [observed]. *)
Lemma fire_count_sum_counterexample :
  (exists fig s',
     create_fire_choropleth true (Some 0%nat) "fire_count" None sample_heap
     = (Ok (Some fig), s')
     /\ count_sum (data fig) = 3%Z
     /\ count_sum (data fig) <> Z.of_nat (length sample_rows))
  /\ (exists fig s',
        create_fire_choropleth false (Some 0%nat) "fire_count" None sample_heap
        = (Ok (Some fig), s')
        /\ count_sum (data fig) = 3%Z
        /\ count_sum (data fig) <> Z.of_nat (length sample_rows)).
Proof.
  split.
  - destruct (fire_count_total true sample_heap 0%nat (mkDF float64 sample_rows []) None)
      as (fig & s' & R & T).
    + reflexivity.
    + vm_compute. reflexivity.
    + vm_compute. reflexivity.
    + exists fig, s'. split; [exact R |]. rewrite T. split; [reflexivity | discriminate].
  - destruct (fire_count_total false sample_heap 0%nat (mkDF float64 sample_rows []) None)
      as (fig & s' & R & T).
    + reflexivity.
    + vm_compute. reflexivity.
    + vm_compute. reflexivity.
    + exists fig, s'. split; [exact R |]. rewrite T. split; [reflexivity | discriminate].
Qed.

Example sample_fire_count :
  option_map (fun fig => List.map values (data fig))
    (match fst (create_fire_choropleth true (Some 0%nat) "fire_count" None sample_heap) with
     | Ok f => f
     | Raise _ => None
     end)
  = Some [[Int 1]; [Int 1]; [Int 1]].
Proof. vm_compute. reflexivity. Qed.

(** The rounding of the edges shows on latitudes that are very close.
    With two fires [2^-40] degrees apart, moving the lowest edge down by
    0.1% of the range is lost to rounding: the edges are distinct, the
    fire with the smaller latitude lies on the lowest edge, gets no bin,
    and is counted nowhere. *)
Example narrow_range_leaves_minimum_out :
  all_binned (List.map LATITUDE (close_rows (1 # 2 ^ 40))) 20 = false
  /\ option_map (fun c => cells c)
       (match cut_labels (List.map LATITUDE (close_rows (1 # 2 ^ 40))) 20 with
        | Ok c => Some c
        | Raise _ => None
        end)
     = Some [NA; Int 19]
  /\ option_map (fun fig => count_sum (data fig))
       (match fst (create_fire_choropleth true (Some 0%nat) "fire_count" None
                     (close_heap (1 # 2 ^ 40))) with
        | Ok f => f
        | Raise _ => None
        end)
     = Some 1%Z.
Proof. vm_compute. repeat split. Qed.

(** With two fires whose latitudes are neighbouring binary64 values, the
    edges computed between them coincide and [pd.cut] raises, whatever the
    metric is. *)
Example neighbouring_values_raise :
  cut_edges (List.map LATITUDE (close_rows (1 # 2 ^ 47))) 20
  = Raise (ValueError "Bin edges must be unique")
  /\ fst (create_fire_choropleth true (Some 0%nat) "acres" None (close_heap (1 # 2 ^ 47)))
     = Raise (ValueError "Bin edges must be unique")
  /\ fst (create_fire_choropleth true (Some 0%nat) "fire_count" None
            (close_heap (1 # 2 ^ 47)))
     = Raise (ValueError "Bin edges must be unique").
Proof. vm_compute. repeat split. Qed.

(** C6, as amended.  For every table and year argument for which
    [pd.cut] computes the 20 bins of the latitudes and of the longitudes
    of the selected rows without raising, and every metric other than the
    three known ones, the builder prints the error message and returns
    [None] without raising. *)
Theorem invalid_metric_reported (observed : bool) (s : pystate) (df : loc) (d : DataFrame)
        (metric : string) (year : option Z) :
  heap s !! df = Some d ->
  cuts (List.map LATITUDE (plot_rows year (records d))) 20 ->
  cuts (List.map LONGITUDE (plot_rows year (records d))) 20 ->
  metric <> "fire_count" -> metric <> "total_acres" -> metric <> "avg_fire_size" ->
  exists s',
    create_fire_choropleth observed (Some df) metric year s = (Ok None, s')
    /\ stdout s' = (stdout s ++ [[Txt "Invalid metric. Use 'fire_count', 'total_acres', or 'avg_fire_size'"]])%list.
Proof. apply invalid_metric_none. Qed.

Lemma invalid_metric_reported_witness :
  exists s',
    create_fire_choropleth false (Some 0%nat) "acres" None sample_heap = (Ok None, s')
    /\ stdout s' = (stdout sample_heap ++ [[Txt "Invalid metric. Use 'fire_count', 'total_acres', or 'avg_fire_size'"]])%list.
Proof.
  apply (invalid_metric_reported false sample_heap 0%nat (mkDF float64 sample_rows []) "acres" None).
  - reflexivity.
  - eexists. vm_compute. reflexivity.
  - eexists. vm_compute. reflexivity.
  - discriminate.
  - discriminate.
  - discriminate.
Defined.

(** C6 as stated fails: for a year in which the table has no fire, the
    binning raises before the metric is looked at, whatever the metric
    is; the same happens on a table without rows. *)
Lemma invalid_metric_counterexample :
  create_fire_choropleth true (Some 0%nat) "acres" (Some 1999%Z) sample_heap
  = (Raise (ValueError "Cannot cut empty array"),
     mkState (files sample_heap) [] []
             [mkDF float64 sample_rows []; mkDF float64 sample_rows []; mkDF float64 [] []] [])
  /\ fst (create_fire_choropleth true (Some 0%nat) "acres" None
            (mkState (fun _ => Unopenable) [] [] [mkDF object [] []] []))
     = Raise (ValueError "Cannot cut empty array").
Proof. split; reflexivity. Qed.

End ChoroplethClaims.

(** ** The builders write to their copy only *)

Module FrameFacts.
Import Wildfire WildfireSpec LoaderFacts BuilderFacts.

Section Keeps.
Variable h0 : list DataFrame.

Lemma keeps_ret {A} (a : A) (R : A -> Prop) : R a -> keeps h0 (ret a) R.
Proof. intros Ha s Hs. split; [exact Hs | exact Ha]. Qed.

Lemma keeps_raise {A} (e : exn) (R : A -> Prop) : keeps h0 (raise e) R.
Proof. intros s Hs. split; [exact Hs | exact I]. Qed.

Lemma keeps_lift {A} (r : result A) : keeps h0 (lift r) (fun _ => True).
Proof. intros s Hs. split; [exact Hs | destruct r; exact I]. Qed.

Lemma keeps_bind {A B} (c : Py pystate A) (k : A -> Py pystate B)
      (R : A -> Prop) (T : B -> Prop) :
  keeps h0 c R -> (forall a, R a -> keeps h0 (k a) T) -> keeps h0 (bind c k) T.
Proof.
  intros Hc Hk s Hs. destruct (Hc s Hs) as [P1 R1]. unfold bind.
  destruct (c s) as [[a | e] s1]; simpl in *.
  - apply (Hk a R1 s1 P1).
  - split; [exact P1 | exact I].
Qed.

Lemma keeps_weaken {A} (c : Py pystate A) (R R' : A -> Prop) :
  keeps h0 c R -> (forall a, R a -> R' a) -> keeps h0 c R'.
Proof.
  intros Hc HR s Hs. destruct (Hc s Hs) as [P1 R1]. split; [exact P1 |].
  destruct (fst (c s)); [apply HR; exact R1 | exact I].
Qed.

Lemma keeps_print (l : line) : keeps h0 (print l) (fun _ => True).
Proof. intros s Hs. split; [exact Hs | exact I]. Qed.

Lemma keeps_read_frame (l : loc) : keeps h0 (read_frame l) (fun _ => True).
Proof.
  intros s Hs. unfold read_frame. destruct (heap s !! l); split; simpl; auto.
Qed.

Lemma keeps_new_frame (d : DataFrame) : keeps h0 (new_frame d) (fresh h0).
Proof.
  intros s Hs. unfold new_frame, fresh. simpl. split.
  - apply prefix_app_r. exact Hs.
  - apply prefix_length. exact Hs.
Qed.

Lemma keeps_write_frame (l : loc) (d : DataFrame) :
  fresh h0 l -> keeps h0 (write_frame l d) (fun _ => True).
Proof.
  intros Hl s [k Hk]. unfold write_frame, modify. simpl. split; [| exact I].
  rewrite Hk, insert_app_r_alt by exact Hl. eexists. reflexivity.
Qed.

Lemma keeps_set_column (l : loc) (name : string) (c : column) :
  fresh h0 l -> keeps h0 (set_column l name c) (fun _ => True).
Proof.
  intros Hl. unfold set_column.
  eapply keeps_bind; [apply keeps_read_frame |].
  intros d _. apply keeps_write_frame. exact Hl.
Qed.

Lemma keeps_get_column (l : loc) (name : string) :
  keeps h0 (get_column l name) (fun _ => True).
Proof.
  unfold get_column. eapply keeps_bind; [apply keeps_read_frame |].
  intros d _. destruct (get_extra name (extra d)); [apply keeps_ret; exact I | apply keeps_raise].
Qed.

Lemma keeps_df_copy (l : loc) : keeps h0 (df_copy l) (fresh h0).
Proof.
  unfold df_copy. eapply keeps_bind; [apply keeps_read_frame |].
  intros d _. apply keeps_new_frame.
Qed.

Lemma keeps_df_where_year (l : loc) (y : Z) : keeps h0 (df_where_year l y) (fresh h0).
Proof.
  unfold df_where_year. eapply keeps_bind; [apply keeps_read_frame |].
  intros d _. apply keeps_new_frame.
Qed.

Ltac keeps_step :=
  match goal with
  | |- keeps _ (bind (read_frame _) _) _ =>
      eapply keeps_bind; [apply keeps_read_frame | intros ? _]
  | |- keeps _ (bind (lift _) _) _ =>
      eapply keeps_bind; [apply keeps_lift | intros ? _]
  | |- keeps _ (bind (print _) _) _ =>
      eapply keeps_bind; [apply keeps_print | intros ? _]
  | |- keeps _ (bind (get_column _ _) _) _ =>
      eapply keeps_bind; [apply keeps_get_column | intros ? _]
  | |- keeps _ (bind (set_column _ _ _) _) _ =>
      eapply keeps_bind; [apply keeps_set_column; assumption | intros ? _]
  | |- keeps _ (set_column _ _ _) _ => apply keeps_set_column; assumption
  | |- keeps _ (ret _) _ => apply keeps_ret; exact I
  end.

Lemma keeps_add_bins (l : loc) (n m : nat) :
  fresh h0 l -> keeps h0 (add_bins l n m) (fun _ => True).
Proof. intros Hl. unfold add_bins. repeat keeps_step. Qed.

Lemma keeps_groupby_frame (observed : bool) (l : loc) (names : list string) :
  keeps h0 (groupby_frame observed l names) (fun _ => True).
Proof.
  unfold groupby_frame. keeps_step.
  eapply keeps_bind; [| intros cols _; apply keeps_ret; exact I].
  induction names as [| n names IH].
  - apply (keeps_ret [] (fun _ => True) I).
  - keeps_step. eapply keeps_bind; [exact IH |]. intros cs _. apply keeps_ret. exact I.
Qed.

Lemma keeps_choropleth_from (observed : bool) (p : loc) (ty metric : string) :
  fresh h0 p -> keeps h0 (choropleth_from observed p ty metric) (fun _ => True).
Proof.
  intros Hp. unfold choropleth_from.
  eapply keeps_bind; [apply keeps_add_bins; exact Hp | intros ? _].
  eapply keeps_bind with (R := fun _ => True);
    [| intros [[[agg t] c] |] _; apply keeps_ret; exact I].
  repeat match goal with
         | |- keeps _ (if ?b then _ else _) _ => destruct b
         end;
    try (eapply keeps_bind; [apply keeps_groupby_frame | intros ? _; apply keeps_ret; exact I]).
  keeps_step. apply (keeps_ret None (fun _ => True) I).
Qed.

Lemma keeps_create_fire_choropleth (observed : bool) (df : option loc) (metric : string)
      (year : option Z) :
  keeps h0 (create_fire_choropleth observed df metric year) (fun _ => True).
Proof.
  destruct df as [df |].
  - rewrite create_fire_choropleth_unfold.
    eapply keeps_bind; [apply keeps_df_copy |]. intros p Hp.
    eapply keeps_bind with (R := fun sel => fresh h0 (fst sel)).
    + destruct (truthy year) as [y |].
      * eapply keeps_bind; [apply keeps_df_where_year |].
        intros q Hq. apply keeps_ret. exact Hq.
      * apply keeps_ret. exact Hp.
    + intros sel Hsel. apply keeps_choropleth_from. exact Hsel.
  - simpl. keeps_step. apply (keeps_ret None (fun _ => True) I).
Qed.

Lemma keeps_create_time_series_map (observed : bool) (df : option loc) :
  keeps h0 (create_time_series_map observed df) (fun _ => True).
Proof.
  destruct df as [df |]; simpl.
  - eapply keeps_bind; [apply keeps_df_copy |]. intros p Hp.
    eapply keeps_bind; [apply keeps_add_bins; exact Hp | intros ? _].
    repeat keeps_step.
  - keeps_step. apply (keeps_ret None (fun _ => True) I).
Qed.

End Keeps.

Lemma keeps_lookup {A} (c : Py pystate A) (s : pystate) (l : loc) (d : DataFrame) :
  keeps (heap s) c (fun _ => True) ->
  heap s !! l = Some d ->
  heap (snd (c s)) !! l = Some d.
Proof.
  intros K E. destruct (K s) as [P _]; [reflexivity |].
  eapply prefix_lookup_Some; [exact E | exact P].
Qed.

End FrameFacts.

Module FrameClaims.
Import Wildfire WildfireSpec BuilderFacts FrameFacts ChoroplethClaims.

(** C9. Neither builder changes the table it is given: the frame the
    caller passed holds the same rows and columns after the call as
    before, for any metric and year, and also when the call raises.
    (The same holds for every other frame that existed before the
    call.) *)
Theorem builders_leave_input_unchanged (observed : bool) (s : pystate) (df : loc)
        (d : DataFrame) (metric : string) (year : option Z) :
  heap s !! df = Some d ->
  heap (snd (create_fire_choropleth observed (Some df) metric year s)) !! df = Some d
  /\ heap (snd (create_time_series_map observed (Some df) s)) !! df = Some d
  /\ heap s `prefix_of` heap (snd (create_fire_choropleth observed (Some df) metric year s))
  /\ heap s `prefix_of` heap (snd (create_time_series_map observed (Some df) s)).
Proof.
  intros E. repeat split.
  - apply keeps_lookup; [apply keeps_create_fire_choropleth | exact E].
  - apply keeps_lookup; [apply keeps_create_time_series_map | exact E].
  - apply (keeps_create_fire_choropleth (heap s) observed (Some df) metric year s). reflexivity.
  - apply (keeps_create_time_series_map (heap s) observed (Some df) s). reflexivity.
Qed.

Lemma builders_leave_input_unchanged_witness :
  let d := mkDF float64 sample_rows [] in
  heap (snd (create_fire_choropleth true (Some 0%nat) "total_acres" (Some 2003%Z) sample_heap))
    !! 0%nat = Some d
  /\ heap (snd (create_time_series_map true (Some 0%nat) sample_heap)) !! 0%nat = Some d
  /\ heap sample_heap
       `prefix_of` heap (snd (create_fire_choropleth true (Some 0%nat) "total_acres"
                                (Some 2003%Z) sample_heap))
  /\ heap sample_heap `prefix_of` heap (snd (create_time_series_map true (Some 0%nat) sample_heap)).
Proof.
  intros d.
  apply (builders_leave_input_unchanged true sample_heap 0%nat d "total_acres" (Some 2003%Z)).
  reflexivity.
Defined.

(** The copy is what gets the bin columns. *)
Example copy_gets_bin_columns :
  List.map (fun d => List.map fst (extra d))
           (heap (snd (create_time_series_map true (Some 0%nat) sample_heap)))
  = [[]; ["lat_bin"; "lon_bin"; "lat_center"; "lon_center"]].
Proof. vm_compute. reflexivity. Qed.

End FrameClaims.

(** ** The exploratory summary on a table without rows *)

Module ExploreClaims.
Import Wildfire WildfireSpec LoaderFacts.

Lemma run_print {A} (l : line) (k : unit -> Py pystate A) (s : pystate) :
  bind (print l) k s
  = k tt (mkState (files s) (conns s) (calls s) (heap s) (stdout s ++ [l])%list).
Proof. reflexivity. Qed.

Lemma run_ret {S A B} (a : A) (k : A -> Py S B) (s : S) : bind (ret a) k s = k a s.
Proof. reflexivity. Qed.

Lemma run_lift_ok {S A B} (a : A) (k : A -> Py S B) (s : S) : bind (lift (Ok a)) k s = k a s.
Proof. reflexivity. Qed.

(** A loop whose body does nothing on the elements of the list. *)
Lemma for_silent {S A} (l : list A) (body : A -> Py S unit) :
  (forall x, In x l -> forall s, body x s = (Ok tt, s)) ->
  forall s, for_ l body s = (Ok tt, s).
Proof.
  induction l as [| x l IH]; intros Hb s; simpl; [reflexivity |].
  unfold bind. rewrite (Hb x (or_introl eq_refl)).
  apply IH. intros y Hy. apply Hb. right. exact Hy.
Qed.

Ltac py_steps :=
  repeat (first [rewrite run_print | rewrite run_ret | rewrite run_lift_ok
                | progress simpl for_ at 1];
          cbn [files conns calls heap stdout]).

Lemma explore_empty (s : pystate) (l : loc) (d : DataFrame) :
  heap s !! l = Some d ->
  records d = [] -> size_dtype d = float64 -> no_cells d ->
  explore_ca_data (Some l) s
  = (Ok tt, mkState (files s) (conns s) (calls s) (heap s) (stdout s ++ empty_summary d)%list).
Proof.
  intros E R T C.
  unfold explore_ca_data, isnull_sum, nlargest.
  unfold bind at 1. unfold read_frame. rewrite E, R, T.
  change (sort_index (value_counts Z.eqb (List.map FIRE_YEAR []))) with (@nil (Z * nat)).
  change (value_counts String.eqb (List.map FIRE_SIZE_CLASS [])) with (@nil (string * nat)).
  change (value_counts String.eqb (List.map STAT_CAUSE_DESCR [])) with (@nil (string * nat)).
  change (sort_by (fun a b : fire => Qle_bool (FIRE_SIZE b) (FIRE_SIZE a)) []) with (@nil fire).
  change (count_none (List.map FIRE_NAME [])) with 0%nat.
  change (count_none (List.map LATITUDE [])) with 0%nat.
  change (count_none (List.map LONGITUDE [])) with 0%nat.
  py_steps.
  unfold bind at 1. py_steps.
  rewrite for_silent.
  - py_steps. unfold print, modify. cbn [files conns calls heap stdout].
    unfold empty_summary. rewrite <- !List.app_assoc. reflexivity.
  - intros [name k] Hin. apply in_map_iff in Hin. destruct Hin as ([name' c] & Heq & Hc).
    injection Heq as -> <-.
    unfold no_cells in C. rewrite List.Forall_forall in C.
    pose proof (C _ Hc) as Hk. simpl in Hk. rewrite Hk. reflexivity.
Qed.

(** C8, as amended.  For a table without rows whose [FIRE_SIZE] column
    has a numeric dtype (for instance the rows of a year without fires,
    selected from a loaded table), the summary completes without raising
    and reports a total count of zero, empty per-year and per-class
    listings, and empty top-10 cause and top-5 largest-fire lists. *)
Theorem explore_zero_rows (s : pystate) (l : loc) (d : DataFrame) :
  heap s !! l = Some d ->
  records d = [] -> size_dtype d = float64 -> no_cells d ->
  explore_ca_data (Some l) s
  = (Ok tt, mkState (files s) (conns s) (calls s) (heap s) (stdout s ++ empty_summary d)%list).
Proof. apply explore_empty. Qed.

Lemma explore_zero_rows_witness :
  let s := mkState (fun _ => Unopenable) [] [] [mkDF float64 [] []] [] in
  explore_ca_data (Some 0%nat) s
  = (Ok tt, mkState (files s) (conns s) (calls s) (heap s)
                    (stdout s ++ empty_summary (mkDF float64 [] []))%list).
Proof.
  intros s. apply (explore_zero_rows s 0%nat (mkDF float64 [] [])).
  - reflexivity.
  - reflexivity.
  - reflexivity.
  - constructor.
Defined.

(** C8 as stated fails end to end: a database whose [Fires] table has no
    Californian fire of 2000-2015 loads into a table without rows, all of
    whose columns have dtype [object]; the summary of that table prints
    the headings up to the largest fires and then raises in
    [nlargest]. *)
Lemma explore_zero_rows_counterexample :
  let fires := [mkDbRow (mkFire None "OR" 2004 (Some (44 # 1)) (Some (- (121 # 1))) (15 # 1)
                                "C" 1 "Lightning") []] in
  let s0 := mkState (fun _ => Opens (Some fires)) [] [] [] [] in
  let loaded := load_california_wildfires default_db_path s0 in
  fst loaded = Ok (Some 0%nat)
  /\ heap (snd loaded) = [mkDF object [] []]
  /\ fst (explore_ca_data (Some 0%nat) (snd loaded))
     = Raise (TypeError "Column 'FIRE_SIZE' has dtype object, cannot use method 'nlargest' with this dtype").
Proof. vm_compute. repeat split. Qed.

End ExploreClaims.

(** ** More about the generated table and the frames of the animation *)

Module GeneratorExtras.
Import Synthetic SyntheticSpec SyntheticFacts ColumnFacts Renderer.

Lemma NoDup_states : NoDup states.
Proof. apply (bool_decide_unpack _). vm_compute. reflexivity. Qed.

Lemma NoDup_years : NoDup years.
Proof. apply (bool_decide_unpack _). vm_compute. reflexivity. Qed.

Lemma NoDup_list_prod {A B} (l : list A) (l' : list B) :
  NoDup l -> NoDup l' -> NoDup (list_prod l l').
Proof.
  intros Hl Hl'. induction Hl as [| a l Ha Hl IH]; simpl; [constructor |].
  apply NoDup_app. split; [| split].
  - apply NoDup_fmap_2; [| exact Hl']. intros x y E. congruence.
  - intros [a' b] H1 H2. apply list_elem_of_In in H1, H2.
    apply in_map_iff in H1. destruct H1 as (b' & E & _). injection E as <- <-.
    apply in_prod_iff in H2. destruct H2 as [H2 _].
    apply Ha. apply list_elem_of_In. exact H2.
  - exact IH.
Qed.

Lemma add_intensities_raw (df : list row) : List.map raw (add_intensities df) = df.
Proof. unfold add_intensities. rewrite List.map_map. simpl. apply List.map_id. Qed.

(** X1. Whatever the generator draws, the table has 51 * 26 = 1326 rows,
    no two rows share a (year, state) pair, and every pair of a year of
    [years] and a state of [states] has its row. *)
Theorem generated_table_shape {G : Type} `{RandomState G} (g0 : G) :
  exists t : list row,
    run g0 = Ok t
    /\ length t = 1326%nat
    /\ NoDup (List.map (fun r => (year r, state r)) t)
    /\ forall y st, In y years -> In st states ->
                    exists r, In r t /\ year r = y /\ state r = st.
Proof.
  destruct (run_returns g0) as (t & E & _ & K). unfold key in K.
  exists t. split; [exact E |]. split; [| split].
  - rewrite <- (List.length_map (fun r => (year r, state r))), K, length_prod. reflexivity.
  - rewrite K. apply NoDup_list_prod; [apply NoDup_years | apply NoDup_states].
  - intros y st Hy Hst.
    assert (Hin : In (y, st) (List.map (fun r => (year r, state r)) t)).
    { rewrite K. apply in_prod; assumption. }
    apply in_map_iff in Hin. destruct Hin as (r & Er & Hr). injection Er as <- <-.
    exists r. auto.
Qed.

(** *** The rows of one year *)

Section YearRows.
Context {A : Type} (k : A -> Z * string).

Lemma filter_other_years (l : list A) (ys : list Z) (sts : list string) (y : Z) :
  List.map k l = list_prod ys sts -> ~ In y ys ->
  List.filter (fun a => (fst (k a) =? y)%Z) l = [].
Proof.
  intros E Hy. induction l as [| a l IH] in E |- *; [reflexivity |].
  assert (Hin : forall x, In x (a :: l) -> In (fst (k x)) ys).
  { intros x Hx. apply (in_map k) in Hx. rewrite E in Hx.
    destruct (k x) as [y' st']. apply in_prod_iff in Hx. tauto. }
  clear E IH. induction l as [| b l IH] in a, Hin |- *; simpl.
  - destruct (Z.eqb_spec (fst (k a)) y) as [Ey | _]; [| reflexivity].
    exfalso. apply Hy. rewrite <- Ey. apply Hin. left. reflexivity.
  - destruct (Z.eqb_spec (fst (k a)) y) as [Ey | _].
    + exfalso. apply Hy. rewrite <- Ey. apply Hin. left. reflexivity.
    + apply (IH b). intros x Hx. apply Hin. right. exact Hx.
Qed.

Lemma filter_same_year (l : list A) (sts : list string) (y0 y : Z) :
  List.map k l = List.map (pair y0) sts ->
  List.filter (fun a => (fst (k a) =? y)%Z) l = if (y0 =? y)%Z then l else [].
Proof.
  revert sts. induction l as [| a l IH]; intros [| st sts] E; simpl in *; try discriminate.
  - destruct (y0 =? y)%Z; reflexivity.
  - injection E as Ea El. rewrite Ea. simpl. rewrite (IH sts El).
    destruct (y0 =? y)%Z; reflexivity.
Qed.

Lemma filter_year_keys (l : list A) (ys : list Z) (sts : list string) (y : Z) :
  List.map k l = list_prod ys sts -> NoDup ys -> In y ys ->
  List.map k (List.filter (fun a => (fst (k a) =? y)%Z) l) = List.map (pair y) sts.
Proof.
  revert l. induction ys as [| y0 ys IH]; intros l E Hnd Hy; [destruct Hy |].
  simpl in E. apply map_eq_app in E. destruct E as (l1 & l2 & -> & E1 & E2).
  rewrite List.filter_app, List.map_app, (filter_same_year l1 sts y0 y E1).
  apply NoDup_cons_1_1 in Hnd as Hnotin. apply NoDup_cons_1_2 in Hnd as Hnd'.
  destruct (Z.eqb_spec y0 y) as [-> | Hne].
  - rewrite (filter_other_years l2 ys sts y E2), List.app_nil_r by
      (intros Hin; apply Hnotin; apply list_elem_of_In; exact Hin).
    exact E1.
  - simpl. apply IH; [exact E2 | exact Hnd' |]. destruct Hy as [Hy | Hy]; [congruence | exact Hy].
Qed.

End YearRows.

(** After [reindex(states)] the frame table of a year of the table has
    the states in order, each with its own row of that year. *)
Lemma dyear_complete (df : list irow) (y : Z) :
  List.map (fun r => key (raw r)) df = list_prod years states -> In y years ->
  exists rows,
    dyear y df = Ok rows
    /\ List.map fst rows = states
    /\ Forall (fun e => exists r, snd e = Some r /\ In r df
                                  /\ state (raw r) = fst e /\ year (raw r) = y) rows.
Proof.
  intros K Hy.
  pose proof (filter_year_keys (fun r => key (raw r)) df years states y K NoDup_years Hy) as F.
  assert (S : List.map (fun r => state (raw r)) (frame_rows y df) = states).
  { transitivity (List.map snd (List.map (fun r => key (raw r)) (frame_rows y df))).
    - rewrite List.map_map. reflexivity.
    - change (frame_rows y df)
        with (List.filter (fun a => (fst (key (raw a)) =? y)%Z) df).
      rewrite F, List.map_map. reflexivity. }
  unfold dyear. rewrite S, (bool_decide_eq_true_2 _ NoDup_states).
  eexists. split; [reflexivity |]. split.
  - rewrite List.map_map. reflexivity.
  - apply List.Forall_forall. intros e He. apply in_map_iff in He.
    destruct He as (st & <- & Hst). simpl.
    destruct (List.find (fun r => String.eqb (state (raw r)) st) (frame_rows y df)) as [r |] eqn:Ef.
    + apply find_some in Ef. destruct Ef as [Hr Es]. apply String.eqb_eq in Es.
      unfold frame_rows in Hr. apply filter_In in Hr. destruct Hr as [Hr Ey].
      apply Z.eqb_eq in Ey. exists r. auto.
    + exfalso. rewrite <- S in Hst. apply in_map_iff in Hst. destruct Hst as (r & Er & Hr).
      pose proof (find_none _ _ Ef r Hr) as Hf. simpl in Hf.
      rewrite Er, String.eqb_refl in Hf. discriminate.
Qed.

Lemma build_frames_complete (df : list irow) (ys : list Z) :
  List.map (fun r => key (raw r)) df = list_prod years states ->
  (forall y, In y ys -> In y years) ->
  exists frames,
    build_frames df ys = Ok frames
    /\ List.map frame_name frames = List.map pretty ys
    /\ Forall (fun f =>
                 locations f = states
                 /\ marker_locations (scatter_wild f) = states
                 /\ marker_locations (scatter_precip f) = states
                 /\ length (z f) = 51%nat
                 /\ zmin f = zmin_precip df /\ zmax f = zmax_precip df
                 /\ cmin (scatter_wild f) = cmin_wild df
                 /\ cmax (scatter_wild f) = cmax_wild df) frames.
Proof.
  intros K. induction ys as [| y ys IH]; intros Hys; simpl.
  - exists []. repeat split. constructor.
  - destruct (dyear_complete df y K (Hys y (or_introl eq_refl))) as (rows & D & S & _).
    destruct IH as (fs & B & N & F); [intros y' Hy'; apply Hys; right; exact Hy' |].
    unfold frame_of. rewrite D, B. eexists. split; [reflexivity |]. simpl.
    split; [rewrite N; reflexivity |].
    constructor; [| exact F]. simpl. rewrite S. repeat split.
    unfold column_of. rewrite List.length_map, <- (List.length_map fst), S. reflexivity.
Qed.

(** X2. Whatever the generator draws, the frames are built without an
    error: there is one frame per year, named as the slider steps are, and
    every frame lists the 51 states in the order of [states] with the
    bounds of the whole table; no state of any year is left without its
    row by [reindex]. *)
Theorem frames_complete {G : Type} `{RandomState G} (g0 : G) :
  exists (t : list row) (frames : list Frame),
    run g0 = Ok t
    /\ build_frames (add_intensities t) years = Ok frames
    /\ List.map frame_name frames = slider_steps
    /\ Forall (fun f =>
                 locations f = states
                 /\ marker_locations (scatter_wild f) = states
                 /\ marker_locations (scatter_precip f) = states
                 /\ length (z f) = 51%nat
                 /\ zmin f = zmin_precip (add_intensities t)
                 /\ zmax f = zmax_precip (add_intensities t)
                 /\ cmin (scatter_wild f) = cmin_wild (add_intensities t)
                 /\ cmax (scatter_wild f) = cmax_wild (add_intensities t)) frames
    /\ forall y, In y years ->
         exists rows,
           dyear y (add_intensities t) = Ok rows
           /\ List.map fst rows = states
           /\ Forall (fun e => exists r, snd e = Some r /\ In r (add_intensities t)
                                         /\ state (raw r) = fst e /\ year (raw r) = y) rows.
Proof.
  destruct (run_returns g0) as (t & E & _ & K).
  assert (K' : List.map (fun r => key (raw r)) (add_intensities t) = list_prod years states).
  { rewrite <- K. rewrite <- (add_intensities_raw t) at 2. rewrite List.map_map. reflexivity. }
  destruct (build_frames_complete (add_intensities t) years K' (fun y Hy => Hy))
    as (frames & B & N & F).
  exists t, frames. repeat (split; [assumption |]).
  intros y Hy. apply dyear_complete; assumption.
Qed.

End GeneratorExtras.

(** ** Colour bounds, marker sizes and the degenerate table *)

Module RendererExtras.
Import Synthetic SyntheticSpec SyntheticFacts ColumnFacts Renderer IntensityClaims.

Lemma present_somes {A B} (f : A -> B) (l : list A) :
  Wildfire.present (List.map (fun a => Some (f a)) l) = List.map f l.
Proof. induction l as [| a l IH]; simpl; [reflexivity | rewrite IH; reflexivity]. Qed.

Lemma col_min_zero (xs : list Q) :
  (forall x, In x xs -> 0 <= x) -> (exists x, In x xs /\ x == 0) ->
  exists m, col_min xs = Some m /\ m == 0.
Proof.
  intros Hge (x & Hx & E).
  destruct (col_min_is_Some xs) as (m & Em); [intros ->; destruct Hx |].
  exists m. split; [exact Em |].
  pose proof (col_min_le xs m Em x Hx). pose proof (Hge m (col_min_In xs m Em)). lra.
Qed.

Lemma col_max_one (xs : list Q) :
  (forall x, In x xs -> x <= 1) -> (exists x, In x xs /\ x == 1) ->
  exists m, col_max xs = Some m /\ m == 1.
Proof.
  intros Hle (x & Hx & E).
  destruct (col_max_is_Some xs) as (m & Em); [intros ->; destruct Hx |].
  exists m. split; [exact Em |].
  pose proof (col_max_ge xs m Em x Hx). pose proof (Hle m (col_max_In xs m Em)). lra.
Qed.

(** The bounds of a column of intensities that are all finite. *)
Lemma series_bounds (T : list irow) (f : irow -> option Q) :
  (forall r, In r T -> exists v, f r = Some v /\ 0 <= v <= 1) ->
  (exists r v, In r T /\ f r = Some v /\ v == 0) ->
  (exists r v, In r T /\ f r = Some v /\ v == 1) ->
  exists a b, series_min (List.map f T) = Some a /\ a == 0
              /\ series_max (List.map f T) = Some b /\ b == 1.
Proof.
  intros Hall (r0 & v0 & Hr0 & E0 & Z0) (r1 & v1 & Hr1 & E1 & Z1).
  assert (Hin : forall x, In x (Wildfire.present (List.map f T)) -> 0 <= x <= 1).
  { intros x Hx. apply BinningFacts.present_In in Hx. apply in_map_iff in Hx.
    destruct Hx as (r & Er & Hr). destruct (Hall r Hr) as (v & Ev & Hv).
    rewrite Ev in Er. injection Er as <-. exact Hv. }
  destruct (col_min_zero (Wildfire.present (List.map f T))) as (a & Ea & Za).
  { intros x Hx. apply Hin. exact Hx. }
  { exists v0. split; [| exact Z0]. apply BinningFacts.present_In. rewrite <- E0.
    apply in_map. exact Hr0. }
  destruct (col_max_one (Wildfire.present (List.map f T))) as (b & Eb & Zb).
  { intros x Hx. apply Hin. exact Hx. }
  { exists v1. split; [| exact Z1]. apply BinningFacts.present_In. rewrite <- E1.
    apply in_map. exact Hr1. }
  exists a, b. auto.
Qed.

Lemma frame_entries (T : list irow) (y : Z) (rows : list (string * option irow)) :
  dyear y T = Ok rows ->
  forall e r, In e rows -> snd e = Some r -> In r T.
Proof.
  unfold dyear. generalize states. intros sts.
  destruct (bool_decide _); [| discriminate].
  intros E e r He Hr. injection E as <-. apply in_map_iff in He.
  destruct He as (st & <- & _). simpl in Hr. apply find_some in Hr.
  destruct Hr as [Hr _]. unfold frame_rows in Hr. apply filter_In in Hr. tauto.
Qed.

(** X3. For a table whose two metric columns are not constant, the
    colour bounds taken from the whole table are 0 and 1 for both
    metrics, and in every frame the choropleth values lie in [0, 1], the
    wildfire markers have sizes in [4, 24] and the precipitation markers
    sizes in [4, 19] (a state without a row would give nan). *)
Theorem colour_bounds_and_marker_sizes (df : list row) :
  spread (List.map precip_mm df) ->
  spread (List.map wildfire_index df) ->
  (exists a b c d,
      zmin_precip (add_intensities df) = Some a /\ a == 0
      /\ zmax_precip (add_intensities df) = Some b /\ b == 1
      /\ cmin_wild (add_intensities df) = Some c /\ c == 0
      /\ cmax_wild (add_intensities df) = Some d /\ d == 1)
  /\ forall y f,
       frame_of (add_intensities df) y = Ok f ->
       Forall (within 0 1) (z f)
       /\ Forall (within 4 24) (size (scatter_wild f))
       /\ Forall (within 4 19) (size (scatter_precip f)).
Proof.
  intros Sp Sw.
  destruct (add_intensities_scaled df Sp Sw)
    as (pl & ph & wl & wh & _ & _ & _ & _ & _ & Hall & (r1 & I1 & M1) & (r2 & I2 & M2)
        & (r3 & I3 & M3) & (r4 & I4 & M4)).
  rewrite List.Forall_forall in Hall.
  assert (HP : forall r, In r (add_intensities df) ->
                 exists v, precip_intensity r = Some v /\ 0 <= v <= 1).
  { intros r Hr. destruct (Hall r Hr) as (p & w & Ep & Ew & _ & _ & Bp & Bw & _).
    exists p. tauto. }
  assert (HW : forall r, In r (add_intensities df) ->
                 exists v, wildfire_intensity r = Some v /\ 0 <= v <= 1).
  { intros r Hr. destruct (Hall r Hr) as (p & w & Ep & Ew & _ & _ & Bp & Bw & _).
    exists w. tauto. }
  split.
  - destruct (series_bounds (add_intensities df) precip_intensity HP) as (a & b & Ea & Za & Eb & Zb).
    { destruct (Hall r1 I1) as (p & w & Ep & _ & _ & _ & _ & _ & L & _).
      exists r1, p. split; [exact I1 |]. split; [exact Ep |]. apply L. rewrite M1. reflexivity. }
    { destruct (Hall r2 I2) as (p & w & Ep & _ & _ & _ & _ & _ & _ & U & _).
      exists r2, p. split; [exact I2 |]. split; [exact Ep |]. apply U. rewrite M2. reflexivity. }
    destruct (series_bounds (add_intensities df) wildfire_intensity HW) as (c & d & Ec & Zc & Ed & Zd).
    { destruct (Hall r3 I3) as (p & w & _ & Ew & _ & _ & _ & _ & _ & _ & L & _).
      exists r3, w. split; [exact I3 |]. split; [exact Ew |]. apply L. rewrite M3. reflexivity. }
    { destruct (Hall r4 I4) as (p & w & _ & Ew & _ & _ & _ & _ & _ & _ & _ & U).
      exists r4, w. split; [exact I4 |]. split; [exact Ew |]. apply U. rewrite M4. reflexivity. }
    exists a, b, c, d. unfold zmin_precip, zmax_precip, cmin_wild, cmax_wild. tauto.
  - intros y f Ef. unfold frame_of in Ef.
    destruct (dyear y (add_intensities df)) as [rows | e] eqn:D; [| discriminate].
    injection Ef as <-. simpl.
    pose proof (frame_entries _ _ _ D) as Hent.
    repeat split; apply List.Forall_forall; intros c Hc.
    + unfold column_of in Hc. apply in_map_iff in Hc. destruct Hc as (e & <- & He).
      destruct (snd e) as [r |] eqn:Er; [| exact I].
      destruct (HP r (Hent e r He Er)) as (v & -> & Hv). exact Hv.
    + unfold marker_size, column_of in Hc. rewrite List.map_map in Hc.
      apply in_map_iff in Hc. destruct Hc as (e & <- & He).
      destruct (snd e) as [r |] eqn:Er; [| exact I].
      destruct (HW r (Hent e r He Er)) as (v & -> & Hv). simpl. lra.
    + unfold marker_size, column_of in Hc. rewrite List.map_map in Hc.
      apply in_map_iff in Hc. destruct Hc as (e & <- & He).
      destruct (snd e) as [r |] eqn:Er; [| exact I].
      destruct (HP r (Hent e r He Er)) as (v & -> & Hv). simpl. lra.
Qed.

Lemma colour_bounds_and_marker_sizes_witness :
  (exists a b c d,
      zmin_precip (add_intensities two_rows) = Some a /\ a == 0
      /\ zmax_precip (add_intensities two_rows) = Some b /\ b == 1
      /\ cmin_wild (add_intensities two_rows) = Some c /\ c == 0
      /\ cmax_wild (add_intensities two_rows) = Some d /\ d == 1)
  /\ forall y f,
       frame_of (add_intensities two_rows) y = Ok f ->
       Forall (within 0 1) (z f)
       /\ Forall (within 4 24) (size (scatter_wild f))
       /\ Forall (within 4 19) (size (scatter_precip f)).
Proof.
  apply (colour_bounds_and_marker_sizes two_rows); vm_compute; reflexivity.
Defined.

(** X4. The scaling keeps the order of the raw values: of two rows of
    the table, the one with the smaller precipitation (wildfire index)
    has the smaller or equal precipitation (wildfire) intensity, in
    whatever years the two rows are. *)
Theorem intensity_monotone (df : list row) (r1 r2 : irow) :
  spread (List.map precip_mm df) ->
  spread (List.map wildfire_index df) ->
  In r1 (add_intensities df) -> In r2 (add_intensities df) ->
  exists p1 p2 w1 w2,
    precip_intensity r1 = Some p1 /\ precip_intensity r2 = Some p2
    /\ wildfire_intensity r1 = Some w1 /\ wildfire_intensity r2 = Some w2
    /\ (precip_mm (raw r1) <= precip_mm (raw r2) -> p1 <= p2)
    /\ (wildfire_index (raw r1) <= wildfire_index (raw r2) -> w1 <= w2).
Proof.
  intros Sp Sw H1 H2.
  destruct (add_intensities_scaled df Sp Sw)
    as (pl & ph & wl & wh & Epl & Eph & Ewl & Ewh & _ & Hall & _).
  rewrite List.Forall_forall in Hall.
  destruct (Hall r1 H1) as (p1 & w1 & Ep1 & Ew1 & Rp1 & Rw1 & _).
  destruct (Hall r2 H2) as (p2 & w2 & Ep2 & Ew2 & Rp2 & Rw2 & _).
  assert (Dp : 0 < ph - pl).
  { unfold spread in Sp. rewrite Epl, Eph in Sp. lra. }
  assert (Dw : 0 < wh - wl).
  { unfold spread in Sw. rewrite Ewl, Ewh in Sw. lra. }
  exists p1, p2, w1, w2. repeat (split; [assumption |]). split.
  - intros L. rewrite Rp1, Rp2. unfold Qdiv. apply Qmult_le_compat_r; [lra |].
    apply Qlt_le_weak, Qinv_lt_0_compat. exact Dp.
  - intros L. rewrite Rw1, Rw2. unfold Qdiv. apply Qmult_le_compat_r; [lra |].
    apply Qlt_le_weak, Qinv_lt_0_compat. exact Dw.
Qed.

Lemma intensity_monotone_witness :
  exists p1 p2 w1 w2,
    precip_intensity (mkIRow (mkRow "CA" 2000 (600 # 1) (40 # 1)) (Some (0 / 200)) (Some (30 / 30)))
    = Some p1
    /\ precip_intensity (mkIRow (mkRow "TX" 2000 (800 # 1) (10 # 1)) (Some (200 / 200)) (Some (0 / 30)))
       = Some p2
    /\ wildfire_intensity (mkIRow (mkRow "CA" 2000 (600 # 1) (40 # 1)) (Some (0 / 200)) (Some (30 / 30)))
       = Some w1
    /\ wildfire_intensity (mkIRow (mkRow "TX" 2000 (800 # 1) (10 # 1)) (Some (200 / 200)) (Some (0 / 30)))
       = Some w2
    /\ (600 # 1 <= 800 # 1 -> p1 <= p2)
    /\ (40 # 1 <= 10 # 1 -> w1 <= w2).
Proof.
  apply (intensity_monotone two_rows
           (mkIRow (mkRow "CA" 2000 (600 # 1) (40 # 1)) (Some (0 / 200)) (Some (30 / 30)))
           (mkIRow (mkRow "TX" 2000 (800 # 1) (10 # 1)) (Some (200 / 200)) (Some (0 / 30)))).
  - vm_compute. reflexivity.
  - vm_compute. reflexivity.
  - left. reflexivity.
  - right. left. reflexivity.
Defined.

(** X5. On a table whose precipitation column has one value only (a
    single row, for instance) the scaling divides zero by zero: every
    precipitation intensity is nan and so are the two bounds taken from
    them.  The same holds for the wildfire column. *)
Theorem constant_column_gives_nan (df : list row) :
  (constant (List.map precip_mm df) ->
   Forall (fun r => precip_intensity r = None) (add_intensities df)
   /\ zmin_precip (add_intensities df) = None /\ zmax_precip (add_intensities df) = None)
  /\ (constant (List.map wildfire_index df) ->
      Forall (fun r => wildfire_intensity r = None) (add_intensities df)
      /\ cmin_wild (add_intensities df) = None /\ cmax_wild (add_intensities df) = None).
Proof.
  assert (G : forall (f : irow -> option Q),
             Forall (fun r => f r = None) (add_intensities df) ->
             series_min (List.map f (add_intensities df)) = None
             /\ series_max (List.map f (add_intensities df)) = None).
  { intros f Hall. unfold series_min, series_max.
    assert (E : Wildfire.present (List.map f (add_intensities df)) = []).
    { induction Hall as [| r l Hr _ IH]; simpl; [reflexivity | rewrite Hr; exact IH]. }
    rewrite E. split; reflexivity. }
  split; intros C; unfold constant in C.
  - destruct (col_min (List.map precip_mm df)) as [lo |] eqn:El; [| destruct C].
    destruct (col_max (List.map precip_mm df)) as [hi |] eqn:Eh; [| destruct C].
    assert (Hall : Forall (fun r => precip_intensity r = None) (add_intensities df)).
    { unfold add_intensities. rewrite El, Eh. apply List.Forall_forall. intros r Hr.
      apply in_map_iff in Hr. destruct Hr as (x & <- & _). simpl.
      apply np_div_zero. lra. }
    split; [exact Hall | apply (G precip_intensity Hall)].
  - destruct (col_min (List.map wildfire_index df)) as [lo |] eqn:El; [| destruct C].
    destruct (col_max (List.map wildfire_index df)) as [hi |] eqn:Eh; [| destruct C].
    assert (Hall : Forall (fun r => wildfire_intensity r = None) (add_intensities df)).
    { unfold add_intensities. rewrite El, Eh. apply List.Forall_forall. intros r Hr.
      apply in_map_iff in Hr. destruct Hr as (x & <- & _). simpl.
      apply np_div_zero. lra. }
    split; [exact Hall | apply (G wildfire_intensity Hall)].
Qed.

Lemma constant_column_gives_nan_witness :
  Forall (fun r => precip_intensity r = None)
         (add_intensities [mkRow "CA" 2000 (600 # 1) (40 # 1)])
  /\ zmin_precip (add_intensities [mkRow "CA" 2000 (600 # 1) (40 # 1)]) = None
  /\ zmax_precip (add_intensities [mkRow "CA" 2000 (600 # 1) (40 # 1)]) = None.
Proof.
  apply (proj1 (constant_column_gives_nan [mkRow "CA" 2000 (600 # 1) (40 # 1)])).
  vm_compute. reflexivity.
Defined.

End RendererExtras.

(** ** Counting and ranking *)

Module CountingFacts.
Import Wildfire WildfireSpec WildfireTools.

(** *** Sorting by a boolean comparison *)

Section SortBy.
Context {A : Type} (leb : A -> A -> bool).
Hypothesis leb_total : forall a b, leb a b = true \/ leb b a = true.
Hypothesis leb_trans : forall a b c, leb a b = true -> leb b c = true -> leb a c = true.

Lemma sort_by_perm (l : list A) : Permutation (sort_by leb l) l.
Proof. unfold sort_by. apply merge_sort_Permutation. Qed.

Lemma sort_by_sorted (l : list A) :
  StronglySorted (fun a b => leb a b = true) (sort_by leb l).
Proof.
  unfold sort_by. apply StronglySorted_merge_sort.
  - intros a b c. apply leb_trans.
  - intros a b. apply leb_total.
Qed.

End SortBy.

Lemma list_sum_perm (l l' : list nat) : Permutation l l' -> list_sum l = list_sum l'.
Proof. induction 1; simpl; lia. Qed.

Lemma StronglySorted_firstn {A} (R : A -> A -> Prop) (n : nat) (l : list A) :
  StronglySorted R l -> StronglySorted R (firstn n l).
Proof.
  intros H. rewrite <- (firstn_skipn n l) in H.
  apply StronglySorted_app in H. tauto.
Qed.

Lemma StronglySorted_map {A B} (f : A -> B) (R : B -> B -> Prop) (l : list A) :
  StronglySorted (fun a b => R (f a) (f b)) l -> StronglySorted R (List.map f l).
Proof.
  induction 1 as [| a l _ IH Hall]; simpl; constructor; [exact IH |].
  apply List.Forall_forall. intros b Hb. apply in_map_iff in Hb.
  destruct Hb as (x & <- & Hx). rewrite List.Forall_forall in Hall. apply Hall. exact Hx.
Qed.

Lemma list_sum_firstn (n : nat) (l : list nat) : (list_sum (firstn n l) <= list_sum l)%nat.
Proof.
  rewrite <- (firstn_skipn n l) at 2. rewrite list_sum_app. lia.
Qed.

Lemma In_firstn {A} (n : nat) (l : list A) (x : A) : In x (firstn n l) -> In x l.
Proof. intros H. rewrite <- (firstn_skipn n l). apply in_or_app. left. exact H. Qed.

Lemma NoDup_firstn {A} (n : nat) (l : list A) : NoDup l -> NoDup (firstn n l).
Proof.
  intros H. rewrite <- (firstn_skipn n l) in H. apply NoDup_app in H. tauto.
Qed.

(** *** value_counts *)

Section ValueCounts.
Context {A : Type} (eqb : A -> A -> bool).
Hypothesis eqb_spec : forall x y, eqb x y = true <-> x = y.

Lemma existsb_keys (x : A) (ks : list A) : existsb (eqb x) ks = true <-> In x ks.
Proof.
  rewrite existsb_exists. split.
  - intros (y & Hy & E). apply eqb_spec in E. congruence.
  - intros H. exists x. split; [exact H | apply eqb_spec; reflexivity].
Qed.

Lemma count_value_keys (x : A) (cs : list (A * nat)) :
  List.map fst (count_value eqb x cs)
  = if existsb (eqb x) (List.map fst cs) then List.map fst cs
    else (List.map fst cs ++ [x])%list.
Proof.
  induction cs as [| [y n] cs IH]; simpl; [reflexivity |].
  destruct (eqb x y); simpl; [reflexivity |].
  rewrite IH. destruct (existsb (eqb x) (List.map fst cs)); reflexivity.
Qed.

Lemma count_value_sum (x : A) (cs : list (A * nat)) :
  list_sum (List.map snd (count_value eqb x cs)) = S (list_sum (List.map snd cs)).
Proof.
  induction cs as [| [y n] cs IH]; simpl; [reflexivity |].
  destruct (eqb x y); simpl; [reflexivity | rewrite IH; lia].
Qed.

Lemma count_value_lookup (x y : A) (cs : list (A * nat)) :
  lookup_count eqb y (count_value eqb x cs)
  = ((if eqb y x then 1 else 0) + lookup_count eqb y cs)%nat.
Proof.
  unfold lookup_count. induction cs as [| [z n] cs IH]; simpl.
  - destruct (eqb y x); reflexivity.
  - destruct (eqb x z) eqn:Exz; simpl.
    + apply eqb_spec in Exz. subst z. destruct (eqb y x); simpl; lia.
    + destruct (eqb y z) eqn:Eyz; simpl; [| exact IH].
      apply eqb_spec in Eyz. subst z.
      destruct (eqb y x) eqn:Eyx; [| reflexivity].
      apply eqb_spec in Eyx. subst y.
      assert (eqb x x = true) by (apply eqb_spec; reflexivity). congruence.
Qed.

Lemma lookup_count_In (y : A) (c : nat) (cs : list (A * nat)) :
  NoDup (List.map fst cs) -> In (y, c) cs -> lookup_count eqb y cs = c.
Proof.
  unfold lookup_count. induction cs as [| [z n] cs IH]; intros Hnd Hin; [destruct Hin |].
  simpl in *. apply NoDup_cons in Hnd. destruct Hnd as [Hz Hnd].
  destruct Hin as [E | Hin].
  - injection E as -> ->. assert (E : eqb y y = true) by (apply eqb_spec; reflexivity).
    rewrite E. reflexivity.
  - destruct (eqb y z) eqn:Eyz; [| apply IH; assumption].
    apply eqb_spec in Eyz. subst z. exfalso. apply Hz. apply list_elem_of_In.
    apply (in_map fst) in Hin. exact Hin.
Qed.

(** The tally after the whole column has been counted. *)
Lemma tally_spec (l : list A) (acc : list (A * nat)) :
  NoDup (List.map fst acc) ->
  let cs := fold_left (fun cs x => count_value eqb x cs) l acc in
  NoDup (List.map fst cs)
  /\ list_sum (List.map snd cs) = (list_sum (List.map snd acc) + length l)%nat
  /\ (forall y, In y (List.map fst cs) <-> In y (List.map fst acc) \/ In y l)
  /\ (forall y, lookup_count eqb y cs = (frequency eqb y l + lookup_count eqb y acc)%nat).
Proof.
  revert acc. induction l as [| x l IH]; intros acc Hnd; simpl.
  - split; [exact Hnd |]. split; [lia |]. split; [intros y; tauto |].
    intros y. reflexivity.
  - assert (Hnd' : NoDup (List.map fst (count_value eqb x acc))).
    { rewrite count_value_keys.
      destruct (existsb (eqb x) (List.map fst acc)) eqn:Ex; [exact Hnd |].
      apply NoDup_app. split; [exact Hnd |]. split; [| apply NoDup_singleton].
      intros y Hy Hx. apply list_elem_of_In in Hy. apply list_elem_of_In in Hx.
      destruct Hx as [<- | []].
      apply existsb_keys in Hy. congruence. }
    destruct (IH (count_value eqb x acc) Hnd') as (N & S & K & L).
    split; [exact N |]. split; [rewrite S, count_value_sum; lia |]. split.
    + intros y. rewrite K, count_value_keys.
      destruct (existsb (eqb x) (List.map fst acc)) eqn:Ex.
      * apply existsb_keys in Ex. split; [tauto |].
        intros [H | [<- | H]]; tauto.
      * rewrite in_app_iff. simpl. split; intros; intuition (subst; auto).
    + intros y. rewrite L, count_value_lookup. unfold frequency. simpl.
      destruct (eqb y x); simpl; lia.
Qed.

(** What [value_counts] lists: every value of the column once, with the
    number of times it occurs, most frequent first. *)
Lemma value_counts_spec (l : list A) :
  NoDup (List.map fst (value_counts eqb l))
  /\ list_sum (List.map snd (value_counts eqb l)) = length l
  /\ (forall y, In y (List.map fst (value_counts eqb l)) <-> In y l)
  /\ (forall y c, In (y, c) (value_counts eqb l) -> c = frequency eqb y l /\ (1 <= c)%nat)
  /\ StronglySorted (fun a b => (snd b <= snd a)%nat) (value_counts eqb l).
Proof.
  destruct (tally_spec l [] (NoDup_nil_2)) as (N & S & K & L). simpl in *.
  set (cs := fold_left (fun cs x => count_value eqb x cs) l []) in *.
  assert (P : Permutation (value_counts eqb l) cs) by apply sort_by_perm.
  assert (Pk : Permutation (List.map fst (value_counts eqb l)) (List.map fst cs))
    by (apply Permutation_map; exact P).
  split; [| split; [| split; [| split]]].
  - rewrite Pk. exact N.
  - rewrite (list_sum_perm _ _ (Permutation_map snd P)). exact S.
  - intros y. split; intros H.
    + apply (Permutation_in _ Pk), K in H. tauto.
    + apply (Permutation_in _ (Permutation_sym Pk)), K. right. exact H.
  - intros y c Hin. apply (Permutation_in _ P) in Hin.
    pose proof (lookup_count_In y c cs N Hin) as Lc. rewrite L in Lc.
    unfold lookup_count in Lc. simpl in Lc. rewrite Nat.add_0_r in Lc.
    split; [congruence |]. subst c.
    assert (Hy : In y l).
    { apply (in_map fst) in Hin. apply K in Hin. tauto. }
    unfold frequency. clear - Hy eqb_spec. induction l as [| x l IH]; [destruct Hy |].
    simpl. destruct Hy as [-> | Hy].
    + assert (E : eqb y y = true) by (apply eqb_spec; reflexivity). rewrite E. simpl. lia.
    + destruct (eqb y x); simpl; [lia | apply IH; exact Hy].
  - eapply LoaderClaims.StronglySorted_weaken; [| apply sort_by_sorted].
    + intros a b H. apply Nat.leb_le in H. exact H.
    + intros a b. destruct (Nat.le_ge_cases (snd b) (snd a)) as [H | H];
        [left | right]; apply Nat.leb_le; exact H.
    + intros a b c H1 H2. apply Nat.leb_le in H1, H2. apply Nat.leb_le. lia.
Qed.

End ValueCounts.

End CountingFacts.

(** ** ca_fires_2000-2015.py: the bar chart of causes *)

Module BarChartExtras.
Import Wildfire WildfireSpec WildfireTools CountingFacts.

Lemma combine_fst_snd {A B} (l : list (A * B)) :
  combine (List.map fst l) (List.map snd l) = l.
Proof. induction l as [| [a b] l IH]; simpl; [reflexivity | rewrite IH; reflexivity]. Qed.

Lemma series_head_firstn {A} (n : Z) (l : list A) :
  exists k, series_head n l = firstn k l /\ ((0 <= n)%Z -> k = Z.to_nat n).
Proof.
  unfold series_head. destruct (n <? 0)%Z eqn:E.
  - eexists. split; [reflexivity |]. apply Z.ltb_lt in E. lia.
  - eexists. split; [reflexivity |]. reflexivity.
Qed.

Lemma firstn_all_or_exact {A} (k : nat) (l : list A) :
  length (firstn k l) = k \/ firstn k l = l.
Proof.
  destruct (Nat.le_gt_cases k (length l)) as [H | H].
  - left. apply firstn_length_le. exact H.
  - right. apply firstn_all2. lia.
Qed.

(** What the first [k] entries of [value_counts] are. *)
Lemma top_counts (k : nat) (col : list string) :
  let top := firstn k (value_counts String.eqb col) in
  NoDup (List.map fst top)
  /\ (forall v c, In (v, c) top -> c = frequency String.eqb v col /\ (1 <= c)%nat)
  /\ StronglySorted ge (List.map snd top)
  /\ (forall v c, In v col -> ~ In v (List.map fst top) -> In c (List.map snd top) ->
        (frequency String.eqb v col <= c)%nat)
  /\ (length top = k \/ forall v, In v col -> In v (List.map fst top)).
Proof.
  intros top.
  destruct (value_counts_spec String.eqb String.eqb_eq col) as (N & _ & K & F & Srt).
  split; [| split; [| split; [| split]]].
  - unfold top. rewrite <- firstn_map. apply NoDup_firstn. exact N.
  - intros v c H. apply F. eapply In_firstn. exact H.
  - apply StronglySorted_map. apply StronglySorted_firstn. exact Srt.
  - intros v c Hv Hnot Hc.
    apply in_map_iff in Hc. destruct Hc as ([v0 c0] & E & H0). simpl in E. subst c0.
    apply K in Hv. apply in_map_iff in Hv. destruct Hv as ([v1 m] & E & H1).
    simpl in E. subst v1.
    rewrite <- (firstn_skipn k (value_counts String.eqb col)) in H1, Srt.
    fold top in H1, Srt. apply in_app_or in H1. destruct H1 as [H1 | H1].
    + exfalso. apply Hnot. apply (in_map fst) in H1. exact H1.
    + apply StronglySorted_app in Srt. destruct Srt as (Hle & _ & _).
      specialize (Hle (v0, c) (v, m)). simpl in Hle.
      assert (Hm : m = frequency String.eqb v col).
      { apply (F v m). rewrite <- (firstn_skipn k (value_counts String.eqb col)).
        apply in_or_app. right. exact H1. }
      rewrite <- Hm. apply Hle; apply list_elem_of_In; assumption.
  - destruct (firstn_all_or_exact k (value_counts String.eqb col)) as [H | H].
    + left. exact H.
    + right. intros v Hv. unfold top. rewrite H. apply K. exact Hv.
Qed.

(** X6. [create_cause_bar_chart]: without a table it prints a message and
    returns None.  On a table, with [n >= 0], it returns a chart and
    changes nothing.  Its bars are distinct causes of the table, each with
    the number of rows that have this cause (at least one), the labels are
    the counts, the bars are in non-increasing order of count, a cause that
    is left out occurs no more often than any cause shown, and either there
    are exactly [n] bars or every cause of the table has one. *)
Theorem bar_chart_top_causes (s : pystate) (l : loc) (d : DataFrame) (n : Z) :
  heap s !! l = Some d ->
  (0 <= n)%Z ->
  let causes := List.map STAT_CAUSE_DESCR (records d) in
  create_cause_bar_chart None n s
  = (Ok None, appends s [[Txt "No data available for visualization"]])
  /\ exists b,
    create_cause_bar_chart (Some l) n s = (Ok (Some b), s)
    /\ length (bar_x b) = length (bar_y b)
    /\ bar_text b = bar_y b
    /\ NoDup (bar_x b)
    /\ (forall cause count, In (cause, count) (combine (bar_x b) (bar_y b)) ->
          count = frequency String.eqb cause causes /\ (1 <= count)%nat)
    /\ StronglySorted ge (bar_y b)
    /\ (forall cause count, In cause causes -> ~ In cause (bar_x b) -> In count (bar_y b) ->
          (frequency String.eqb cause causes <= count)%nat)
    /\ (length (bar_x b) = Z.to_nat n \/ forall cause, In cause causes -> In cause (bar_x b)).
Proof.
  intros Hd Hn causes. split; [reflexivity |].
  destruct (series_head_firstn n (value_counts String.eqb causes)) as (k & Ek & Hk).
  specialize (Hk Hn). subst k.
  destruct (top_counts (Z.to_nat n) causes) as (N & F & Srt & Top & Len).
  eexists. split.
  - unfold create_cause_bar_chart, bind, read_frame, ret. rewrite Hd. reflexivity.
  - cbn [bar_x bar_y bar_text]. fold causes. rewrite Ek.
    split; [rewrite !length_map; reflexivity |].
    split; [reflexivity |].
    split; [exact N |].
    split; [intros cause count H; rewrite combine_fst_snd in H; apply F; exact H |].
    split; [exact Srt |].
    split; [exact Top |].
    rewrite length_map. exact Len.
Qed.

Lemma bar_chart_top_causes_witness :
  let s := sample_heap in
  let causes := List.map STAT_CAUSE_DESCR sample_rows in
  create_cause_bar_chart None 1 s
  = (Ok None, appends s [[Txt "No data available for visualization"]])
  /\ exists b,
    create_cause_bar_chart (Some 0%nat) 1 s = (Ok (Some b), s)
    /\ length (bar_x b) = length (bar_y b)
    /\ bar_text b = bar_y b
    /\ NoDup (bar_x b)
    /\ (forall cause count, In (cause, count) (combine (bar_x b) (bar_y b)) ->
          count = frequency String.eqb cause causes /\ (1 <= count)%nat)
    /\ StronglySorted ge (bar_y b)
    /\ (forall cause count, In cause causes -> ~ In cause (bar_x b) -> In count (bar_y b) ->
          (frequency String.eqb cause causes <= count)%nat)
    /\ (length (bar_x b) = Z.to_nat 1 \/ forall cause, In cause causes -> In cause (bar_x b)).
Proof.
  intros s causes.
  apply (bar_chart_top_causes sample_heap 0%nat (mkDF float64 sample_rows []) 1).
  - reflexivity.
  - lia.
Defined.

End BarChartExtras.

(** ** ca_fires_2000-2015.py: the exploratory summary on any table *)

Module ExploreFacts.
Import Wildfire WildfireSpec CountingFacts.

Lemma appends_appends (s : pystate) (o1 o2 : list line) :
  appends (appends s o1) o2 = appends s (o1 ++ o2).
Proof. unfold appends. cbn [files conns calls heap stdout]. rewrite List.app_assoc. reflexivity. Qed.

Lemma appends_nil (s : pystate) : appends s [] = s.
Proof. destruct s. unfold appends. cbn [files conns calls heap stdout]. rewrite List.app_nil_r. reflexivity. Qed.

Lemma heap_appends (s : pystate) (o : list line) : heap (appends s o) = heap s.
Proof. reflexivity. Qed.

Lemma step_print {A} (l : line) (k : unit -> Py pystate A) (s : pystate) :
  bind (print l) k s = k tt (appends s [l]).
Proof. reflexivity. Qed.

Lemma last_print (l : line) (s : pystate) : print l s = (Ok tt, appends s [l]).
Proof. reflexivity. Qed.

(** A loop whose body only prints. *)
Lemma for_prints {A} (g : A -> list line) (xs : list A) (body : A -> Py pystate unit) :
  (forall x s, body x s = (Ok tt, appends s (g x))) ->
  forall s, for_ xs body s = (Ok tt, appends s (flat_map g xs)).
Proof.
  intros Hb. induction xs as [| x xs IH]; intros s; simpl.
  - rewrite appends_nil. reflexivity.
  - unfold bind. rewrite Hb, IH, appends_appends. reflexivity.
Qed.

Lemma step_for {A B} (g : A -> list line) (xs : list A) (body : A -> Py pystate unit)
      (k : unit -> Py pystate B) (s : pystate) :
  (forall x s, body x s = (Ok tt, appends s (g x))) ->
  bind (for_ xs body) k s = k tt (appends s (flat_map g xs)).
Proof. intros Hb. unfold bind. rewrite (for_prints g xs body Hb). reflexivity. Qed.

Lemma flat_map_singleton {A B} (f : A -> B) (xs : list A) :
  flat_map (fun x => [f x]) xs = List.map f xs.
Proof. induction xs as [| x xs IH]; simpl; [reflexivity | rewrite IH; reflexivity]. Qed.

(** The summary, line by line: everything up to the heading of the
    largest fires is printed for any table; what follows depends on
    [nlargest]. *)
Lemma explore_runs (s : pystate) (l : loc) (d : DataFrame) :
  heap s !! l = Some d ->
  explore_ca_data (Some l) s
  = match nlargest 5 d with
    | Ok largest =>
        (Ok tt, appends s (summary_until_largest d ++ summary_from_largest d largest))
    | Raise e => (Raise e, appends s (summary_until_largest d))
    end.
Proof.
  intros E. unfold explore_ca_data.
  unfold bind at 1. unfold read_frame. rewrite E.
  repeat (rewrite step_print, ?appends_appends).
  rewrite (step_for (fun e => [year_line e])); [| intros [y c] s0; reflexivity].
  rewrite appends_appends.
  repeat (rewrite step_print, ?appends_appends).
  rewrite (step_for (fun e => [class_line e])); [| intros [y c] s0; reflexivity].
  rewrite appends_appends.
  repeat (rewrite step_print, ?appends_appends).
  rewrite (step_for (fun e => [cause_line e])); [| intros [y c] s0; reflexivity].
  rewrite appends_appends.
  repeat (rewrite step_print, ?appends_appends).
  rewrite !flat_map_singleton.
  destruct (nlargest 5 d) as [largest | e].
  - change (bind (lift (Ok largest)) ?k ?s) with (k largest s). cbv beta.
    rewrite (step_for (fun f => [fire_line f])); [| intros f s0; reflexivity].
    rewrite appends_appends.
    repeat (rewrite step_print, ?appends_appends).
    rewrite (step_for (missing_lines (Z.of_nat (length (records d)))));
      [| intros [c m] s0; unfold missing_lines; simpl; destruct (0 <? m)%nat; 
         [reflexivity | rewrite appends_nil; reflexivity]].
    rewrite appends_appends.
    repeat (rewrite step_print, ?appends_appends).
    rewrite last_print, appends_appends, flat_map_singleton.
    f_equal. f_equal.
    unfold summary_until_largest, summary_from_largest, summary_info, summary_counts,
      summary_missing, yearly_counts.
    rewrite <- !List.app_assoc. reflexivity.
  - change (bind (lift (Raise e)) ?k ?s) with (@Raise unit e, s).
    f_equal. f_equal.
    unfold summary_until_largest, summary_info, summary_counts, yearly_counts.
    rewrite <- !List.app_assoc. reflexivity.
Qed.

End ExploreFacts.

Module ExploreExtras.
Import Wildfire WildfireSpec CountingFacts ExploreFacts.

Lemma StronglySorted_strict (l : list Z) :
  StronglySorted Z.le l -> NoDup l -> StronglySorted Z.lt l.
Proof.
  induction 1 as [| a l _ IH Hall]; intros Hnd; constructor.
  - apply IH. apply NoDup_cons in Hnd. tauto.
  - apply NoDup_cons in Hnd. destruct Hnd as [Ha _].
    rewrite List.Forall_forall in *. intros b Hb.
    assert (a <> b) by (intros ->; apply Ha; apply list_elem_of_In; exact Hb).
    specialize (Hall b Hb). lia.
Qed.

(** The yearly counts: one entry per year that occurs, in increasing
    order of year, with the number of rows of the year. *)
Lemma yearly_counts_spec (d : DataFrame) :
  let years := List.map FIRE_YEAR (records d) in
  StronglySorted Z.lt (List.map fst (yearly_counts d))
  /\ (forall y c, In (y, c) (yearly_counts d) ->
        c = frequency Z.eqb y years /\ (1 <= c)%nat)
  /\ (forall y, In y years <-> In y (List.map fst (yearly_counts d)))
  /\ list_sum (List.map snd (yearly_counts d)) = length (records d).
Proof.
  intros years.
  destruct (value_counts_spec Z.eqb Z.eqb_eq years) as (N & S & K & F & _).
  unfold yearly_counts, sort_index. fold years.
  set (vc := value_counts Z.eqb years) in *.
  set (leb := fun a b : Z * nat => (fst a <=? fst b)%Z).
  assert (P : Permutation (sort_by leb vc) vc) by apply sort_by_perm.
  assert (Pk : Permutation (List.map fst (sort_by leb vc)) (List.map fst vc))
    by (apply Permutation_map; exact P).
  split; [| split; [| split]].
  - apply StronglySorted_strict.
    + apply StronglySorted_map.
      eapply LoaderClaims.StronglySorted_weaken; [| apply (sort_by_sorted leb)].
      * intros a b H. apply Z.leb_le in H. exact H.
      * intros a b. unfold leb. destruct (Z.le_ge_cases (fst a) (fst b)) as [H | H];
          [left | right]; apply Z.leb_le; lia.
      * intros a b c H1 H2. unfold leb in *. apply Z.leb_le in H1, H2. apply Z.leb_le. lia.
    + rewrite Pk. exact N.
  - intros y c H. apply F. apply (Permutation_in _ P). exact H.
  - intros y. rewrite <- K. split; intros H.
    + apply (Permutation_in _ (Permutation_sym Pk)). exact H.
    + apply (Permutation_in _ Pk). exact H.
  - rewrite (list_sum_perm _ _ (Permutation_map snd P)), S. unfold years.
    apply length_map.
Qed.

(** X7. [explore_ca_data] without a table returns at once and prints
    nothing.  On a table it completes exactly when the
    FIRE_SIZE column is numeric and raises the TypeError of [nlargest]
    otherwise; either way it changes nothing but the output, to which it
    only appends, and the appended lines begin with the dataset
    information, among it the number of rows.  When it completes, the last
    line is the table of the first three records. *)
Theorem explore_outcome (s : pystate) (l : loc) (d : DataFrame) :
  heap s !! l = Some d ->
  explore_ca_data None s = (Ok tt, s)
  /\ exists out rest,
    explore_ca_data (Some l) s
    = (match size_dtype d with float64 => Ok tt | object => Raise nlargest_refused end,
       appends s out)
    /\ out = (summary_info d ++ rest)%list
    /\ nth 4 out [] = [Txt "  Total fires: "; Num (Z.of_nat (length (records d)))]
    /\ (size_dtype d = float64 -> exists before, out = (before ++ [[Table (head 3 d)]])%list).
Proof.
  intros E. split; [reflexivity |].
  rewrite (explore_runs s l d E). unfold nlargest.
  destruct (size_dtype d).
  - eexists. eexists. split; [reflexivity |].
    split; [unfold summary_until_largest; rewrite <- List.app_assoc; reflexivity |].
    split; [reflexivity |].
    intros _. eexists.
    unfold summary_from_largest, summary_missing.
    change [[Txt (nl +:+ "First 3 records:")]; [Table (head 3 d)]]
      with ([[Txt (nl +:+ "First 3 records:")]] ++ [[Table (head 3 d)]])%list.
    rewrite !List.app_assoc. reflexivity.
  - eexists. eexists. split; [reflexivity |].
    split; [unfold summary_until_largest; reflexivity |].
    split; [reflexivity |].
    intros H. discriminate H.
Qed.

Lemma explore_outcome_witness :
  let s := sample_heap in
  let d := mkDF float64 sample_rows [] in
  explore_ca_data None s = (Ok tt, s)
  /\ exists out rest,
    explore_ca_data (Some 0%nat) s
    = (match size_dtype d with float64 => Ok tt | object => Raise nlargest_refused end,
       appends s out)
    /\ out = (summary_info d ++ rest)%list
    /\ nth 4 out [] = [Txt "  Total fires: "; Num (Z.of_nat (length (records d)))]
    /\ (size_dtype d = float64 -> exists before, out = (before ++ [[Table (head 3 d)]])%list).
Proof.
  intros s d. apply (explore_outcome sample_heap 0%nat (mkDF float64 sample_rows [])).
  reflexivity.
Defined.

(** X8. The listing "Fires by Year" of the summary: between its heading
    and the next one the summary prints one line per year that occurs in
    the table, in strictly increasing order of year, each with the number
    of rows of that year; the counts add up to the number of rows.  This
    part is printed whether or not the summary later raises. *)
Theorem explore_yearly_listing (s : pystate) (l : loc) (d : DataFrame) :
  heap s !! l = Some d ->
  let years := List.map FIRE_YEAR (records d) in
  exists yearly before after,
    snd (explore_ca_data (Some l) s)
    = appends s (before ++ [[Txt (nl +:+ "Fires by Year:")]]
                 ++ List.map year_line yearly
                 ++ [[Txt (nl +:+ "Fire Size Classes:")]] ++ after)
    /\ StronglySorted Z.lt (List.map fst yearly)
    /\ (forall y c, In (y, c) yearly -> c = frequency Z.eqb y years /\ (1 <= c)%nat)
    /\ (forall y, In y years <-> In y (List.map fst yearly))
    /\ list_sum (List.map snd yearly) = length (records d).
Proof.
  intros E years. exists (yearly_counts d), (summary_info d).
  rewrite (explore_runs s l d E).
  destruct (nlargest 5 d) as [largest | e]; eexists;
    (split; [| apply yearly_counts_spec]); cbn [snd];
    unfold summary_until_largest, summary_counts;
    rewrite <- ?List.app_assoc; reflexivity.
Qed.

Lemma explore_yearly_listing_witness :
  let s := sample_heap in
  let years := List.map FIRE_YEAR sample_rows in
  exists yearly before after,
    snd (explore_ca_data (Some 0%nat) s)
    = appends s (before ++ [[Txt (nl +:+ "Fires by Year:")]]
                 ++ List.map year_line yearly
                 ++ [[Txt (nl +:+ "Fire Size Classes:")]] ++ after)
    /\ StronglySorted Z.lt (List.map fst yearly)
    /\ (forall y c, In (y, c) yearly -> c = frequency Z.eqb y years /\ (1 <= c)%nat)
    /\ (forall y, In y years <-> In y (List.map fst yearly))
    /\ list_sum (List.map snd yearly) = length sample_rows.
Proof.
  intros s years.
  apply (explore_yearly_listing sample_heap 0%nat (mkDF float64 sample_rows [])).
  reflexivity.
Defined.

Lemma size_order_total (a b : fire) :
  Qle_bool (FIRE_SIZE b) (FIRE_SIZE a) = true \/ Qle_bool (FIRE_SIZE a) (FIRE_SIZE b) = true.
Proof.
  destruct (Qlt_le_dec (FIRE_SIZE a) (FIRE_SIZE b)) as [H | H].
  - right. apply Qle_bool_iff. apply Qlt_le_weak. exact H.
  - left. apply Qle_bool_iff. exact H.
Qed.

Lemma size_order_trans (a b c : fire) :
  Qle_bool (FIRE_SIZE b) (FIRE_SIZE a) = true ->
  Qle_bool (FIRE_SIZE c) (FIRE_SIZE b) = true ->
  Qle_bool (FIRE_SIZE c) (FIRE_SIZE a) = true.
Proof.
  rewrite !Qle_bool_iff. intros H1 H2. eapply Qle_trans; eassumption.
Qed.

(** What [nlargest] returns on a numeric column. *)
Lemma nlargest_spec (n : nat) (d : DataFrame) :
  size_dtype d = float64 ->
  exists largest others,
    nlargest n d = Ok largest
    /\ length largest = Nat.min n (length (records d))
    /\ Permutation (largest ++ others) (records d)
    /\ StronglySorted (fun a b => FIRE_SIZE b <= FIRE_SIZE a) largest
    /\ (forall a b, In a largest -> In b others -> FIRE_SIZE b <= FIRE_SIZE a).
Proof.
  intros T. unfold nlargest. rewrite T.
  set (leb := fun a b : fire => Qle_bool (FIRE_SIZE b) (FIRE_SIZE a)).
  assert (P : Permutation (sort_by leb (records d)) (records d)) by apply sort_by_perm.
  assert (S : StronglySorted (fun a b => FIRE_SIZE b <= FIRE_SIZE a) (sort_by leb (records d))).
  { eapply LoaderClaims.StronglySorted_weaken; [| apply (sort_by_sorted leb)].
    - intros a b H. apply Qle_bool_iff. exact H.
    - intros a b. apply size_order_total.
    - intros a b c. apply size_order_trans. }
  exists (firstn n (sort_by leb (records d))), (skipn n (sort_by leb (records d))).
  split; [reflexivity |].
  split; [rewrite length_firstn, (Permutation_length P); reflexivity |].
  split; [rewrite firstn_skipn; exact P |].
  split; [apply StronglySorted_firstn; exact S |].
  intros a b Ha Hb. rewrite <- (firstn_skipn n (sort_by leb (records d))) in S.
  apply StronglySorted_app in S. destruct S as (Hle & _ & _).
  apply Hle; apply list_elem_of_In; assumption.
Qed.

(** X9. The listing "Largest Fires (Top 5)" of the summary of a table
    with a numeric FIRE_SIZE column: between its heading and the next one
    the summary prints one line per listed fire; there are five of them,
    or as many as the table has rows if these are fewer; they are rows
    of the table, in non-increasing order of size, and no row left out is
    larger than a listed one. *)
Theorem explore_largest_listing (s : pystate) (l : loc) (d : DataFrame) :
  heap s !! l = Some d ->
  size_dtype d = float64 ->
  exists largest others before after,
    snd (explore_ca_data (Some l) s)
    = appends s (before ++ [[Txt (nl +:+ "Largest Fires (Top 5):")]]
                 ++ List.map fire_line largest
                 ++ [[Txt (nl +:+ "Missing Data:")]] ++ after)
    /\ length largest = Nat.min 5 (length (records d))
    /\ Permutation (largest ++ others) (records d)
    /\ StronglySorted (fun a b => FIRE_SIZE b <= FIRE_SIZE a) largest
    /\ (forall a b, In a largest -> In b others -> FIRE_SIZE b <= FIRE_SIZE a).
Proof.
  intros E T.
  destruct (nlargest_spec 5 d T) as (largest & others & N & rest).
  exists largest, others. rewrite (explore_runs s l d E), N. cbn [snd].
  exists (summary_info d
          ++ [[Txt (nl +:+ "Fires by Year:")]]
          ++ List.map year_line (yearly_counts d)
          ++ [[Txt (nl +:+ "Fire Size Classes:")]]
          ++ List.map class_line
               (value_counts String.eqb (List.map FIRE_SIZE_CLASS (records d)))
          ++ [[Txt (nl +:+ "Top 10 Fire Causes:")]]
          ++ List.map cause_line
               (firstn 10 (value_counts String.eqb (List.map STAT_CAUSE_DESCR (records d)))))%list.
  exists (flat_map (missing_lines (Z.of_nat (length (records d)))) (isnull_sum d)
          ++ [[Txt (nl +:+ "First 3 records:")]; [Table (head 3 d)]])%list.
  split; [| exact rest].
  unfold summary_until_largest, summary_counts, summary_from_largest, summary_missing.
  rewrite <- !List.app_assoc. reflexivity.
Qed.

Lemma explore_largest_listing_witness :
  let s := sample_heap in
  let d := mkDF float64 sample_rows [] in
  exists largest others before after,
    snd (explore_ca_data (Some 0%nat) s)
    = appends s (before ++ [[Txt (nl +:+ "Largest Fires (Top 5):")]]
                 ++ List.map fire_line largest
                 ++ [[Txt (nl +:+ "Missing Data:")]] ++ after)
    /\ length largest = Nat.min 5 (length (records d))
    /\ Permutation (largest ++ others) (records d)
    /\ StronglySorted (fun a b => FIRE_SIZE b <= FIRE_SIZE a) largest
    /\ (forall a b, In a largest -> In b others -> FIRE_SIZE b <= FIRE_SIZE a).
Proof.
  intros s d.
  apply (explore_largest_listing sample_heap 0%nat (mkDF float64 sample_rows []));
    reflexivity.
Defined.

End ExploreExtras.

(** ** ca_fires_2000-2015.py: selections by year and by size *)

Module SelectionFacts.
Import Wildfire WildfireSpec WildfireTools LoaderFacts BuilderFacts.

Lemma select_filter {A} (keep : A -> bool) (rows : list A) :
  select (List.map keep rows) rows = List.filter keep rows.
Proof.
  induction rows as [| r rows IH]; simpl; [reflexivity |].
  destruct (keep r); rewrite IH; reflexivity.
Qed.

Lemma select_none {A B} (keep : A -> bool) (rows : list A) (xs : list B) :
  List.filter keep rows = [] -> select (List.map keep rows) xs = [].
Proof.
  revert xs. induction rows as [| r rows IH]; intros xs H; simpl in *; [reflexivity |].
  destruct (keep r); [discriminate H |].
  destruct xs as [| x xs]; [reflexivity | apply IH; exact H].
Qed.

Lemma df_where_ok (keep : fire -> bool) (l : loc) (s : pystate) (d : DataFrame) :
  heap s !! l = Some d ->
  exists ex,
    df_where keep l s
    = (Ok (length (heap s)),
       with_heap s (heap s ++ [mkDF (size_dtype d) (List.filter keep (records d)) ex])%list)
    /\ (List.filter keep (records d) = [] -> Forall (fun nc => cells (snd nc) = []) ex).
Proof.
  intros E. unfold df_where. run_py. rewrite E. simpl. rewrite select_filter.
  eexists. split; [reflexivity |].
  intros H. apply List.Forall_forall. intros [n c] Hin.
  apply in_map_iff in Hin. destruct Hin as ([n' c'] & Heq & _).
  injection Heq as _ <-. simpl. apply select_none. exact H.
Qed.

(** [df[mask].copy()] followed by a line of output that depends on the
    copy: the common shape of the two selection functions. *)
Lemma selection_runs (keep : fire -> bool) (report : DataFrame -> line) (l : loc)
      (s : pystate) (d : DataFrame) :
  heap s !! l = Some d ->
  exists ex,
    let dr := mkDF (size_dtype d) (List.filter keep (records d)) ex in
    (sel <- df_where keep l ;;
     copy <- df_copy sel ;;
     dc <- read_frame copy ;;
     print (report dc) ;;;
     ret (Some copy)) s
    = (Ok (Some (S (length (heap s)))),
       mkState (files s) (conns s) (calls s) (heap s ++ [dr; dr])%list
               (stdout s ++ [report dr])%list)
    /\ (List.filter keep (records d) = [] -> no_cells dr).
Proof.
  intros E. destruct (df_where_ok keep l s d E) as (ex & W & C). exists ex. cbv zeta.
  split; [| exact C].
  unfold bind at 1. rewrite W. clear C.
  generalize (mkDF (size_dtype d) (List.filter keep (records d)) ex). intros dr.
  unfold bind at 1.
  rewrite (df_copy_ok (length (heap s)) _ dr) by apply lookup_snoc.
  unfold with_heap. cbn [files conns calls heap stdout].
  unfold bind at 1. unfold read_frame. cbn [files conns calls heap stdout].
  replace (length (heap s ++ [dr])%list) with (S (length (heap s)))
    by (rewrite List.length_app; simpl; lia).
  assert (L : ((heap s ++ [dr]) ++ [dr])%list !! S (length (heap s)) = Some dr).
  { replace (S (length (heap s))) with (length (heap s ++ [dr])%list)
      by (rewrite List.length_app; simpl; lia).
    apply lookup_snoc. }
  unfold loc in *. rewrite L. unfold bind, print, modify, ret.
  cbn [files conns calls heap stdout].
  rewrite <- List.app_assoc. reflexivity.
Qed.

Lemma lookup_snoc2 {A} (h : list A) (a b : A) : (h ++ [a; b])%list !! S (length h) = Some b.
Proof.
  rewrite lookup_app_r by lia. replace (S (length h) - length h)%nat with 1%nat by lia.
  reflexivity.
Qed.

Lemma filter_comm {A} (p q : A -> bool) (l : list A) :
  List.filter p (List.filter q l) = List.filter q (List.filter p l).
Proof.
  induction l as [| x l IH]; simpl; [reflexivity |].
  destruct (p x) eqn:P, (q x) eqn:Q; simpl; rewrite ?P, ?Q, IH; reflexivity.
Qed.

Lemma get_fires_by_year_runs (s : pystate) (l : loc) (d : DataFrame) (year : Z) :
  heap s !! l = Some d ->
  exists ex,
    let dr := mkDF (size_dtype d)
                   (List.filter (fun r => (FIRE_YEAR r =? year)%Z) (records d)) ex in
    get_fires_by_year (Some l) year s
    = (Ok (Some (S (length (heap s)))),
       mkState (files s) (conns s) (calls s) (heap s ++ [dr; dr])%list
               (stdout s ++ [year_report year dr])%list)
    /\ (List.filter (fun r => (FIRE_YEAR r =? year)%Z) (records d) = [] -> no_cells dr).
Proof.
  intros E.
  exact (selection_runs (fun r => (FIRE_YEAR r =? year)%Z) (year_report year) l s d E).
Qed.

Lemma get_large_fires_runs (s : pystate) (l : loc) (d : DataFrame) (min_acres : Z) :
  heap s !! l = Some d ->
  exists ex,
    let dr := mkDF (size_dtype d)
                   (List.filter (fun r => Qle_bool (inject_Z min_acres) (FIRE_SIZE r))
                                (records d)) ex in
    get_large_fires (Some l) min_acres s
    = (Ok (Some (S (length (heap s)))),
       mkState (files s) (conns s) (calls s) (heap s ++ [dr; dr])%list
               (stdout s ++ [large_report min_acres dr])%list)
    /\ (List.filter (fun r => Qle_bool (inject_Z min_acres) (FIRE_SIZE r)) (records d) = []
        -> no_cells dr).
Proof.
  intros E.
  exact (selection_runs (fun r => Qle_bool (inject_Z min_acres) (FIRE_SIZE r))
                        (large_report min_acres) l s d E).
Qed.

End SelectionFacts.

Module SelectionExtras.
Import Wildfire WildfireSpec WildfireTools LoaderFacts BuilderFacts SelectionFacts ExploreFacts.

(** X10. [get_fires_by_year(df, year)] on a table returns a new table
    that holds exactly the rows of that year, in their order, with the
    dtype of the input; every table that existed before, the input among
    them, is unchanged; nothing else changes but the output, which gets
    one line with the number of rows of the year and the sum of their
    sizes.  Without a table it returns None and prints nothing. *)
Theorem year_selection (s : pystate) (l : loc) (d : DataFrame) (year : Z) :
  heap s !! l = Some d ->
  let rows := List.filter (fun r => (FIRE_YEAR r =? year)%Z) (records d) in
  get_fires_by_year None year s = (Ok None, s)
  /\ exists r s' dr,
       get_fires_by_year (Some l) year s = (Ok (Some r), s')
       /\ fresh (heap s) r
       /\ heap s' !! r = Some dr
       /\ records dr = rows
       /\ size_dtype dr = size_dtype d
       /\ (forall f, In f (records dr) <-> In f (records d) /\ FIRE_YEAR f = year)
       /\ heap s `prefix_of` heap s'
       /\ files s' = files s /\ conns s' = conns s /\ calls s' = calls s
       /\ stdout s'
          = (stdout s ++ [[Txt nl; Val (Some year); Txt ": "; Num (Z.of_nat (length rows));
                           Txt " fires, "; Fix0 (Qsum (List.map FIRE_SIZE rows));
                           Txt " acres burned"]])%list.
Proof.
  intros E rows. split; [reflexivity |].
  destruct (get_fires_by_year_runs s l d year E) as (ex & R & _). cbv zeta in R.
  eexists _, _, _. split; [exact R |]. cbn [files conns calls heap stdout].
  split; [unfold fresh; lia |].
  split; [apply lookup_snoc2 |]. cbn [records size_dtype].
  split; [reflexivity |]. split; [reflexivity |].
  split; [intros f; fold rows; unfold rows; rewrite filter_In, Z.eqb_eq; reflexivity |].
  split; [apply prefix_app_r; reflexivity |].
  repeat split.
Qed.

Lemma year_selection_witness :
  let s := sample_heap in
  let d := mkDF float64 sample_rows [] in
  let rows := List.filter (fun r => (FIRE_YEAR r =? 2003)%Z) (records d) in
  get_fires_by_year None 2003 s = (Ok None, s)
  /\ exists r s' dr,
       get_fires_by_year (Some 0%nat) 2003 s = (Ok (Some r), s')
       /\ fresh (heap s) r
       /\ heap s' !! r = Some dr
       /\ records dr = rows
       /\ size_dtype dr = size_dtype d
       /\ (forall f, In f (records dr) <-> In f (records d) /\ FIRE_YEAR f = 2003%Z)
       /\ heap s `prefix_of` heap s'
       /\ files s' = files s /\ conns s' = conns s /\ calls s' = calls s
       /\ stdout s'
          = (stdout s ++ [[Txt nl; Val (Some 2003%Z); Txt ": "; Num (Z.of_nat (length rows));
                           Txt " fires, "; Fix0 (Qsum (List.map FIRE_SIZE rows));
                           Txt " acres burned"]])%list.
Proof.
  intros s d.
  apply (year_selection sample_heap 0%nat (mkDF float64 sample_rows []) 2003).
  reflexivity.
Defined.

(** X11. [get_large_fires(df, min_acres)] on a table returns a new table
    that holds exactly the rows whose size is at least [min_acres], in
    their order, with the dtype of the input; every table that existed
    before is unchanged; nothing else changes but the output, which gets
    one line with the threshold and the number of such rows.  Without a
    table it returns None and prints nothing. *)
Theorem large_selection (s : pystate) (l : loc) (d : DataFrame) (min_acres : Z) :
  heap s !! l = Some d ->
  let rows := List.filter (fun r => Qle_bool (inject_Z min_acres) (FIRE_SIZE r)) (records d) in
  get_large_fires None min_acres s = (Ok None, s)
  /\ exists r s' dr,
       get_large_fires (Some l) min_acres s = (Ok (Some r), s')
       /\ fresh (heap s) r
       /\ heap s' !! r = Some dr
       /\ records dr = rows
       /\ size_dtype dr = size_dtype d
       /\ (forall f, In f (records dr)
                     <-> In f (records d) /\ inject_Z min_acres <= FIRE_SIZE f)
       /\ heap s `prefix_of` heap s'
       /\ files s' = files s /\ conns s' = conns s /\ calls s' = calls s
       /\ stdout s'
          = (stdout s ++ [[Txt (nl +:+ "Fires ≥"); Num min_acres; Txt " acres: ";
                           Num (Z.of_nat (length rows))]])%list.
Proof.
  intros E rows. split; [reflexivity |].
  destruct (get_large_fires_runs s l d min_acres E) as (ex & R & _). cbv zeta in R.
  eexists _, _, _. split; [exact R |]. cbn [files conns calls heap stdout].
  split; [unfold fresh; lia |].
  split; [apply lookup_snoc2 |]. cbn [records size_dtype].
  split; [reflexivity |]. split; [reflexivity |].
  split; [intros f; fold rows; unfold rows; rewrite filter_In, Qle_bool_iff; reflexivity |].
  split; [apply prefix_app_r; reflexivity |].
  repeat split.
Qed.

Lemma large_selection_witness :
  let s := sample_heap in
  let d := mkDF float64 sample_rows [] in
  let rows := List.filter (fun r => Qle_bool (inject_Z 10) (FIRE_SIZE r)) (records d) in
  get_large_fires None 10 s = (Ok None, s)
  /\ exists r s' dr,
       get_large_fires (Some 0%nat) 10 s = (Ok (Some r), s')
       /\ fresh (heap s) r
       /\ heap s' !! r = Some dr
       /\ records dr = rows
       /\ size_dtype dr = size_dtype d
       /\ (forall f, In f (records dr)
                     <-> In f (records d) /\ inject_Z 10 <= FIRE_SIZE f)
       /\ heap s `prefix_of` heap s'
       /\ files s' = files s /\ conns s' = conns s /\ calls s' = calls s
       /\ stdout s'
          = (stdout s ++ [[Txt (nl +:+ "Fires ≥"); Num 10; Txt " acres: ";
                           Num (Z.of_nat (length rows))]])%list.
Proof.
  intros s d.
  apply (large_selection sample_heap 0%nat (mkDF float64 sample_rows []) 10).
  reflexivity.
Defined.

(** X12. The two selections commute: the large fires of a year's fires
    and the year's fires among the large fires are tables with the same
    rows and the same dtype, and both pipelines complete. *)
Theorem selections_commute (s : pystate) (l : loc) (d : DataFrame) (year min_acres : Z) :
  heap s !! l = Some d ->
  exists a sa da b sb db,
    (x <- get_fires_by_year (Some l) year ;; get_large_fires x min_acres) s
    = (Ok (Some a), sa)
    /\ heap sa !! a = Some da
    /\ (x <- get_large_fires (Some l) min_acres ;; get_fires_by_year x year) s
       = (Ok (Some b), sb)
    /\ heap sb !! b = Some db
    /\ records da = records db
    /\ size_dtype da = size_dtype db
    /\ (forall f, In f (records da)
                  <-> In f (records d) /\ FIRE_YEAR f = year
                      /\ inject_Z min_acres <= FIRE_SIZE f).
Proof.
  intros E.
  destruct (get_fires_by_year_runs s l d year E) as (ex1 & R1 & _). cbv zeta in R1.
  destruct (get_large_fires_runs s l d min_acres E) as (ex2 & R2 & _). cbv zeta in R2.
  set (d1 := mkDF (size_dtype d)
                  (List.filter (fun r => (FIRE_YEAR r =? year)%Z) (records d)) ex1) in *.
  set (d2 := mkDF (size_dtype d)
                  (List.filter (fun r => Qle_bool (inject_Z min_acres) (FIRE_SIZE r))
                               (records d)) ex2) in *.
  set (s1 := mkState (files s) (conns s) (calls s) (heap s ++ [d1; d1])%list
                     (stdout s ++ [year_report year d1])%list) in *.
  set (s2 := mkState (files s) (conns s) (calls s) (heap s ++ [d2; d2])%list
                     (stdout s ++ [large_report min_acres d2])%list) in *.
  assert (L1 : heap s1 !! S (length (heap s)) = Some d1) by apply lookup_snoc2.
  assert (L2 : heap s2 !! S (length (heap s)) = Some d2) by apply lookup_snoc2.
  destruct (get_large_fires_runs s1 _ d1 min_acres L1) as (ex3 & R3 & _). cbv zeta in R3.
  destruct (get_fires_by_year_runs s2 _ d2 year L2) as (ex4 & R4 & _). cbv zeta in R4.
  eexists _, _, _, _, _, _.
  split; [unfold bind; rewrite R1; exact R3 |].
  split; [apply lookup_snoc2 |].
  split; [unfold bind; rewrite R2; exact R4 |].
  split; [apply lookup_snoc2 |].
  cbn [records size_dtype d1 d2].
  split; [apply filter_comm |].
  split; [reflexivity |].
  intros f. rewrite !filter_In, Z.eqb_eq, Qle_bool_iff. tauto.
Qed.

Lemma selections_commute_witness :
  let s := sample_heap in
  let d := mkDF float64 sample_rows [] in
  exists a sa da b sb db,
    (x <- get_fires_by_year (Some 0%nat) 2003 ;; get_large_fires x 10) s
    = (Ok (Some a), sa)
    /\ heap sa !! a = Some da
    /\ (x <- get_large_fires (Some 0%nat) 10 ;; get_fires_by_year x 2003) s
       = (Ok (Some b), sb)
    /\ heap sb !! b = Some db
    /\ records da = records db
    /\ size_dtype da = size_dtype db
    /\ (forall f, In f (records da)
                  <-> In f (records d) /\ FIRE_YEAR f = 2003%Z
                      /\ inject_Z 10 <= FIRE_SIZE f).
Proof.
  intros s d.
  apply (selections_commute sample_heap 0%nat (mkDF float64 sample_rows []) 2003 10).
  reflexivity.
Defined.

(** X13. The summary of a year's fires: on a table with a numeric
    FIRE_SIZE column, [explore_ca_data(get_fires_by_year(df, year))]
    completes for every year and reports the number of rows of that year
    as the total; for a year without fires it prints the summary of an
    empty table.  On a table whose FIRE_SIZE column is not numeric (a
    table loaded without rows) the same pipeline raises the TypeError of
    [nlargest] for every year. *)
Theorem year_summary (s : pystate) (l : loc) (d : DataFrame) (year : Z) :
  heap s !! l = Some d ->
  let rows := List.filter (fun r => (FIRE_YEAR r =? year)%Z) (records d) in
  exists r s1 dr out,
    get_fires_by_year (Some l) year s = (Ok (Some r), s1)
    /\ heap s1 !! r = Some dr
    /\ explore_ca_data (Some r) s1
       = (match size_dtype d with float64 => Ok tt | object => Raise nlargest_refused end,
          appends s1 out)
    /\ nth 4 out [] = [Txt "  Total fires: "; Num (Z.of_nat (length rows))]
    /\ (size_dtype d = float64 -> rows = [] -> out = empty_summary dr).
Proof.
  intros E rows.
  destruct (get_fires_by_year_runs s l d year E) as (ex & R & C). cbv zeta in R, C.
  fold rows in R, C.
  set (dr := mkDF (size_dtype d) rows ex) in *.
  set (s1 := mkState (files s) (conns s) (calls s) (heap s ++ [dr; dr])%list
                     (stdout s ++ [year_report year dr])%list) in *.
  assert (L : heap s1 !! S (length (heap s)) = Some dr) by apply lookup_snoc2.
  pose proof (explore_runs s1 _ dr L) as X. unfold nlargest in X.
  cbn [size_dtype dr] in X.
  destruct (size_dtype d) eqn:T.
  - eexists _, _, _, _. split; [exact R |]. split; [exact L |].
    split; [exact X |]. split; [reflexivity |].
    intros _ Hr.
    pose proof (ExploreClaims.explore_empty s1 _ dr L Hr eq_refl (C Hr)) as Y.
    rewrite X in Y. apply (f_equal (fun p => stdout (snd p))) in Y.
    unfold appends in Y. cbn [snd stdout] in Y.
    apply List.app_inv_head in Y. exact Y.
  - eexists _, _, _, _. split; [exact R |]. split; [exact L |].
    split; [exact X |]. split; [reflexivity |].
    intros H. discriminate H.
Qed.

Lemma year_summary_witness :
  let s := sample_heap in
  let d := mkDF float64 sample_rows [] in
  let rows := List.filter (fun r => (FIRE_YEAR r =? 2010)%Z) (records d) in
  exists r s1 dr out,
    get_fires_by_year (Some 0%nat) 2010 s = (Ok (Some r), s1)
    /\ heap s1 !! r = Some dr
    /\ explore_ca_data (Some r) s1
       = (match size_dtype d with float64 => Ok tt | object => Raise nlargest_refused end,
          appends s1 out)
    /\ nth 4 out [] = [Txt "  Total fires: "; Num (Z.of_nat (length rows))]
    /\ (size_dtype d = float64 -> rows = [] -> out = empty_summary dr).
Proof.
  intros s d.
  apply (year_summary sample_heap 0%nat (mkDF float64 sample_rows []) 2010).
  reflexivity.
Defined.

End SelectionExtras.

(** ** Groups and the rows they hold *)

Module GroupFacts.
Import Wildfire WildfireSpec LoaderFacts BinningFacts BuilderFacts.

Lemma Qsum_from (l : list Q) (a : Q) : fold_left Qplus l a == a + Qsum l.
Proof.
  unfold Qsum. revert a. induction l as [| x l IH]; intros a; simpl.
  - ring.
  - rewrite (IH (a + x)), (IH (0 + x)). ring.
Qed.

Lemma Qsum_cons (x : Q) (l : list Q) : Qsum (x :: l) == x + Qsum l.
Proof. unfold Qsum at 1. simpl. rewrite Qsum_from. ring. Qed.

Lemma Qsum_app (l l' : list Q) : Qsum (l ++ l') == Qsum l + Qsum l'.
Proof.
  induction l as [| x l IH]; simpl.
  - unfold Qsum at 2. simpl. ring.
  - rewrite !Qsum_cons, IH. ring.
Qed.

Lemma Qsum_perm (l l' : list Q) : Permutation l l' -> Qsum l == Qsum l'.
Proof.
  induction 1 as [| x l l' _ IH | x y l | l l' l'' _ IH1 _ IH2].
  - reflexivity.
  - rewrite !Qsum_cons, IH. reflexivity.
  - rewrite !Qsum_cons. ring.
  - rewrite IH1. exact IH2.
Qed.

Lemma add_to_group_values (k : key) (v : Q) (gs : list (key * list Q)) :
  Permutation (group_values (add_to_group k v gs)) (v :: group_values gs).
Proof.
  unfold group_values. induction gs as [| [k' vs] gs IH]; simpl; [reflexivity |].
  destruct (key_compare k k'); simpl.
  - rewrite <- List.app_assoc. symmetry. apply Permutation_middle.
  - reflexivity.
  - rewrite IH. symmetry. apply Permutation_middle.
Qed.

Lemma ensure_group_values (k : key) (gs : list (key * list Q)) :
  group_values (ensure_group k gs) = group_values gs.
Proof.
  unfold group_values. induction gs as [| [k' vs] gs IH]; simpl; [reflexivity |].
  destruct (key_compare k k'); simpl; [reflexivity | reflexivity | rewrite IH; reflexivity].
Qed.

Lemma ensure_all_values (ks : list key) (gs : list (key * list Q)) :
  group_values (fold_left (fun acc k => ensure_group k acc) ks gs) = group_values gs.
Proof.
  revert gs. induction ks as [| k ks IH]; intros gs; simpl; [reflexivity |].
  rewrite IH. apply ensure_group_values.
Qed.

(** The groups hold the values of the rows with a complete key, each
    once. *)
Lemma observed_groups_values {A} (rows : list A) (kf : A -> key) (vf : A -> Q) :
  Permutation (group_values (observed_groups (List.map kf rows) (List.map vf rows)))
              (List.map vf (List.filter (fun r => complete (kf r)) rows)).
Proof.
  unfold observed_groups.
  assert (G : forall acc,
             Permutation
               (group_values
                  (fold_left (fun gs '(k, v) => if existsb is_na k then gs
                                                else add_to_group k v gs)
                             (combine (List.map kf rows) (List.map vf rows)) acc))
               (List.map vf (List.filter (fun r => complete (kf r)) rows)
                ++ group_values acc)).
  { induction rows as [| r rows IH]; intros acc; simpl; [reflexivity |].
    rewrite IH. unfold complete at 2.
    destruct (existsb is_na (kf r)); simpl; [reflexivity |].
    rewrite add_to_group_values. symmetry. apply Permutation_middle. }
  rewrite (G []). unfold group_values. simpl. rewrite List.app_nil_r. reflexivity.
Qed.

Lemma groupby_values {A} (observed : bool) (rows : list A) (fs : list (A -> cell))
      (cols : list column) (vf : A -> Q) :
  Forall2 (fun f c => cells c = List.map f rows) fs cols ->
  Permutation
    (group_values (groupby observed (length rows) cols (List.map vf rows)))
    (List.map vf (List.filter (fun r => complete (List.map (fun f => f r) fs)) rows)).
Proof.
  intros F. unfold groupby. rewrite (key_rows_map rows fs cols F).
  destruct (observed || negb (existsb is_categorical cols)).
  - apply (observed_groups_values rows (fun r => List.map (fun f => f r) fs) vf).
  - rewrite ensure_all_values.
    apply (observed_groups_values rows (fun r => List.map (fun f => f r) fs) vf).
Qed.

Lemma value_sum_groups (gs : list (key * list Q)) :
  value_sum (aggregate [agg_sum] gs) == Qsum (group_values gs).
Proof.
  unfold group_values. induction gs as [| [k vs] gs IH]; simpl; [reflexivity |].
  rewrite Qsum_app, IH. reflexivity.
Qed.

Lemma second_sum_groups (gs : list (key * list Q)) :
  second_sum (aggregate [agg_size; agg_sum] gs) == Qsum (group_values gs).
Proof.
  unfold group_values. induction gs as [| [k vs] gs IH]; simpl; [reflexivity |].
  rewrite Qsum_app, IH. reflexivity.
Qed.

Lemma count_sum_two (gs : list (key * list Q)) :
  count_sum (aggregate [agg_size; agg_sum] gs) = Z.of_nat (group_total gs).
Proof.
  unfold group_total. induction gs as [| [k vs] gs IH]; simpl; [reflexivity |].
  rewrite IH. lia.
Qed.

Lemma filter_ext_in' {A} (p q : A -> bool) (l : list A) :
  (forall x, In x l -> p x = q x) -> List.filter p l = List.filter q l.
Proof.
  induction l as [| x l IH]; intros H; simpl; [reflexivity |].
  rewrite (H x (or_introl eq_refl)), IH; [reflexivity |].
  intros y Hy. apply H. right. exact Hy.
Qed.

(** The bin columns of a table whose latitudes and longitudes are all
    binned: every row has its key, and the key is complete exactly when
    the row has both coordinates. *)
Lemma bin_keys_ok (rows : list fire) (n m : nat) :
  binned (List.map LATITUDE rows) n -> binned (List.map LONGITUDE rows) m ->
  exists c1 c2 c3 c4 (g1 g2 g3 g4 : fire -> cell),
    bin_table rows n m = Ok [c1; c2; c3; c4]
    /\ Forall2 (fun f c => cells c = List.map f rows) [g1; g2; g3; g4] [c1; c2; c3; c4]
    /\ (forall r, In r rows ->
          is_na (g1 r) = missing (LATITUDE r) /\ is_na (g2 r) = missing (LONGITUDE r)
          /\ is_na (g3 r) = missing (LATITUDE r) /\ is_na (g4 r) = missing (LONGITUDE r)).
Proof.
  intros Hlat Hlon.
  destruct (cut_labels_ok _ n Hlat) as (f1 & E1 & N1).
  destruct (cut_labels_ok _ m Hlon) as (f2 & E2 & N2).
  destruct (cut_centers_ok _ n Hlat) as (f3 & k3 & E3 & N3).
  destruct (cut_centers_ok _ m Hlon) as (f4 & k4 & E4 & N4).
  eexists _, _, _, _, (fun r => f1 (LATITUDE r)), (fun r => f2 (LONGITUDE r)),
    (fun r => f3 (LATITUDE r)), (fun r => f4 (LONGITUDE r)).
  split; [unfold bin_table; rewrite E1, E2, E3, E4; reflexivity |].
  split; [repeat constructor; simpl; apply List.map_map |].
  intros r Hr. cbv beta.
  rewrite N1, N2, N3, N4 by (apply in_map; exact Hr). tauto.
Qed.

Lemma complete_located (g1 g2 g3 g4 : fire -> cell) (r : fire) :
  is_na (g1 r) = missing (LATITUDE r) /\ is_na (g2 r) = missing (LONGITUDE r)
  /\ is_na (g3 r) = missing (LATITUDE r) /\ is_na (g4 r) = missing (LONGITUDE r) ->
  complete [g1 r; g2 r; g3 r; g4 r] = located r.
Proof.
  intros (H1 & H2 & H3 & H4). unfold complete, located. simpl.
  rewrite H1, H2, H3, H4.
  destruct (missing (LATITUDE r)), (missing (LONGITUDE r)); reflexivity.
Qed.

Lemma located_rows (rows : list fire) (g1 g2 g3 g4 yr : fire -> cell) :
  (forall r, In r rows ->
     is_na (g1 r) = missing (LATITUDE r) /\ is_na (g2 r) = missing (LONGITUDE r)
     /\ is_na (g3 r) = missing (LATITUDE r) /\ is_na (g4 r) = missing (LONGITUDE r)) ->
  (forall r, is_na (yr r) = false) ->
  List.filter (fun r => complete (List.map (fun f => f r) (yr :: [g1; g2; g3; g4]))) rows
  = List.filter located rows.
Proof.
  intros H Hy. apply filter_ext_in'. intros r Hr.
  rewrite <- (complete_located g1 g2 g3 g4 r (H r Hr)).
  unfold complete. simpl. rewrite Hy. reflexivity.
Qed.

Lemma located_values (rows : list fire) (g1 g2 g3 g4 : fire -> cell)
      (more : list (fire -> cell)) :
  (forall r, In r rows ->
     is_na (g1 r) = missing (LATITUDE r) /\ is_na (g2 r) = missing (LONGITUDE r)
     /\ is_na (g3 r) = missing (LATITUDE r) /\ is_na (g4 r) = missing (LONGITUDE r)) ->
  (forall f r, In f more -> is_na (f r) = false) ->
  List.filter (fun r => complete (List.map (fun f => f r) (more ++ [g1; g2; g3; g4]))) rows
  = List.filter located rows.
Proof.
  intros H Hm. apply filter_ext_in'. intros r Hr.
  rewrite <- (complete_located g1 g2 g3 g4 r (H r Hr)).
  unfold complete. f_equal. rewrite List.map_app, existsb_app.
  replace (existsb is_na (List.map (fun f => f r) more)) with false; [reflexivity |].
  symmetry. induction more as [| f more IH]; simpl; [reflexivity |].
  rewrite (Hm f r (or_introl eq_refl)). simpl. apply IH.
  intros f' r' Hf. apply Hm. right. exact Hf.
Qed.

End GroupFacts.

(** ** The map builder as a function of the rows it plots *)

Module PlotFacts.
Import Wildfire WildfireSpec LoaderFacts BinningFacts BuilderFacts GroupFacts.

(** Labels and centres of a column are binned with the same edges, so
    one binning fails exactly when the other does. *)
Lemma cut_same_error (col : list (option Q)) (n : nat) :
  match cut_labels col n, cut_centers col n with
  | Ok _, Ok _ => True
  | Raise e1, Raise e2 => e1 = e2
  | _, _ => False
  end.
Proof. unfold cut_labels, cut_centers. destruct (cut_edges col n); reflexivity. Qed.

Lemma add_bins_runs (l : loc) (n m : nat) (s : pystate) (d : DataFrame) :
  heap s !! l = Some d ->
  match bin_table (records d) n m with
  | Ok cols =>
      exists c1 c2 c3 c4,
        cols = [c1; c2; c3; c4]
        /\ add_bins l n m s
           = (Ok tt,
              with_heap s
                (<[l := mkDF (size_dtype d) (records d)
                          (set_extra "lon_center" c4
                             (set_extra "lat_center" c3
                                (set_extra "lon_bin" c2
                                   (set_extra "lat_bin" c1 (extra d)))))]> (heap s)))
  | Raise e => exists h, add_bins l n m s = (Raise e, with_heap s h)
  end.
Proof.
  intros E. pose proof (lookup_lt_Some _ _ _ E) as Hl.
  pose proof (cut_same_error (List.map LATITUDE (records d)) n) as S1.
  pose proof (cut_same_error (List.map LONGITUDE (records d)) m) as S2.
  unfold bin_table.
  destruct (cut_labels (List.map LATITUDE (records d)) n) as [c1 | e1] eqn:E1.
  - destruct (cut_labels (List.map LONGITUDE (records d)) m) as [c2 | e2] eqn:E2.
    + destruct (cut_centers (List.map LATITUDE (records d)) n) as [c3 | e3] eqn:E3;
        [| destruct S1].
      destruct (cut_centers (List.map LONGITUDE (records d)) m) as [c4 | e4] eqn:E4;
        [| destruct S2].
      exists c1, c2, c3, c4. split; [reflexivity |].
      apply add_bins_ok; assumption.
    + unfold add_bins. run_py. rewrite E. simpl. rewrite E1. simpl. rewrite E. simpl.
      rewrite list_lookup_insert_eq by exact Hl. simpl. rewrite E2. simpl.
      eexists. reflexivity.
  - unfold add_bins. run_py. rewrite E. simpl. rewrite E1. simpl.
    exists (heap s). destruct s. reflexivity.
Qed.

(** The builder from the binning on: its result is a function of the
    rows of the frame it bins. *)
Lemma choropleth_from_outcome (observed : bool) (p : loc) (ty metric : string) (s : pystate)
      (dp : DataFrame) :
  heap s !! p = Some dp ->
  exists s',
    choropleth_from observed p ty metric s = (plotted observed (records dp) ty metric, s').
Proof.
  intros E. pose proof (lookup_lt_Some _ _ _ E) as Hl.
  pose proof (add_bins_runs p 20 20 s dp E) as A. unfold plotted.
  destruct (bin_table (records dp) 20 20) as [cols | e].
  - destruct A as (c1 & c2 & c3 & c4 & -> & A).
    set (dq := mkDF (size_dtype dp) (records dp)
                 (set_extra "lon_center" c4
                    (set_extra "lat_center" c3
                       (set_extra "lon_bin" c2 (set_extra "lat_bin" c1 (extra dp)))))) in *.
    assert (G : groupby_frame observed p bin_columns (with_heap s (<[p := dq]> (heap s)))
                = (Ok (groupby observed (length (records dp)) [c1; c2; c3; c4]
                               (List.map FIRE_SIZE (records dp))),
                   with_heap s (<[p := dq]> (heap s)))).
    { apply (groupby_frame_bins observed p _ dq c1 c2 c3 c4 (extra dp)).
      - simpl. apply list_lookup_insert_eq. exact Hl.
      - reflexivity. }
    unfold choropleth_from, metric_plot. unfold bind at 1. rewrite A.
    destruct (String.eqb metric "fire_count");
      [unfold bind at 1; unfold bind at 1; rewrite G; eexists; reflexivity |].
    destruct (String.eqb metric "total_acres");
      [unfold bind at 1; unfold bind at 1; rewrite G; eexists; reflexivity |].
    destruct (String.eqb metric "avg_fire_size");
      [unfold bind at 1; unfold bind at 1; rewrite G; eexists; reflexivity |].
    eexists. reflexivity.
  - destruct A as (h & A). unfold choropleth_from. unfold bind at 1. rewrite A.
    eexists. reflexivity.
Qed.

Lemma plot_frame (observed : bool) (df : loc) (metric : string) (year : option Z)
      (s : pystate) (d : DataFrame) :
  heap s !! df = Some d ->
  exists (p : loc) (more : list DataFrame) (dp : DataFrame),
    create_fire_choropleth observed (Some df) metric year s
    = choropleth_from observed p (title_year year) metric (with_heap s (heap s ++ more)%list)
    /\ (heap s ++ more)%list !! p = Some dp
    /\ records dp = plot_rows year (records d).
Proof.
  intros E. rewrite create_fire_choropleth_unfold. unfold plot_rows, title_year.
  unfold bind at 1. rewrite (df_copy_ok df s d E).
  destruct (truthy year) as [y |].
  - destruct (df_where_year_ok (length (heap s)) y (with_heap s (heap s ++ [d])%list) d)
      as (ex & W); [apply lookup_snoc |].
    unfold bind at 1. unfold bind at 1. rewrite W. simpl.
    eexists _, [d; _], _. split; [| split].
    + unfold ret. simpl. unfold with_heap. simpl.
      rewrite <- List.app_assoc. reflexivity.
    + rewrite List.length_app. simpl.
      replace (heap s ++ [d; _])%list with ((heap s ++ [d]) ++ [mkDF (size_dtype d)
        (List.filter (fun r => (FIRE_YEAR r =? y)%Z) (records d)) ex])%list
        by (rewrite <- List.app_assoc; reflexivity).
      replace (length (heap s) + 1)%nat with (length (heap s ++ [d])%list)
        by (rewrite List.length_app; reflexivity).
      apply lookup_snoc.
    + reflexivity.
  - unfold bind at 1. unfold ret at 1. simpl.
    eexists _, [d], d. split; [reflexivity |]. split; [apply lookup_snoc | reflexivity].
Qed.

(** The result of [create_fire_choropleth] on a table depends only on
    the rows it selects, the suffix of the title and the metric. *)
Lemma create_fire_choropleth_outcome (observed : bool) (df : loc) (metric : string)
      (year : option Z) (s : pystate) (d : DataFrame) :
  heap s !! df = Some d ->
  exists s',
    create_fire_choropleth observed (Some df) metric year s
    = (plotted observed (plot_rows year (records d)) (title_year year) metric, s').
Proof.
  intros E.
  destruct (plot_frame observed df metric year s d E) as (p & more & dp & -> & Ep & <-).
  apply choropleth_from_outcome. exact Ep.
Qed.

Lemma same_plot_suffix (observed : bool) (rows : list fire) (t1 t2 metric : string) :
  same_plot (plotted observed rows t1 metric) (plotted observed rows t2 metric).
Proof.
  unfold plotted. destruct (bin_table rows 20 20) as [cols | e]; [| reflexivity].
  destruct (metric_plot metric _) as [[[t dat] cb] |]; simpl; tauto.
Qed.

(** The map of total acres of rows whose coordinates are all binned. *)
Lemma total_acres_plotted (observed : bool) (rows : list fire) (suffix : string) :
  binned (List.map LATITUDE rows) 20 -> binned (List.map LONGITUDE rows) 20 ->
  exists fig,
    plotted observed rows suffix "total_acres" = Ok (Some fig)
    /\ title fig = "California Total Acres Burned by Region" +:+ suffix
    /\ value_sum (data fig) == Qsum (List.map FIRE_SIZE (List.filter located rows)).
Proof.
  intros Hlat Hlon.
  destruct (bin_keys_ok rows 20 20 Hlat Hlon)
    as (c1 & c2 & c3 & c4 & g1 & g2 & g3 & g4 & B & F & N).
  unfold plotted. rewrite B. cbn [metric_plot String.eqb Ascii.eqb Bool.eqb].
  eexists. split; [reflexivity |]. cbn [title data]. split; [reflexivity |].
  rewrite value_sum_groups.
  rewrite (Qsum_perm _ _ (groupby_values observed rows [g1; g2; g3; g4] _ FIRE_SIZE F)).
  pose proof (located_values rows g1 g2 g3 g4 [] N) as Lv. simpl app in Lv.
  rewrite Lv; [reflexivity |].
  intros f r [].
Qed.

End PlotFacts.

Module PlotExtras.
Import Wildfire WildfireSpec WildfireTools LoaderFacts BinningFacts BuilderFacts.
Import GroupFacts PlotFacts SelectionFacts.

(** X14. Selecting a year first and mapping the selection gives the same
    map as asking the builder for that year: for a year other than 0,
    [create_fire_choropleth(get_fires_by_year(df, year), metric)] and
    [create_fire_choropleth(df, metric, year)] end the same way, with the
    same error, or both without a figure, or with figures that have the
    same data, labels and layout (the titles differ in the year
    suffix). *)
Theorem choropleth_of_year_selection (observed : bool) (s : pystate) (l : loc)
        (d : DataFrame) (metric : string) (year : Z) :
  heap s !! l = Some d ->
  year <> 0%Z ->
  exists r s1,
    get_fires_by_year (Some l) year s = (Ok (Some r), s1)
    /\ same_plot (fst (create_fire_choropleth observed (Some r) metric None s1))
                 (fst (create_fire_choropleth observed (Some l) metric (Some year) s)).
Proof.
  intros E Hy.
  destruct (get_fires_by_year_runs s l d year E) as (ex & R & _). cbv zeta in R.
  eexists _, _. split; [exact R |].
  match type of R with
  | _ = (_, ?s1) =>
      assert (L : heap s1 !! S (length (heap s))
                  = Some (mkDF (size_dtype d)
                               (List.filter (fun r => (FIRE_YEAR r =? year)%Z) (records d)) ex))
        by apply lookup_snoc2;
      destruct (create_fire_choropleth_outcome observed _ metric None s1 _ L) as (s2 & ->)
  end.
  destruct (create_fire_choropleth_outcome observed l metric (Some year) s d E) as (s3 & ->).
  cbn [fst records]. unfold plot_rows. simpl truthy.
  destruct (Z.eqb_spec year 0) as [H0 | _]; [contradiction |].
  apply same_plot_suffix.
Qed.

Lemma choropleth_of_year_selection_witness :
  exists r s1,
    get_fires_by_year (Some 0%nat) 2003 sample_heap = (Ok (Some r), s1)
    /\ same_plot (fst (create_fire_choropleth true (Some r) "fire_count" None s1))
                 (fst (create_fire_choropleth true (Some 0%nat) "fire_count" (Some 2003%Z)
                         sample_heap)).
Proof.
  apply (choropleth_of_year_selection true sample_heap 0%nat (mkDF float64 sample_rows [])
           "fire_count" 2003).
  - reflexivity.
  - discriminate.
Defined.

(** X15. The map of total acres: for a table and year argument for which
    [pd.cut] bins the latitudes and the longitudes of the selected rows
    into 20 bins without raising and gives every coordinate that is
    present a bin, the builder called with ['total_acres'] returns a
    figure titled with the year suffix, and the values of its bins add up
    to the total size of the selected rows that have both coordinates; the
    size of a fire without a coordinate is in no bin. *)
Theorem total_acres_sum (observed : bool) (s : pystate) (df : loc) (d : DataFrame)
        (year : option Z) :
  heap s !! df = Some d ->
  binned (List.map LATITUDE (plot_rows year (records d))) 20 ->
  binned (List.map LONGITUDE (plot_rows year (records d))) 20 ->
  exists fig s',
    create_fire_choropleth observed (Some df) "total_acres" year s = (Ok (Some fig), s')
    /\ title fig = "California Total Acres Burned by Region" +:+ title_year year
    /\ value_sum (data fig)
       == Qsum (List.map FIRE_SIZE (List.filter located (plot_rows year (records d)))).
Proof.
  intros E Hlat Hlon.
  destruct (create_fire_choropleth_outcome observed df "total_acres" year s d E) as (s' & ->).
  destruct (total_acres_plotted observed (plot_rows year (records d)) (title_year year)
                                Hlat Hlon) as (fig & -> & T & V).
  exists fig, s'. split; [reflexivity |]. split; [exact T | exact V].
Qed.

Lemma total_acres_sum_witness :
  exists fig s',
    create_fire_choropleth false (Some 0%nat) "total_acres" (Some 2003%Z) sample_heap
    = (Ok (Some fig), s')
    /\ title fig = "California Total Acres Burned by Region" +:+ title_year (Some 2003%Z)
    /\ value_sum (data fig)
       == Qsum (List.map FIRE_SIZE
                  (List.filter located (plot_rows (Some 2003%Z) sample_rows))).
Proof.
  apply (total_acres_sum false sample_heap 0%nat (mkDF float64 sample_rows []) (Some 2003%Z)).
  - reflexivity.
  - vm_compute. reflexivity.
  - vm_compute. reflexivity.
Defined.

End PlotExtras.

(** ** ca_fires_2000-2015.py: the animated map *)

Module TimeSeriesExtras.
Import Wildfire WildfireSpec LoaderFacts BinningFacts BuilderFacts GroupFacts PlotFacts.

Lemma time_series_outcome (observed : bool) (df : loc) (s : pystate) (d : DataFrame) :
  heap s !! df = Some d ->
  exists s',
    create_time_series_map observed (Some df) s
    = (match bin_table (records d) 15 15 with
       | Raise e => Raise e
       | Ok cols =>
           Ok (Some (mkFigure
                       (aggregate [agg_size; agg_sum]
                          (groupby observed (length (records d))
                             (mkCol None (List.map (fun r => Int (FIRE_YEAR r)) (records d))
                              :: cols)
                             (List.map FIRE_SIZE (records d))))
                       "California Wildfire Activity Over Time (2000-2015)"
                       [("fire_count", "Number of Fires");
                        ("total_acres", "Total Acres Burned")]
                       (Some "FIRE_YEAR") 25 700))
       end, s').
Proof.
  intros E. unfold create_time_series_map.
  unfold bind at 1. rewrite (df_copy_ok df s d E).
  assert (L : heap (with_heap s (heap s ++ [d])%list) !! length (heap s) = Some d)
    by apply lookup_snoc.
  pose proof (add_bins_runs (length (heap s)) 15 15 _ d L) as A.
  pose proof (lookup_lt_Some _ _ _ L) as Hl.
  destruct (bin_table (records d) 15 15) as [cols | e].
  - destruct A as (c1 & c2 & c3 & c4 & -> & A).
    unfold bind at 1. rewrite A.
    run_py. rewrite list_lookup_insert_eq by exact Hl. simpl.
    repeat (first [rewrite list_lookup_insert_eq by exact Hl | rewrite get_set_extra]; simpl).
    eexists. reflexivity.
  - destruct A as (h & A). unfold bind at 1. rewrite A. eexists. reflexivity.
Qed.

(** X16. [create_time_series_map]: without a table it prints a message
    and returns None.  On a table for which [pd.cut] bins the latitudes
    and the longitudes into 15 bins without raising and gives every
    coordinate that is present a bin, it returns a figure animated by
    FIRE_YEAR whose fire counts add up to the number of rows that have
    both coordinates and whose total acres add up to the total size of
    those rows.  On a table without rows it raises the ValueError of
    [pd.cut]. *)
Theorem time_series_totals (observed : bool) (s : pystate) (df : loc) (d : DataFrame) :
  heap s !! df = Some d ->
  create_time_series_map observed None s
  = (Ok None, appends s [[Txt "No data available for visualization"]])
  /\ (binned (List.map LATITUDE (records d)) 15 ->
      binned (List.map LONGITUDE (records d)) 15 ->
      exists fig s',
        create_time_series_map observed (Some df) s = (Ok (Some fig), s')
        /\ animation_frame fig = Some "FIRE_YEAR"
        /\ count_sum (data fig) = Z.of_nat (length (List.filter located (records d)))
        /\ second_sum (data fig)
           == Qsum (List.map FIRE_SIZE (List.filter located (records d))))
  /\ (records d = [] ->
      exists s',
        create_time_series_map observed (Some df) s
        = (Raise (ValueError "Cannot cut empty array"), s')).
Proof.
  intros E. split; [reflexivity |].
  destruct (time_series_outcome observed df s d E) as (s' & R). split.
  - intros Hlat Hlon.
    destruct (bin_keys_ok (records d) 15 15 Hlat Hlon)
      as (c1 & c2 & c3 & c4 & g1 & g2 & g3 & g4 & B & F & N).
    rewrite B in R. eexists _, _. split; [exact R |]. cbn [animation_frame data].
    split; [reflexivity |].
    set (yr := fun r : fire => Int (FIRE_YEAR r)).
    assert (F5 : Forall2 (fun f c => cells c = List.map f (records d))
                   (yr :: [g1; g2; g3; g4])
                   (mkCol None (List.map yr (records d)) :: [c1; c2; c3; c4]))
      by (constructor; [reflexivity | exact F]).
    pose proof (located_rows (records d) g1 g2 g3 g4 yr N (fun _ => eq_refl)) as Lv.
    split.
    + rewrite count_sum_two, groupby_total by apply List.length_map.
      rewrite (key_rows_map (records d) _ _ F5).
      rewrite <- Lv. f_equal. apply ChoroplethClaims.filter_map_length. reflexivity.
    + rewrite second_sum_groups.
      rewrite (Qsum_perm _ _ (groupby_values observed (records d) _ _ FIRE_SIZE F5)).
      rewrite Lv. reflexivity.
  - intros Hr. rewrite Hr in R. eexists. exact R.
Qed.

Lemma time_series_totals_witness :
  let s := sample_heap in
  let d := mkDF float64 sample_rows [] in
  binned (List.map LATITUDE (records d)) 15
  /\ binned (List.map LONGITUDE (records d)) 15
  /\ create_time_series_map true None s
     = (Ok None, appends s [[Txt "No data available for visualization"]])
  /\ (binned (List.map LATITUDE (records d)) 15 ->
      binned (List.map LONGITUDE (records d)) 15 ->
      exists fig s',
        create_time_series_map true (Some 0%nat) s = (Ok (Some fig), s')
        /\ animation_frame fig = Some "FIRE_YEAR"
        /\ count_sum (data fig) = Z.of_nat (length (List.filter located (records d)))
        /\ second_sum (data fig)
           == Qsum (List.map FIRE_SIZE (List.filter located (records d))))
  /\ (records d = [] ->
      exists s',
        create_time_series_map true (Some 0%nat) s
        = (Raise (ValueError "Cannot cut empty array"), s')).
Proof.
  intros s d.
  split; [vm_compute; reflexivity |]. split; [vm_compute; reflexivity |].
  apply (time_series_totals true sample_heap 0%nat (mkDF float64 sample_rows [])).
  reflexivity.
Defined.

End TimeSeriesExtras.

(** ** ca_fires_2000-2015.py: the main block *)

Module MainFacts.
Import Wildfire WildfireSpec WildfireTools LoaderFacts BuilderFacts ExploreFacts.

Lemma step_in_py {A B} (c : Py pystate A) (k : A -> Py session B) (ss : session) :
  bind (in_py c) k ss
  = match c (py ss) with
    | (Ok a, s') => k a (mkSession s' (displayed ss))
    | (Raise e, s') => (Raise e, mkSession s' (displayed ss))
    end.
Proof. unfold bind, in_py. destruct (c (py ss)) as [[a | e] s']; reflexivity. Qed.

Lemma last_in_py {A} (c : Py pystate A) (ss : session) :
  in_py c ss = (fst (c (py ss)), mkSession (snd (c (py ss))) (displayed ss)).
Proof. unfold in_py. destruct (c (py ss)); reflexivity. Qed.

Lemma step_show {B} (f : shown) (k : unit -> Py session B) (ss : session) :
  bind (show f) k ss = k tt (mkSession (py ss) (displayed ss ++ [f])).
Proof. reflexivity. Qed.

(** The main block when the loader returned no table. *)
Lemma main_not_loaded (observed : bool) (ss : session) (s' : pystate) :
  load_california_wildfires default_db_path (py ss) = (Ok None, s') ->
  main observed ss
  = (Ok tt,
     mkSession (appends s' [[Txt "Failed to load data. Check the database path."]])
               (displayed ss)).
Proof.
  intros L. unfold main. rewrite step_in_py, L. rewrite last_in_py. reflexivity.
Qed.

Lemma bar_chart_runs (s : pystate) (l : loc) (d : DataFrame) (n : Z) :
  heap s !! l = Some d ->
  create_cause_bar_chart (Some l) n s
  = (Ok (Some (let top := series_head n (value_counts String.eqb
                                            (List.map STAT_CAUSE_DESCR (records d))) in
               mkBar (List.map fst top) (List.map snd top) (List.map snd top)
                     "Top Fire Causes" "Cause" "Number of Fires" 500)), s).
Proof.
  intros E. unfold create_cause_bar_chart, bind, read_frame, ret. rewrite E. reflexivity.
Qed.

End MainFacts.

Module MainExtras.
Import Wildfire WildfireSpec WildfireTools LoaderFacts BuilderFacts ExploreFacts.
Import PlotFacts MainFacts.

(** X17. The main block when the data cannot be loaded (the database
    file cannot be opened, or the query fails): the run ends normally, no
    figure is shown, no table is created, and the last line printed is
    the advice to check the database path. *)
Theorem main_without_data (observed : bool) (ss : session) :
  files (py ss) default_db_path = Unopenable
  \/ files (py ss) default_db_path = Opens None ->
  exists ss' before,
    main observed ss = (Ok tt, ss')
    /\ displayed ss' = displayed ss
    /\ heap (py ss') = heap (py ss)
    /\ stdout (py ss')
       = (stdout (py ss) ++ before
          ++ [[Txt "Failed to load data. Check the database path."]])%list.
Proof.
  intros [F | F].
  - pose proof (load_unopenable default_db_path (py ss) F) as L.
    rewrite (main_not_loaded observed ss _ L).
    eexists _, _. split; [reflexivity |]. cbn [displayed py appends heap stdout].
    split; [reflexivity |]. split; [reflexivity |].
    rewrite <- List.app_assoc. reflexivity.
  - pose proof (load_query_fails default_db_path (py ss) F) as L.
    rewrite (main_not_loaded observed ss _ L).
    eexists _, _. split; [reflexivity |]. cbn [displayed py appends heap stdout].
    split; [reflexivity |]. split; [reflexivity |].
    rewrite <- List.app_assoc. reflexivity.
Qed.

Lemma main_without_data_witness :
  let ss := mkSession (mkState (fun _ => Unopenable) [] [] [] []) [] in
  exists ss' before,
    main true ss = (Ok tt, ss')
    /\ displayed ss' = displayed ss
    /\ heap (py ss') = heap (py ss)
    /\ stdout (py ss')
       = (stdout (py ss) ++ before
          ++ [[Txt "Failed to load data. Check the database path."]])%list.
Proof.
  intros ss.
  apply (main_without_data true (mkSession (mkState (fun _ => Unopenable) [] [] [] []) [])).
  left. reflexivity.
Defined.

Lemma query_none (fires : list db_row) :
  Forall (fun r => where_clause (selected r) = false) fires -> query fires = [].
Proof.
  intros H. apply Permutation_nil. symmetry.
  rewrite (query_rows fires).
  replace (List.filter where_clause (List.map selected fires)) with (@nil fire); [reflexivity |].
  symmetry. induction H as [| r fires Hr _ IH]; simpl; [reflexivity |].
  rewrite Hr. exact IH.
Qed.

(** X18. The main block on a database in which no fire is Californian
    and of 2000-2015: the table loads without rows, the summary raises
    the TypeError of [nlargest], and the run ends with that error before
    any figure is shown. *)
Theorem main_without_rows (observed : bool) (ss : session) (fires : list db_row) :
  files (py ss) default_db_path = Opens (Some fires) ->
  Forall (fun r => where_clause (selected r) = false) fires ->
  exists ss',
    main observed ss = (Raise nlargest_refused, ss')
    /\ displayed ss' = displayed ss
    /\ heap (py ss') = (heap (py ss) ++ [mkDF object [] []])%list.
Proof.
  intros F H.
  pose proof (load_succeeds default_db_path (py ss) fires F) as L. cbv zeta in L.
  rewrite (query_none fires H) in L.
  unfold main. rewrite step_in_py, L. cbv iota beta.
  rewrite step_in_py. cbn [py].
  match goal with
  | |- context [explore_ca_data (Some ?l) ?s1] =>
      pose proof (explore_runs s1 l (mkDF object [] []) (lookup_snoc _ _)) as X
  end.
  unfold loc in X. rewrite X.
  cbn [nlargest size_dtype].
  eexists. split; [reflexivity |]. split; reflexivity.
Qed.

Lemma main_without_rows_witness :
  let fires := [mkDbRow (sample_fire None "OR" 2004 (15 # 1)) []] in
  let ss := mkSession (mkState (fun _ => Opens (Some fires)) [] [] [] []) [] in
  exists ss',
    main true ss = (Raise nlargest_refused, ss')
    /\ displayed ss' = displayed ss
    /\ heap (py ss') = (heap (py ss) ++ [mkDF object [] []])%list.
Proof.
  intros fires ss.
  apply (main_without_rows true
           (mkSession (mkState (fun _ => Opens (Some [mkDbRow (sample_fire None "OR" 2004 (15 # 1)) []]))
                               [] [] [] []) [])
           [mkDbRow (sample_fire None "OR" 2004 (15 # 1)) []]).
  - reflexivity.
  - repeat constructor.
Defined.

(** X19. The main block on a database for whose selected fires [pd.cut]
    bins the latitudes and the longitudes into 20 bins without raising
    and gives every coordinate that is present a bin: the run ends
    normally and shows exactly two figures, first the map of total acres
    over all years, whose values add up to the total size of the loaded
    fires that have both coordinates, then the bar chart of at most ten
    causes, each with the number of loaded fires that have this cause. *)
Theorem main_shows_map_and_chart (observed : bool) (ss : session) (fires : list db_row) :
  files (py ss) default_db_path = Opens (Some fires) ->
  binned (List.map LATITUDE (query fires)) 20 ->
  binned (List.map LONGITUDE (query fires)) 20 ->
  exists fig bar ss',
    main observed ss = (Ok tt, ss')
    /\ displayed ss' = (displayed ss ++ [ShowMap fig; ShowBar bar])%list
    /\ title fig = "California Total Acres Burned by Region (2000-2015)"
    /\ value_sum (data fig)
       == Qsum (List.map FIRE_SIZE (List.filter located (query fires)))
    /\ (length (bar_x bar) <= 10)%nat
    /\ bar_text bar = bar_y bar
    /\ (forall cause count, In (cause, count) (combine (bar_x bar) (bar_y bar)) ->
          count = frequency String.eqb cause (List.map STAT_CAUSE_DESCR (query fires))).
Proof.
  intros F Hlat Hlon.
  pose proof (load_succeeds default_db_path (py ss) fires F) as L. cbv zeta in L.
  assert (T : match query fires with [] => object | _ => float64 end = float64).
  { destruct (query fires); [discriminate Hlat | reflexivity]. }
  rewrite T in L. clear T.
  set (rows := query fires) in *. set (d := mkDF float64 rows []) in *.
  unfold main. rewrite step_in_py, L. cbv iota beta.
  match goal with
  | |- context [mkSession ?s (displayed ss)] => set (s1 := s)
  end.
  assert (L1 : heap s1 !! length (heap (py ss)) = Some d) by apply lookup_snoc.
  clearbody s1.
  pose proof (explore_runs s1 _ d L1) as X. unfold loc in X.
  rewrite step_in_py. cbn [py displayed]. rewrite X. clear X.
  cbn [nlargest size_dtype d].
  repeat (rewrite step_in_py; cbn [py displayed]; rewrite last_print, ?appends_appends).
  match goal with
  | |- context [mkSession ?s (displayed ss)] => set (s2 := s)
  end.
  assert (L2 : heap s2 !! length (heap (py ss)) = Some d) by exact L1.
  clearbody s2.
  pose proof (FrameFacts.keeps_lookup
                (create_fire_choropleth observed (Some (length (heap (py ss)))) "total_acres" None)
                s2 _ d (FrameFacts.keeps_create_fire_choropleth (heap s2) observed _ _ _) L2)
    as L3.
  destruct (create_fire_choropleth_outcome observed _ "total_acres" None s2 d L2) as (s3 & C).
  destruct (total_acres_plotted observed rows (title_year None) Hlat Hlon)
    as (fig & P & Tt & V).
  change (plot_rows None (records d)) with rows in C. rewrite P in C.
  unfold loc in *. rewrite C in L3. cbn [snd] in L3.
  rewrite step_in_py. cbn [py displayed]. rewrite C. cbv iota beta.
  rewrite step_show. cbn [py displayed].
  rewrite step_in_py. cbn [py displayed]. rewrite last_print.
  rewrite step_in_py. cbn [py displayed].
  rewrite (bar_chart_runs (appends s3 _) _ d 10 L3). cbv iota beta zeta.
  destruct (BarChartExtras.top_counts 10 (List.map STAT_CAUSE_DESCR rows))
    as (_ & Fq & _).
  eexists fig, _, _. split; [reflexivity |].
  split; [cbn [displayed]; rewrite <- List.app_assoc; reflexivity |].
  split; [exact Tt |]. split; [exact V |].
  cbn [bar_x bar_y bar_text].
  change (series_head 10 ?l) with (firstn 10 l).
  split; [rewrite length_map; apply firstn_le_length |].
  split; [reflexivity |].
  intros cause count H. rewrite BarChartExtras.combine_fst_snd in H.
  apply (Fq cause count H).
Qed.

Lemma main_shows_map_and_chart_witness :
  let ss := mkSession sample_state [] in
  exists fig bar ss',
    main true ss = (Ok tt, ss')
    /\ displayed ss' = (displayed ss ++ [ShowMap fig; ShowBar bar])%list
    /\ title fig = "California Total Acres Burned by Region (2000-2015)"
    /\ value_sum (data fig)
       == Qsum (List.map FIRE_SIZE (List.filter located (query sample_fires)))
    /\ (length (bar_x bar) <= 10)%nat
    /\ bar_text bar = bar_y bar
    /\ (forall cause count, In (cause, count) (combine (bar_x bar) (bar_y bar)) ->
          count = frequency String.eqb cause (List.map STAT_CAUSE_DESCR (query sample_fires))).
Proof.
  intros ss.
  apply (main_shows_map_and_chart true (mkSession sample_state []) sample_fires).
  - reflexivity.
  - vm_compute. reflexivity.
  - vm_compute. reflexivity.
Defined.

End MainExtras.

(** ** ca_fires_2000-2015.py, lines 122-135: the bin columns *)

Module BinExtras.
Import Wildfire WildfireSpec BinningFacts.



End BinExtras.

(** ** ca_fires_2000-2015.py: what the loader reports *)

Module LoaderExtras.
Import Wildfire WildfireSpec LoaderFacts.

Lemma fold_min_spec (l : list Z) (a : Z) :
  let m := fold_left Z.min l a in
  (m <= a)%Z /\ (forall x, In x l -> (m <= x)%Z) /\ (m = a \/ In m l).
Proof.
  revert a. induction l as [| y l IH]; intros a; simpl.
  - split; [lia |]. split; [intros x [] | left; reflexivity].
  - destruct (IH (Z.min a y)) as (H1 & H2 & H3). split; [lia |]. split.
    + intros x [<- | Hx]; [lia | apply H2; exact Hx].
    + destruct H3 as [H3 | H3]; [| right; right; exact H3].
      destruct (Z.min_spec a y) as [[_ E] | [_ E]];
        [left; congruence | right; left; congruence].
Qed.

Lemma fold_max_spec (l : list Z) (a : Z) :
  let m := fold_left Z.max l a in
  (a <= m)%Z /\ (forall x, In x l -> (x <= m)%Z) /\ (m = a \/ In m l).
Proof.
  revert a. induction l as [| y l IH]; intros a; simpl.
  - split; [lia |]. split; [intros x [] | left; reflexivity].
  - destruct (IH (Z.max a y)) as (H1 & H2 & H3). split; [lia |]. split.
    + intros x [<- | Hx]; [lia | apply H2; exact Hx].
    + destruct H3 as [H3 | H3]; [| right; right; exact H3].
      destruct (Z.max_spec a y) as [[_ E] | [_ E]];
        [right; left; congruence | left; congruence].
Qed.

(** The year range of a table with at least one row. *)
Lemma year_range (rows : list fire) :
  rows <> [] ->
  exists lo hi,
    year_min rows = Some lo /\ year_max rows = Some hi
    /\ (forall r, In r rows -> (lo <= FIRE_YEAR r <= hi)%Z)
    /\ (exists r, In r rows /\ FIRE_YEAR r = lo)
    /\ (exists r, In r rows /\ FIRE_YEAR r = hi).
Proof.
  destruct rows as [| r rows]; [congruence | intros _].
  destruct (fold_min_spec (List.map FIRE_YEAR rows) (FIRE_YEAR r)) as (A1 & A2 & A3).
  destruct (fold_max_spec (List.map FIRE_YEAR rows) (FIRE_YEAR r)) as (B1 & B2 & B3).
  eexists _, _. split; [reflexivity |]. split; [reflexivity |]. split; [| split].
  - intros x [<- | Hx]; [lia |].
    split; [apply A2 | apply B2]; apply in_map; exact Hx.
  - destruct A3 as [A3 | A3].
    + exists r. split; [left; reflexivity | symmetry; exact A3].
    + apply in_map_iff in A3. destruct A3 as (x & E & Hx).
      exists x. split; [right; exact Hx | exact E].
  - destruct B3 as [B3 | B3].
    + exists r. split; [left; reflexivity | symmetry; exact B3].
    + apply in_map_iff in B3. destruct B3 as (x & E & Hx).
      exists x. split; [right; exact Hx | exact E].
Qed.

Lemma last_year_max (rows : list fire) (hi : Z) :
  StronglySorted precedes rows ->
  (forall r, In r rows -> (FIRE_YEAR r <= hi)%Z) ->
  (exists r, In r rows /\ FIRE_YEAR r = hi) ->
  option_map FIRE_YEAR (last rows) = Some hi.
Proof.
  induction rows as [| r0 rest IH]; intros Srt Hall (rh & Hrh & Eh); [destruct Hrh |].
  destruct rest as [| r1 rest'].
  - destruct Hrh as [-> | []]. simpl. f_equal. exact Eh.
  - change (last (r0 :: r1 :: rest')) with (last (r1 :: rest')).
    apply StronglySorted_inv in Srt. destruct Srt as [Srt Hfst].
    rewrite List.Forall_forall in Hfst.
    apply IH; [exact Srt | intros r Hr; apply Hall; right; exact Hr |].
    destruct Hrh as [-> | Hrh]; [| exists rh; split; assumption].
    exists r1. split; [left; reflexivity |].
    specialize (Hfst r1 (or_introl eq_refl)). apply precedes_spec in Hfst.
    pose proof (Hall r1 (or_intror (or_introl eq_refl))). lia.
Qed.

(** X21. What the loader reports when the query returns rows: the
    number of rows of the table it returns, and a year range whose ends
    are the smallest and the largest year of the table; both lie within
    2000-2015, and they are the years of the first and of the last row.
    The output consists of the announcement and the three lines of the
    report. *)
Theorem loader_reports (path : string) (s : pystate) (fires : list db_row) :
  files s path = Opens (Some fires) ->
  query fires <> [] ->
  exists l s' d lo hi,
    load_california_wildfires path s = (Ok (Some l), s')
    /\ heap s' !! l = Some d
    /\ stdout s'
       = (stdout s
          ++ [[Txt "Loading California wildfire data (2000-2015)..."];
              [Txt "✓ Successfully loaded "; Num (Z.of_nat (length (records d)));
               Txt " California fires"];
              [Txt "✓ Years: "; Val (Some lo); Txt "-"; Val (Some hi)];
              [Txt "✓ Columns: "; Names columns]])%list
    /\ (2000 <= lo <= hi)%Z /\ (hi <= 2015)%Z
    /\ (forall r, In r (records d) -> (lo <= FIRE_YEAR r <= hi)%Z)
    /\ option_map FIRE_YEAR (List.head (records d)) = Some lo
    /\ option_map FIRE_YEAR (last (records d)) = Some hi.
Proof.
  intros F Hne.
  pose proof (load_succeeds path s fires F) as L. cbv zeta in L.
  destruct (year_range (query fires) Hne) as (lo & hi & Emin & Emax & Hall & Hlo & Hhi).
  assert (W : forall r, In r (query fires) -> (2000 <= FIRE_YEAR r <= 2015)%Z).
  { intros r Hr. apply (Permutation_in _ (query_rows fires)) in Hr.
    apply filter_In in Hr. destruct Hr as [_ Hr]. apply where_clause_spec in Hr. tauto. }
  pose proof (query_sorted fires) as Srt.
  rewrite Emin, Emax in L.
  eexists _, _, _, lo, hi. split; [exact L |]. cbn [heap stdout].
  split; [apply lookup_snoc |]. cbn [records].
  split; [reflexivity |].
  destruct Hlo as (rl & Hrl & El). destruct Hhi as (rh & Hrh & Eh).
  pose proof (Hall rl Hrl). pose proof (W rl Hrl). pose proof (W rh Hrh).
  split; [lia |]. split; [lia |]. split; [exact Hall |].
  split.
  - destruct (query fires) as [| r0 rest]; [congruence |]. simpl. f_equal.
    apply StronglySorted_inv in Srt. destruct Srt as [_ Hfst].
    rewrite List.Forall_forall in Hfst.
    destruct Hrl as [-> | Hrl]; [exact El |].
    specialize (Hfst rl Hrl). apply precedes_spec in Hfst.
    pose proof (Hall r0 (or_introl eq_refl)). lia.
  - apply last_year_max; [exact Srt | intros r Hr; apply Hall; exact Hr |].
    exists rh. split; assumption.
Qed.

Lemma loader_reports_witness :
  exists l s' d lo hi,
    load_california_wildfires default_db_path sample_state = (Ok (Some l), s')
    /\ heap s' !! l = Some d
    /\ stdout s'
       = (stdout sample_state
          ++ [[Txt "Loading California wildfire data (2000-2015)..."];
              [Txt "✓ Successfully loaded "; Num (Z.of_nat (length (records d)));
               Txt " California fires"];
              [Txt "✓ Years: "; Val (Some lo); Txt "-"; Val (Some hi)];
              [Txt "✓ Columns: "; Names columns]])%list
    /\ (2000 <= lo <= hi)%Z /\ (hi <= 2015)%Z
    /\ (forall r, In r (records d) -> (lo <= FIRE_YEAR r <= hi)%Z)
    /\ option_map FIRE_YEAR (List.head (records d)) = Some lo
    /\ option_map FIRE_YEAR (last (records d)) = Some hi.
Proof.
  apply (loader_reports default_db_path sample_state sample_fires).
  - reflexivity.
  - vm_compute. discriminate.
Defined.

End LoaderExtras.
